(** * Retail Analytics Dashboard (Streamlit.py): session state, navigation,
      query gateway, chart dispatch and export.

    A shallow embedding of [src/Streamlit.py].  Python values are modelled as
    follows.

    - [str] is [string]; every catalog text of the program is ASCII, so one
      character is one code point.
    - [dict] is an association list kept in insertion order with unique keys
      ([PyDict]): iteration order decides which table wins in the export.
    - a [pandas.DataFrame] is an object on a heap ([DataFrame] behind a
      [ref]): the table stored in [st.session_state.responses] and the local
      [result_df] of [category_page] are the same object.
    - [st.session_state] is the record [session_state]; everything else a
      script run can touch (the object heap, the widgets emitted, the calls
      made on the Neo4j driver) is in [world].
    - statements run in the monad [M]: state passing with Python exceptions
      and Streamlit's [st.rerun()].
    - the Neo4j server and the Cypher text of each catalog entry are
      parameters of the development ([Section Program]).

    Covered: the session state (lines 17-29), [connect_to_neo4j],
    [run_neo4j_query] and the navigation functions (32-77), the texts of the
    catalog (80-777), [category_page] with its chart blocks (857-1320), the
    disconnect and export handlers of the sidebar (1344-1395) and [on_exit]
    (1404-1406).  [home_page] (780-854) and the navigation buttons of the
    sidebar (1323-1339) only call functions covered here; their calls appear
    as the [action]s of [perform]. *)

From Stdlib Require Import String Ascii List Bool Arith ZArith Lia.
From Stdlib Require Import DecimalString.
From Stdlib Require DecimalZ DecimalPos.
Import ListNotations.
Local Open Scope list_scope.
Local Open Scope string_scope.

(* ------------------------------------------------------------------ *)
(** ** Python strings *)

Module PyStr.

  (** [str.isspace] on one code point below 256. *)
Definition isspace (c : ascii) : bool :=
    let n := nat_of_ascii c in
    ((9 <=? n)%nat && (n <=? 13)%nat) || ((28 <=? n)%nat && (n <=? 32)%nat)
    || (n =? 133)%nat || (n =? 160)%nat.

Fixpoint lstrip (s : string) : string :=
    match s with
    | String c s' => if isspace c then lstrip s' else s
    | EmptyString => EmptyString
    end.

Fixpoint rev_append (s acc : string) : string :=
    match s with
    | String c s' => rev_append s' (String c acc)
    | EmptyString => acc
    end.

Definition rev (s : string) : string := rev_append s EmptyString.

Definition rstrip (s : string) : string := rev (lstrip (rev s)).

  (** [s.strip()] *)
Definition strip (s : string) : string := rstrip (lstrip s).

  (** [s.startswith(p)] *)
Definition startswith (s p : string) : bool := String.prefix p s.

  (** [s.endswith(p)] *)
Definition endswith (s p : string) : bool := String.prefix (rev p) (rev s).

  (** [s[:n]] *)
Definition slice_to (n : nat) (s : string) : string := String.substring 0 n s.

  (** [s.split(sep)] for a non-empty separator: a left-to-right scan for
      non-overlapping occurrences.  [skip] counts the characters of a matched
      separator still to be dropped, [cur] is the current piece, reversed. *)
Fixpoint split_go (sep : string) (skip : nat) (cur : string) (s : string)
    : list string :=
    match skip with
    | S k =>
        match s with
        | String _ s' => split_go sep k cur s'
        | EmptyString => [rev cur]
        end
    | O =>
        match s with
        | EmptyString => [rev cur]
        | String c s' =>
            if String.prefix sep s
            then rev cur :: split_go sep (String.length sep - 1) EmptyString s'
            else split_go sep O (String c cur) s'
        end
    end.

Definition split (s sep : string) : list string :=
    split_go sep O EmptyString s.

  (** [xs[-1]] on a list that [split] returned (never empty). *)
Definition last (xs : list string) : string := List.last xs EmptyString.

  (** [str(n)] for an integer. *)
Definition of_Z (z : Z) : string := NilZero.string_of_int (Z.to_int z).

End PyStr.

(* ------------------------------------------------------------------ *)
(** ** Python dictionaries with string keys *)

Module PyDict.

Definition t (V : Type) : Type := list (string * V).

Definition empty {V} : t V := [].

  (** [d.get(k)] / [d[k]] *)
Fixpoint get {V} (k : string) (d : t V) : option V :=
    match d with
    | [] => None
    | (k', v) :: d' => if String.eqb k k' then Some v else get k d'
    end.

  (** [k in d] *)
Definition mem {V} (k : string) (d : t V) : bool :=
    match get k d with Some _ => true | None => false end.

  (** [d[k] = v]: an existing key keeps its position, a new key goes last. *)
Fixpoint set {V} (k : string) (v : V) (d : t V) : t V :=
    match d with
    | [] => [(k, v)]
    | (k', v') :: d' =>
        if String.eqb k k' then (k', v) :: d' else (k', v') :: set k v d'
    end.

  (** [d.keys()] and [d.items()] *)
Definition keys {V} (d : t V) : list string := map fst d.
Definition items {V} (d : t V) : list (string * V) := d.

  (** The representation invariant of a dictionary. *)
Definition wf {V} (d : t V) : Prop := NoDup (keys d).

End PyDict.

(* ------------------------------------------------------------------ *)
(** ** Result tables *)

(** A cell of a result table.  No statement of the program computes with a
    cell; the only use of a cell's value is [str()] in the label of the
    co-purchase chart. *)
Inductive scalar :=
| PyNone
| PyNaN
| PyInt (n : Z)
| PyText (s : string).

(** The text of a cell inside an f-string.  It is exact for a text cell.
    For the other cells it is the text of the value as the database gave
    it; what pandas hands to the f-string instead depends on the type it
    gave the whole column and the row (an integer next to a missing value
    is printed as a float), which the model does not follow.  Statements
    that fix a label are stated for text cells. *)
Definition str_scalar (v : scalar) : string :=
  match v with
  | PyNone => "None"
  | PyNaN => "nan"
  | PyInt n => PyStr.of_Z n
  | PyText s => s
  end.

(** What [record.data()] returns: a dictionary from column name to value. *)
Definition record := PyDict.t scalar.

(** A [pandas.DataFrame] with the default index: column labels and rows. *)
Record DataFrame := {
  columns : list string;
  rows : list (list scalar)
}.

Module Pandas.

(** [pd.DataFrame()] *)
Definition DataFrame_empty : DataFrame := {| columns := []; rows := [] |}.

Definition add_label (cols : list string) (k : string) : list string :=
  if existsb (String.eqb k) cols then cols else (cols ++ [k])%list.

(** Column labels of [pd.DataFrame(data)]: the keys of the records in the
    order of first appearance. *)
Definition labels_of (data : list record) : list string :=
  fold_left (fun cols r => fold_left add_label (PyDict.keys r) cols) data [].

Definition cell (r : record) (k : string) : scalar :=
  match PyDict.get k r with Some v => v | None => PyNaN end.

(** [pd.DataFrame(data)] for a list of dictionaries. *)
Definition DataFrame_of (data : list record) : DataFrame :=
  let cols := labels_of data in
  {| columns := cols; rows := map (fun r => map (cell r) cols) data |}.

(** [df.empty]: some axis has length zero. *)
Definition empty (df : DataFrame) : bool :=
  match columns df, rows df with
  | [], _ => true
  | _, [] => true
  | _, _ => false
  end.

(** [c in df.columns] *)
Definition has_column (c : string) (df : DataFrame) : bool :=
  existsb (String.eqb c) (columns df).

(** [{c1, ..., cn}.issubset(df.columns)] *)
Definition issubset (cs : list string) (df : DataFrame) : bool :=
  forallb (fun c => has_column c df) cs.

Fixpoint index_of (c : string) (cols : list string) : option nat :=
  match cols with
  | [] => None
  | c' :: cols' =>
      if String.eqb c c' then Some O
      else option_map S (index_of c cols')
  end.

(** [row[c]] for a row of [df] *)
Definition row_get (df : DataFrame) (row : list scalar) (c : string) : scalar :=
  match index_of c (columns df) with
  | Some i => nth i row PyNaN
  | None => PyNaN
  end.

Fixpoint replace_nth {A} (i : nat) (x : A) (l : list A) : list A :=
  match l, i with
  | [], _ => []
  | _ :: l', O => x :: l'
  | y :: l', S i' => y :: replace_nth i' x l'
  end.

(** [df[c] = values]: an existing column is overwritten in place, a new
    column is appended on the right. *)
Definition set_column (c : string) (values : list scalar) (df : DataFrame)
  : DataFrame :=
  match index_of c (columns df) with
  | Some i =>
      {| columns := columns df;
         rows := map (fun rv => replace_nth i (snd rv) (fst rv))
                     (combine (rows df) values) |}
  | None =>
      {| columns := (columns df ++ [c])%list;
         rows := map (fun rv => (fst rv ++ [snd rv])%list)
                     (combine (rows df) values) |}
  end.

(** [df.apply(f, axis=1)] *)
Definition apply_rows (f : list scalar -> scalar) (df : DataFrame)
  : list scalar :=
  map f (rows df).

End Pandas.

(* ------------------------------------------------------------------ *)
(** ** Session state and the world of a script run *)

(** [st.session_state.current_page]: the program only ever assigns the two
    literals ["Home"] and ["Category"]. *)
Inductive page := Home | Category.

(** A driver object returned by [GraphDatabase.driver]. *)
Record driver := {
  drv_id : nat;
  drv_uri : string;
  drv_user : string;
  drv_password : string
}.

(** A reference to a [DataFrame] object on the heap. *)
Definition ref := nat.

(** [st.session_state] (lines 17-29). *)
Record session_state := {
  current_page : page;
  category : option string;
  section : option string;
  responses : PyDict.t ref;
  neo4j_connected : bool;
  neo4j_driver : option driver
}.

Definition initial_session : session_state :=
  {| current_page := Home;
     category := None;
     section := None;
     responses := PyDict.empty;
     neo4j_connected := false;
     neo4j_driver := None |}.

Definition set_current_page (p : page) (s : session_state) : session_state :=
  {| current_page := p; category := category s; section := section s;
     responses := responses s; neo4j_connected := neo4j_connected s;
     neo4j_driver := neo4j_driver s |}.

Definition set_category (c : option string) (s : session_state)
  : session_state :=
  {| current_page := current_page s; category := c; section := section s;
     responses := responses s; neo4j_connected := neo4j_connected s;
     neo4j_driver := neo4j_driver s |}.

Definition set_section (x : option string) (s : session_state)
  : session_state :=
  {| current_page := current_page s; category := category s; section := x;
     responses := responses s; neo4j_connected := neo4j_connected s;
     neo4j_driver := neo4j_driver s |}.

Definition set_responses (r : PyDict.t ref) (s : session_state)
  : session_state :=
  {| current_page := current_page s; category := category s;
     section := section s; responses := r;
     neo4j_connected := neo4j_connected s; neo4j_driver := neo4j_driver s |}.

Definition set_neo4j_connected (b : bool) (s : session_state)
  : session_state :=
  {| current_page := current_page s; category := category s;
     section := section s; responses := responses s;
     neo4j_connected := b; neo4j_driver := neo4j_driver s |}.

Definition set_neo4j_driver (d : option driver) (s : session_state)
  : session_state :=
  {| current_page := current_page s; category := category s;
     section := section s; responses := responses s;
     neo4j_connected := neo4j_connected s; neo4j_driver := d |}.

(** Plotly Express constructors used by the chart blocks. *)
Inductive chart_kind := px_pie | px_bar | px_imshow | px_line | px_strip
                      | px_scatter.

(** The data-shaping step a chart block applies before plotting. *)
Inductive recipe :=
| Plain
| ValueCounts (col : string)
| SortValues (col : string) (ascending : bool)
| SortHead (col : string) (ascending : bool) (n : nat)
| Pivot (index cols values : string)
| PivotPercentOfFirst (index cols values : string)
| Reversed
| Melt (id_var : string) (value_vars : list string).

(** A figure handed to [st.plotly_chart]: the table it was built from, the
    shaping recipe, the constructor and the title. *)
Record chart := {
  chart_kind_of : chart_kind;
  chart_title : string;
  chart_recipe : recipe;
  chart_data : DataFrame
}.

(** The contents of a download. *)
Inductive file_data :=
| Csv (df : DataFrame)
| Xlsx (sheets : list (string * DataFrame)).

(** What a script run puts on the page, in order. *)
Inductive widget :=
| st_title (s : string)
| st_subheader (s : string)
| st_markdown (s : string)
| st_button (label key : string)
| st_spinner (s : string)
| st_error (s : string)
| st_success (s : string)
| st_dataframe (df : DataFrame)
| st_plotly_chart (fig : chart)
| sidebar_error (s : string)
| sidebar_warning (s : string)
| sidebar_success (s : string)
| sidebar_download_button (label file_name : string) (data : file_data).

(** One call of [session.run] on a driver. *)
Record db_call := {
  call_driver : nat;
  call_query : string;
  call_params : record
}.

Record world := {
  session : session_state;
  heap : list DataFrame;        (* DataFrame objects, by reference *)
  ui : list widget;             (* widgets emitted so far *)
  clicked : option string;      (* key of the button that caused this run *)
  db_log : list db_call;        (* requests sent to the database *)
  drivers_made : nat;           (* driver objects created so far *)
  close_log : list nat          (* drivers on which [close()] was called *)
}.

Definition initial_world : world :=
  {| session := initial_session; heap := []; ui := []; clicked := None;
     db_log := []; drivers_made := 0; close_log := [] |}.

Definition with_session (f : session_state -> session_state) (w : world)
  : world :=
  {| session := f (session w); heap := heap w; ui := ui w;
     clicked := clicked w; db_log := db_log w;
     drivers_made := drivers_made w; close_log := close_log w |}.

Definition with_heap (f : list DataFrame -> list DataFrame) (w : world)
  : world :=
  {| session := session w; heap := f (heap w); ui := ui w;
     clicked := clicked w; db_log := db_log w;
     drivers_made := drivers_made w; close_log := close_log w |}.

Definition with_ui (f : list widget -> list widget) (w : world) : world :=
  {| session := session w; heap := heap w; ui := f (ui w);
     clicked := clicked w; db_log := db_log w;
     drivers_made := drivers_made w; close_log := close_log w |}.

Definition with_clicked (k : option string) (w : world) : world :=
  {| session := session w; heap := heap w; ui := ui w;
     clicked := k; db_log := db_log w;
     drivers_made := drivers_made w; close_log := close_log w |}.

Definition with_db_log (f : list db_call -> list db_call) (w : world)
  : world :=
  {| session := session w; heap := heap w; ui := ui w;
     clicked := clicked w; db_log := f (db_log w);
     drivers_made := drivers_made w; close_log := close_log w |}.

Definition with_drivers_made (n : nat) (w : world) : world :=
  {| session := session w; heap := heap w; ui := ui w;
     clicked := clicked w; db_log := db_log w;
     drivers_made := n; close_log := close_log w |}.

Definition with_close_log (f : list nat -> list nat) (w : world) : world :=
  {| session := session w; heap := heap w; ui := ui w;
     clicked := clicked w; db_log := db_log w;
     drivers_made := drivers_made w; close_log := f (close_log w) |}.

(* ------------------------------------------------------------------ *)
(** ** Statements: state, exceptions and [st.rerun()] *)

(** Python exceptions raised in the modelled code, with their [str()]. *)
Inductive exn :=
| KeyError (k : string)
| ValueError (msg : string)
| Neo4jError (msg : string).

Definition str_exn (e : exn) : string :=
  match e with
  | KeyError k => "'" ++ k ++ "'"
  | ValueError msg => msg
  | Neo4jError msg => msg
  end.

(** How a statement ends: normally, with an exception, or with the script
    run stopped by [st.rerun()] (not an [Exception]: no [except Exception]
    clause catches it). *)
Inductive result (A : Type) :=
| Ok (a : A)
| Raise (e : exn)
| Rerun.
Arguments Ok {A} a.
Arguments Raise {A} e.
Arguments Rerun {A}.

Definition M (A : Type) : Type := world -> result A * world.

Definition ret {A} (a : A) : M A := fun w => (Ok a, w).

Definition bind {A B} (m : M A) (k : A -> M B) : M B :=
  fun w =>
    match m w with
    | (Ok a, w') => k a w'
    | (Raise e, w') => (Raise e, w')
    | (Rerun, w') => (Rerun, w')
    end.

Declare Scope py_scope.
Delimit Scope py_scope with py.
Notation "x <- m ;; k" := (bind m (fun x => k))
  (at level 61, m at next level, right associativity) : py_scope.
Notation "m ;; k" := (bind m (fun _ => k))
  (at level 61, right associativity) : py_scope.
Local Open Scope py_scope.

Definition raise {A} (e : exn) : M A := fun w => (Raise e, w).

(** [st.rerun()] *)
Definition st_rerun {A} : M A := fun w => (Rerun, w).

Definition get_world : M world := fun w => (Ok w, w).

Definition get_session : M session_state := fun w => (Ok (session w), w).

Definition update (f : world -> world) : M unit := fun w => (Ok tt, f w).

Definition update_session (f : session_state -> session_state) : M unit :=
  update (with_session f).

(** [try: body except Exception as e: handler(e)] *)
Definition try_except {A} (body : M A) (handler : exn -> M A) : M A :=
  fun w =>
    match body w with
    | (Raise e, w') => handler e w'
    | r => r
    end.

(** [if b: body] *)
Definition when (b : bool) (body : M unit) : M unit :=
  if b then body else ret tt.

(** [for x in xs: body(x)] *)
Fixpoint for_each {A} (xs : list A) (body : A -> M unit) : M unit :=
  match xs with
  | [] => ret tt
  | x :: xs' => body x ;; for_each xs' body
  end.

(** A widget call that only draws. *)
Definition emit (x : widget) : M unit := update (with_ui (fun u => (u ++ [x])%list)).

(** [st.button(label, key=key)]: draws the button and tells whether it is
    the one whose click started this run. *)
Definition button (label key : string) : M bool :=
  emit (st_button label key) ;;
  w <- get_world ;;
  ret (match clicked w with
       | Some k => String.eqb k key
       | None => false
       end).

(** A new [DataFrame] object. *)
Definition new_frame (df : DataFrame) : M ref :=
  fun w => (Ok (length (heap w)), with_heap (fun h => (h ++ [df])%list) w).

(** Reading the object behind a reference. *)
Definition deref (r : ref) : M DataFrame :=
  fun w => (Ok (nth r (heap w) Pandas.DataFrame_empty), w).

(** In-place mutation of the object behind a reference. *)
Definition mutate (r : ref) (f : DataFrame -> DataFrame) : M unit :=
  update (with_heap (fun h =>
    match nth_error h r with
    | Some df => Pandas.replace_nth r (f df) h
    | None => h
    end)).

(* ------------------------------------------------------------------ *)
(** ** Navigation functions (lines 65-77) *)

Definition navigate_to_home (s : session_state) : session_state :=
  set_section None (set_category None (set_current_page Home s)).

Definition navigate_to_category (c : string) (s : session_state)
  : session_state :=
  set_section None (set_category (Some c) (set_current_page Category s)).

Definition navigate_to_section (x : string) (s : session_state)
  : session_state :=
  set_section (Some x) s.

(** The assignment behind the "Back to Sections" button (line 1319). *)
Definition clear_section (s : session_state) : session_state :=
  set_section None s.

(** The four navigation operations of the controller. *)
Inductive nav_call :=
| goHome
| selectCategory (c : string)
| selectSection (x : string)
| backToSections.

Definition nav_step (s : session_state) (a : nav_call) : session_state :=
  match a with
  | goHome => navigate_to_home s
  | selectCategory c => navigate_to_category c s
  | selectSection x => navigate_to_section x s
  | backToSections => clear_section s
  end.

(** The states after each call of a sequence, in order. *)
Fixpoint nav_trace (s : session_state) (calls : list nav_call)
  : list session_state :=
  match calls with
  | [] => []
  | a :: calls' => nav_step s a :: nav_trace (nav_step s a) calls'
  end.

Definition nav_run (s : session_state) (calls : list nav_call)
  : session_state :=
  fold_left nav_step calls s.

(** A section is selected only inside a category, on the category page. *)
Definition nav_invariant (s : session_state) : Prop :=
  section s <> None -> category s <> None /\ current_page s = Category.

(** The pages only offer section buttons while a category is shown: the
    section grid of [category_page] (line 875) and the sidebar entries
    (lines 1336-1339). *)
Definition category_active (s : session_state) : bool :=
  match category s, current_page s with
  | Some _, Category => true
  | _, _ => false
  end.

(** A sequence of calls in which every [selectSection] is made while a
    category is active. *)
Fixpoint section_calls_guarded (s : session_state) (calls : list nav_call)
  : bool :=
  match calls with
  | [] => true
  | a :: calls' =>
      match a with
      | selectSection _ => category_active s
      | _ => true
      end && section_calls_guarded (nav_step s a) calls'
  end.

(* ------------------------------------------------------------------ *)
(** ** The catalog (lines 80-777): category, section, question texts *)

Definition catalog : list (string * list (string * list string)) :=
  [ ("Customer Lifecycle & Behavior",
     [ ("Customer Journey Evolution",
        [ "How does the average cart size evolve over a customer's lifetime (by order number)?";
          "What's the typical progression of departments that new customers explore over their first 5 orders?";
          "How many aisles do new clients usually browse throughout their first 5 orders?";
          "How does order hour preference evolve for departments over time?";
          "How does customer/basket share vary across product categories over time?" ]);
       ("Customer Retention & Segmentation",
        [ "How does customer retention vary over time based on their preferred shopping department?";
          "Which products play a central role in the early purchasing patterns of retained customers?";
          "Can we identify distinct customer segments based on ordering day/time patterns?" ]);
       ("Purchase Pattern Transitions",
        [ "Which products are most frequently transitioned into by loyal customers?";
          "Which products serve as 'gateway purchases' that lead to exploration of new departments?" ]) ]);
    ("Reorder Behavior & Loyalty Drivers",
     [ ("Reorder Dynamics",
        [ "Are customers reordering items popular with others in their first order?";
          "How does reorder frequency vary with days_since_prior_order for frequently purchased items?";
          "What's the relationship between a product's department and reorder likelihood?" ]);
       ("Promotions & Reorder Uplift",
        [ "Which products are most often added to cart in the first 3 positions?";
          "Do users prefer reordering familiar products early or exploring new ones in the first 3 cart additions?";
          "Which product categories have the highest uplift in sales?" ]) ]);
    ("Product Affinity, Graphs & Recommendations",
     [ ("Co-Purchase Patterns & Product Graphs",
        [ "What are the top product pairings based on co-purchase frequency?";
          "What products have the highest cross-department purchase correlation?";
          "Which items act as a 'bridge' between different product communities?" ]);
       ("Community Detection & Recommendation Modeling",
        [ "Do high-centrality products (high betweenness) make better recommendations than low-centrality ones?" ]) ]);
    ("Demand Trends & Seasonality",
     [ ("Product Lifecycle & Decline",
        [ "Which products show the sharpest drop in demand over time?" ]);
       ("Seasonal Effects",
        [ "Which product categories exhibit strong day-of-week effects?";
          "What is the day-of-week effect on order size across different product categories?" ]) ]);
    ("Supply Chain & Delivery Performance",
     [ ("Delivery Success Factors",
        [ "Which suppliers have the highest delivery success rates?";
          "What proportion of shipments are in transit, delivered and dispatched?" ]);
       ("Efficiency Drivers",
        [ "What is the average delivery delay (in days) for shipments by category?";
          "How does product category mix affect on-time delivery?";
          "How does supply chain performance vary with seasonal demand fluctuations?" ]) ]);
    ("Performance Metrics & Sales KPIs",
     [ ("Priority stocking & display strategy",
        [ "Which products connect the widest variety of departments and have high co-purchase influence?" ]);
       ("Resource allocation and marketing focus",
        [ "Which departments contribute most to overall order volume?" ]) ]) ].

(** Every (category, section, question) of the catalog. *)
Definition catalog_entries : list (string * string * string) :=
  flat_map (fun cs =>
    flat_map (fun sq => map (fun q => (fst cs, fst sq, q)) (snd sq)) (snd cs))
    catalog.

Definition catalog_questions : list string :=
  map (fun e => snd e) catalog_entries.

(** The key under which a result is stored (line 896):
    [f"{category} | {section} | {question}"]. *)
Definition response_key (category section question : string) : string :=
  category ++ " | " ++ section ++ " | " ++ question.

Definition catalog_keys : list string :=
  map (fun e => response_key (fst (fst e)) (snd (fst e)) (snd e))
      catalog_entries.

(** [f"{x}"] for a session field that is [None] or a string. *)
Definition fmt (x : option string) : string :=
  match x with Some s => s | None => "None" end.

(* ------------------------------------------------------------------ *)
(** ** Chart blocks of [category_page] (lines 901-1315)

    Each block is an [if] on [question.strip().startswith(LITERAL)] and, for
    most blocks, on column names of [result_df].  The model keeps, per block,
    the literal, the test on the table, the columns pandas reads while
    shaping, the columns named in the Plotly call, and what is drawn.  The
    numerical shaping (sorting, pivoting, counting, melting) is pandas's own
    and is recorded as a [recipe]; a block fails in the model exactly when it
    names a column the table does not have.  pandas can also refuse the
    contents of a table that has every column (a pivot on repeated entries,
    lines 946, 960 and 976; the row label of line 980; the first value of an
    empty selection, line 1219): these failures are outside the model, and
    no statement below says that such a table gets its chart.  The columns
    of a Plotly call are listed in the order in which Plotly Express looks
    them up: the positional arguments, then [size], [hover_name] and [text],
    then [hover_data], then [color]. *)

Record chart_block := {
  literal : string;
  guard : DataFrame -> bool;
  (* [result_df[c] = result_df.apply(f, axis=1)], where the block has one *)
  assigns : option (string * (DataFrame -> list scalar -> scalar));
  shaping : recipe;
  shaping_reads : list string;
  plot : chart_kind;
  plot_reads : list (string * string);   (* argument, column *)
  title : string
}.

(** [lambda row: f"{row['productA']} + {row['productB']}"] (line 1121) *)
Definition pair_label (df : DataFrame) (row : list scalar) : scalar :=
  PyText (str_scalar (Pandas.row_get df row "productA") ++ " + "
          ++ str_scalar (Pandas.row_get df row "productB")).

Definition chart_blocks : list chart_block :=
  [ (* 902 *)
    {| literal := "How does the average cart size evolve over a customer's lifetime (by order number)?";
       guard := Pandas.has_column "CartBehavior";
       assigns := None;
       shaping := ValueCounts "CartBehavior";
       shaping_reads := ["CartBehavior"];
       plot := px_pie; plot_reads := [];
       title := "Customer Cart Behavior Distribution" |};
    (* 916 *)
    {| literal := "What's the typical progression of departments that new customers explore over their first 5 orders?";
       guard := fun df => negb (Pandas.empty df)
                  && Pandas.issubset ["orderNum"; "departmentName"; "freq"] df;
       assigns := None;
       shaping := Plain; shaping_reads := [];
       plot := px_bar;
       plot_reads := [("x", "orderNum"); ("y", "freq"); ("color", "departmentName")];
       title := "Department Exploration Across First 5 Orders" |};
    (* 929 *)
    {| literal := "How many aisles do new clients usually browse throughout their first 5 orders?";
       guard := fun df => Pandas.has_column "aisleName" df
                  && Pandas.has_column "frequency" df;
       assigns := None;
       shaping := SortHead "frequency" false 20;
       shaping_reads := ["frequency"];
       plot := px_bar;
       plot_reads := [("x", "frequency"); ("y", "aisleName")];
       title := "Top 20 Most Frequently Browsed Aisles (First 5 Orders)" |};
    (* 944 *)
    {| literal := "How does order hour preference evolve for departments over time?";
       guard := Pandas.issubset ["hour"; "department"; "freq"];
       assigns := None;
       shaping := Pivot "department" "hour" "freq";
       shaping_reads := ["department"; "hour"; "freq"];
       plot := px_imshow; plot_reads := [];
       title := "Hourly Frequency of Orders by Department" |};
    (* 958 *)
    {| literal := "How does customer/basket share vary across product categories over time?";
       guard := Pandas.issubset ["dayOfWeek"; "department"; "basketSharePct"];
       assigns := None;
       shaping := Pivot "department" "dayOfWeek" "basketSharePct";
       shaping_reads := ["department"; "dayOfWeek"; "basketSharePct"];
       plot := px_imshow; plot_reads := [];
       title := "Basket Share by Department Across Days of Week (Heatmap)" |};
    (* 973 *)
    {| literal := "How does customer retention vary over time based on their preferred shopping department?";
       guard := Pandas.issubset ["departmentSegment"; "orderNum"; "customers"];
       assigns := None;
       shaping := PivotPercentOfFirst "orderNum" "departmentSegment" "customers";
       shaping_reads := ["orderNum"; "departmentSegment"; "customers"];
       plot := px_line; plot_reads := [];
       title := "Customer Retention Over Orders by Preferred Department" |};
    (* 993 *)
    {| literal := "Which products play a central role in the early purchasing patterns of retained customers?";
       guard := Pandas.issubset ["productName"; "pageRankScore"];
       assigns := None;
       shaping := SortValues "pageRankScore" true;
       shaping_reads := ["pageRankScore"];
       plot := px_bar;
       plot_reads := [("x", "pageRankScore"); ("y", "productName")];
       title := "Top Central Products in Early Orders (PageRank)" |};
    (* 1005 *)
    {| literal := "Can we identify distinct customer segments based on ordering day/time patterns?";
       guard := Pandas.issubset ["timeSegment"; "userCount"];
       assigns := None;
       shaping := Plain; shaping_reads := [];
       plot := px_pie;
       plot_reads := [("names", "timeSegment"); ("values", "userCount")];
       title := "User Segments by Preferred Order Time" |};
    (* 1015 *)
    {| literal := "Which products are most frequently transitioned into by loyal customers?";
       guard := Pandas.issubset ["productName"; "retainedUsers"];
       assigns := None;
       shaping := SortValues "retainedUsers" false;
       shaping_reads := ["retainedUsers"];
       plot := px_bar;
       plot_reads := [("x", "productName"); ("y", "retainedUsers"); ("color", "retainedUsers")];
       title := "Top Retention Products for Loyal Users (80% Order Presence)" |};
    (* 1029 *)
    {| literal := "Which products serve as 'gateway purchases' that lead to exploration of new departments?";
       guard := Pandas.issubset ["gatewayProduct"; "newDeptCount"];
       assigns := None;
       shaping := SortValues "newDeptCount" true;
       shaping_reads := ["newDeptCount"];
       plot := px_bar;
       plot_reads := [("x", "newDeptCount"); ("y", "gatewayProduct"); ("color", "newDeptCount")];
       title := "Top Gateway Products Leading to New Department Exploration" |};
    (* 1043 *)
    {| literal := "Are customers reordering items popular with others in their first order?";
       guard := fun _ => true;
       assigns := None;
       shaping := SortValues "percentInFirstOrders" false;
       shaping_reads := ["percentInFirstOrders"];
       plot := px_bar;
       plot_reads := [("x", "percentInFirstOrders"); ("y", "productName"); ("color", "totalOrders")];
       title := "Top Products by First Order Inclusion (%)" |};
    (* 1067 *)
    {| literal := "How does reorder frequency vary with days_since_prior_order for frequently purchased items?";
       guard := fun _ => true;
       assigns := None;
       shaping := SortValues "avgDaysBetweenReorders" true;
       shaping_reads := ["avgDaysBetweenReorders"];
       plot := px_bar;
       plot_reads := [("x", "avgDaysBetweenReorders"); ("y", "productName"); ("color", "avgDaysBetweenReorders")];
       title := "Average Days Between Reorders (Top Reordered Products)" |};
    (* 1080 *)
    {| literal := "What's the relationship between a product's department and reorder likelihood?";
       guard := fun _ => true;
       assigns := None;
       shaping := Plain; shaping_reads := [];
       plot := px_bar;
       plot_reads := [("x", "department"); ("y", "reorderRatePct"); ("color", "reorderRatePct")];
       title := "Reorder Rate by Department" |};
    (* 1092 *)
    {| literal := "Which product categories have the highest uplift in sales?";
       guard := Pandas.has_column "product";
       assigns := None;
       shaping := SortHead "avgUpliftPct" false 20;
       shaping_reads := ["avgUpliftPct"];
       plot := px_bar;
       plot_reads := [("x", "avgUpliftPct"); ("y", "product"); ("text", "avgUpliftPct"); ("color", "avgUpliftPct")];
       title := "Top 20 Products with Highest Sales Uplift (Late vs Early Orders)" |};
    (* 1119 *)
    {| literal := "What are the top product pairings based on co-purchase frequency?";
       guard := Pandas.issubset ["productA"; "productB"; "timesBoughtTogether"];
       assigns := Some ("pair", pair_label);
       shaping := Reversed; shaping_reads := [];
       plot := px_bar;
       plot_reads := [("x", "timesBoughtTogether"); ("y", "pair"); ("color", "timesBoughtTogether")];
       title := "Top Product Co-Purchase Pairs by Frequency" |};
    (* 1135 *)
    {| literal := "What products have the highest cross-department purchase correlation?";
       guard := fun df => negb (Pandas.empty df);
       assigns := None;
       shaping := Plain; shaping_reads := [];
       plot := px_strip;
       plot_reads := [("x", "similarityScore"); ("y", "deptA");
                      ("hover_data_0", "productA"); ("hover_data_1", "productB");
                      ("color", "deptB")];
       title := "Cross-Department Product Similarity Scores" |};
    (* 1160 *)
    {| literal := "Which items act as a 'bridge' between different product communities?";
       guard := Pandas.has_column "productName";
       assigns := None;
       shaping := Plain; shaping_reads := [];
       plot := px_bar;
       plot_reads := [("x", "betweennessScore"); ("y", "productName"); ("color", "sourceCommunity")];
       title := "Top Products Bridging Different Communities" |};
    (* 1182 *)
    {| literal := "Do high-centrality products (high betweenness) make better recommendations than low-centrality ones?";
       guard := Pandas.has_column "centralityGroup";
       assigns := None;
       shaping := Plain; shaping_reads := [];
       plot := px_pie;
       plot_reads := [("names", "centralityGroup"); ("values", "totalOrders")];
       title := "Recommendation Uptake by Product Centrality" |};
    (* 1195 *)
    {| literal := "Which product categories exhibit strong day-of-week effects?";
       guard := fun _ => true;
       assigns := None;
       shaping := Plain; shaping_reads := [];
       plot := px_bar;
       plot_reads := [("x", "department"); ("y", "volatilityPct"); ("color", "volatilityPct")];
       title := "Seasonality (Volatility %) Across Product Categories" |};
    (* 1208 *)
    {| literal := "What is the day-of-week effect on order size across different product categories?";
       guard := Pandas.issubset ["department"; "highestCartDay"; "lowestCartDay";
                                 "highestAvgCartSize"; "lowestAvgCartSize"];
       assigns := None;
       shaping := Melt "department" ["highestAvgCartSize"; "lowestAvgCartSize"];
       shaping_reads := ["department"; "highestAvgCartSize"; "lowestAvgCartSize";
                         "highestCartDay"; "lowestCartDay"];
       plot := px_bar; plot_reads := [];
       title := "Highest and Lowest Avg Cart Size Day by Department" |};
    (* 1235 *)
    {| literal := "Which products connect the widest variety of departments and have high co-purchase influence?";
       guard := Pandas.has_column "pageRank";
       assigns := None;
       shaping := Plain; shaping_reads := [];
       plot := px_scatter;
       plot_reads := [("x", "crossDeptConnections"); ("y", "pageRank"); ("size", "pageRank");
                      ("hover_name", "productName"); ("color", "pageRank")];
       title := "Influential Cross-Department Products (PageRank vs Connections)" |};
    (* 1254 *)
    {| literal := "Which departments contribute most to overall order volume?";
       guard := Pandas.issubset ["department"; "orderCount"; "pctOfTotalOrders"];
       assigns := None;
       shaping := Plain; shaping_reads := [];
       plot := px_pie;
       plot_reads := [("names", "department"); ("values", "orderCount");
                      ("hover_data_0", "pctOfTotalOrders")];
       title := "Department-wise Contribution to Total Order Volume" |};
    (* 1268 *)
    {| literal := "What proportion of shipments are in transit, delivered and dispatched?";
       guard := fun _ => true;
       assigns := None;
       shaping := Plain; shaping_reads := [];
       plot := px_pie;
       plot_reads := [("names", "shipmentStatus"); ("values", "shipmentCount")];
       title := "Shipment Status Distribution" |};
    (* 1278 *)
    {| literal := "What is the average delivery delay (in days) for shipments by category?";
       guard := Pandas.has_column "aisleName";
       assigns := None;
       shaping := Plain; shaping_reads := [];
       plot := px_bar;
       plot_reads := [("x", "aisleName"); ("y", "avgDelayDays"); ("color", "avgDelayDays")];
       title := "Average Delivery Delay by Aisle" |};
    (* 1291 *)
    {| literal := "How does product category mix affect on-time delivery?";
       guard := Pandas.has_column "departmentName";
       assigns := None;
       shaping := Plain; shaping_reads := [];
       plot := px_bar;
       plot_reads := [("x", "departmentName"); ("y", "shipmentCount"); ("color", "deliveryStatus")];
       title := "Shipment Delivery Status by Department" |};
    (* 1305 *)
    {| literal := "How does supply chain performance vary with seasonal demand fluctuations?";
       guard := Pandas.has_column "shipmentMonth";
       assigns := None;
       shaping := Plain; shaping_reads := [];
       plot := px_line;
       plot_reads := [("x", "shipmentMonth"); ("y", "onTimeRatePct")];
       title := "Monthly Supply Chain On-Time Delivery Rate" |} ].

(** [str(list(df.columns))] *)
Definition repr_labels (cols : list string) : string :=
  "[" ++ String.concat ", " (map (fun c => "'" ++ c ++ "'") cols) ++ "]".

(** A pandas operation that needs column [c]: [KeyError] when it is absent. *)
Definition pandas_reads (df : DataFrame) (c : string) : M unit :=
  if Pandas.has_column c df then ret tt else raise (KeyError c).

(** A Plotly Express argument naming column [c]: [ValueError] when absent. *)
Definition plotly_reads (df : DataFrame) (ac : string * string) : M unit :=
  if Pandas.has_column (snd ac) df then ret tt
  else raise (ValueError
         ("Value of '" ++ fst ac
          ++ "' is not the name of a column in 'data_frame'. Expected one of "
          ++ repr_labels (columns df) ++ " but received: " ++ snd ac)).

(** The body of a chart block, once its [if] has passed. *)
Definition build_chart (result_df : ref) (b : chart_block) : M unit :=
  match assigns b with
  | Some (c, f) =>
      mutate result_df
        (fun df => Pandas.set_column c (Pandas.apply_rows (f df) df) df)
  | None => ret tt
  end ;;
  df <- deref result_df ;;
  for_each (shaping_reads b) (pandas_reads df) ;;
  for_each (plot_reads b) (plotly_reads df) ;;
  emit (st_plotly_chart
          {| chart_kind_of := plot b; chart_title := title b;
             chart_recipe := shaping b; chart_data := df |}).

(** Does the [if] of block [b] pass for this question and table? *)
Definition block_fires (question : string) (df : DataFrame) (b : chart_block)
  : bool :=
  PyStr.startswith (PyStr.strip question) (literal b) && guard b df.

(** One chart block: [if question.strip().startswith(...) and ...: ...] *)
Definition run_block (question : string) (result_df : ref) (b : chart_block)
  : M unit :=
  df <- deref result_df ;;
  when (block_fires question df b) (build_chart result_df b).

(** Lines 901-1315: the blocks are separate [if] statements, run in order. *)
Definition dispatch_charts (question : string) (result_df : ref) : M unit :=
  for_each chart_blocks (run_block question result_df).

(** The figures among the widgets of a page. *)
Definition charts_of (u : list widget) : list chart :=
  flat_map (fun x => match x with st_plotly_chart c => [c] | _ => [] end) u.

(* ------------------------------------------------------------------ *)
(** ** What the chart blocks compute, as a function of question and table

    A functional reading of [run_block] and [dispatch_charts]: the way the
    statement ends, the table object afterwards and the figures drawn.
    [run_block_outcome] and [dispatch_charts_outcome] relate it to the
    statements. *)

(** The table after the column assignment of a block, if it has one. *)
Definition assigned (b : chart_block) (df : DataFrame) : DataFrame :=
  match assigns b with
  | Some (c, f) => Pandas.set_column c (Pandas.apply_rows (f df) df) df
  | None => df
  end.

Fixpoint first_missing {A} (df : DataFrame) (col : A -> string)
  (err : A -> exn) (xs : list A) : option exn :=
  match xs with
  | [] => None
  | x :: xs' =>
      if Pandas.has_column (col x) df then first_missing df col err xs'
      else Some (err x)
  end.

Definition plotly_error (df : DataFrame) (ac : string * string) : exn :=
  ValueError
    ("Value of '" ++ fst ac
     ++ "' is not the name of a column in 'data_frame'. Expected one of "
     ++ repr_labels (columns df) ++ " but received: " ++ snd ac).

Definition figure (b : chart_block) (df : DataFrame) : chart :=
  {| chart_kind_of := plot b; chart_title := title b;
     chart_recipe := shaping b; chart_data := df |}.

Definition build_outcome (df : DataFrame) (b : chart_block)
  : result unit * DataFrame * list chart :=
  let df' := assigned b df in
  match first_missing df' (fun c => c) KeyError (shaping_reads b) with
  | Some e => (Raise e, df', [])
  | None =>
      match first_missing df' snd (plotly_error df') (plot_reads b) with
      | Some e => (Raise e, df', [])
      | None => (Ok tt, df', [figure b df'])
      end
  end.

Definition block_outcome (question : string) (df : DataFrame) (b : chart_block)
  : result unit * DataFrame * list chart :=
  if block_fires question df b then build_outcome df b else (Ok tt, df, []).

Fixpoint dispatch_outcome (question : string) (df : DataFrame)
  (bs : list chart_block) : result unit * DataFrame * list chart :=
  match bs with
  | [] => (Ok tt, df, [])
  | b :: bs' =>
      match block_outcome question df b with
      | (Ok _, df', cs) =>
          match dispatch_outcome question df' bs' with
          | (res, df'', cs') => (res, df'', (cs ++ cs')%list)
          end
      | other => other
      end
  end.

(** The world after a table object was updated and figures were drawn. *)
Definition settle (r : ref) (df : DataFrame) (cs : list chart) (w : world)
  : world :=
  with_ui (fun u => (u ++ map st_plotly_chart cs)%list)
          (with_heap (Pandas.replace_nth r df) w).

(** The end of the chart statements on the object [r], given what they
    compute. *)
Definition outcome_world (r : ref)
  (o : result unit * DataFrame * list chart) (w : world)
  : result unit * world :=
  (fst (fst o), settle r (snd (fst o)) (snd o) w).

(** The world after one more widget. *)
Definition shown (x : widget) (w : world) : world :=
  with_ui (fun u => (u ++ [x])%list) w.

(** The world after a request went out on driver [d]. *)
Definition asked (d : driver) (query : string) (params : record) (w : world)
  : world :=
  with_db_log (fun l =>
    (l ++ [{| call_driver := drv_id d; call_query := query;
              call_params := params |}])%list) w.

(** The world after the reply to a request became a new table object. *)
Definition fetched (d : driver) (query : string) (data : list record)
  (w : world) : world :=
  with_heap (fun h => (h ++ [Pandas.DataFrame_of data])%list)
            (asked d query [] w).

(** The world after a table object was stored under a key. *)
Definition stored (key : string) (r : ref) (w : world) : world :=
  with_session (fun s => set_responses (PyDict.set key r (responses s)) s) w.

(** Does the literal of block [b] match the question? *)
Definition literal_matches (question : string) (b : chart_block) : bool :=
  PyStr.startswith (PyStr.strip question) (literal b).

(** The columns of the fetched table a block relies on: those it reads,
    apart from the one it assigns itself. *)
Definition needed_columns (b : chart_block) : list string :=
  filter (fun c =>
            match assigns b with
            | Some (c', _) => negb (String.eqb c c')
            | None => true
            end)
         (shaping_reads b ++ map snd (plot_reads b))%list.

(** No chart block has a literal matching two different questions of the
    list. *)
Definition cross_trigger_free (qs : list string) (bs : list chart_block)
  : bool :=
  forallb (fun q1 =>
    forallb (fun q2 =>
      String.eqb q1 q2
      || forallb (fun b => negb (literal_matches q1 b && literal_matches q2 b))
                 bs) qs) qs.

(** The strings of the list are pairwise different. *)
Fixpoint distinct (ls : list string) : bool :=
  match ls with
  | [] => true
  | l :: ls' => negb (existsb (String.eqb l) ls') && distinct ls'
  end.

(** A driver the session no longer refers to: it was created earlier, was
    never closed, and is not the stored handle. *)
Definition driver_forgotten (old : nat) (w : world) : Prop :=
  ~ In old (close_log w)
  /\ old < drivers_made w
  /\ forall d, neo4j_driver (session w) = Some d -> drv_id d <> old.

(** The part of the world that concerns the connection. *)
Definition connection_of (w : world) : option driver * list nat * nat :=
  (neo4j_driver (session w), close_log w, drivers_made w).

(** A statement that leaves the connection alone. *)
Definition keeps_connection {A} (m : M A) : Prop :=
  forall w, connection_of (snd (m w)) = connection_of w.

(** No string of the list is a prefix of another one. *)
Fixpoint prefix_free (ls : list string) : bool :=
  match ls with
  | [] => true
  | l :: ls' =>
      forallb (fun l' => negb (String.prefix l l') && negb (String.prefix l' l))
              ls'
      && prefix_free ls'
  end.

(* ------------------------------------------------------------------ *)
(** ** A small database used in the examples *)

Module Sample.

Definition cypher (q : string) : string := "// " ++ q.

Definition q_departments : string :=
  "Which departments contribute most to overall order volume?".
Definition q_first_order : string :=
  "Are customers reordering items popular with others in their first order?".
Definition q_pairings : string :=
  "What are the top product pairings based on co-purchase frequency?".
Definition q_suppliers : string :=
  "Which suppliers have the highest delivery success rates?".
Definition q_lifecycle : string :=
  "Which products show the sharpest drop in demand over time?".

Definition departments : list record :=
  [ [("department", PyText "produce"); ("orderCount", PyInt 50);
     ("pctOfTotalOrders", PyInt 50)];
    [("department", PyText "dairy eggs"); ("orderCount", PyInt 30);
     ("pctOfTotalOrders", PyInt 30)];
    [("department", PyText "snacks"); ("orderCount", PyInt 20);
     ("pctOfTotalOrders", PyInt 20)] ].

(** A reply to the first-order question without its percentage column. *)
Definition first_order_short : list record :=
  [ [("productName", PyText "Banana"); ("totalOrders", PyInt 7)] ].

Definition pairings : list record :=
  [ [("productA", PyText "Banana"); ("productB", PyText "Bag of Organic Bananas");
     ("timesBoughtTogether", PyInt 12)] ].

Definition suppliers : list record :=
  [ [("supplierName", PyText "Acme Foods"); ("successRate", PyInt 97)] ].

Definition neo4j_open (uri user password : string) : option string :=
  if String.eqb password "wrong"
  then Some "The client is unauthorized due to authentication failure."
  else None.

(** The server answers the liveness probe and three catalog questions,
    answers the supplier question at first and has no match for it from the
    third request on, and fails on everything else. *)
Definition neo4j_run (n : nat) (d : driver) (query : string) (params : record)
  : string + list record :=
  if String.eqb query "RETURN 1 AS test" then inr [[("test", PyInt 1)]]
  else if String.eqb query (cypher q_departments) then inr departments
  else if String.eqb query (cypher q_first_order) then inr first_order_short
  else if String.eqb query (cypher q_pairings) then inr pairings
  else if String.eqb query (cypher q_suppliers)
       then (if n <? 2 then inr suppliers else inr [])%nat
  else inl "Unknown function 'gds.pageRank.stream'".

Definition neo4j_close (d : driver) : option string := None.

Definition xlsx_write (sheets : list (string * DataFrame)) : option string :=
  None.

Definition bolt : driver :=
  {| drv_id := 0; drv_uri := "bolt://localhost:7689"; drv_user := "neo4j";
     drv_password := "Password@123" |}.

(** A session connected through [bolt], on the home page. *)
Definition connected : world :=
  {| session := set_neo4j_connected true
                  (set_neo4j_driver (Some bolt) initial_session);
     heap := []; ui := []; clicked := None;
     db_log := [{| call_driver := 0; call_query := "RETURN 1 AS test";
                   call_params := [] |}];
     drivers_made := 1; close_log := [] |}.

(** The same session inside a section of a category. *)
Definition at_section (category section : string) : world :=
  with_session (fun s => navigate_to_section section
                           (navigate_to_category category s)) connected.

Definition spinner : widget := st_spinner "Executing query...".

(** In the section of the department question. *)
Definition kpi_section : world :=
  at_section "Performance Metrics & Sales KPIs"
             "Resource allocation and marketing focus".

Definition kpi_key : string :=
  response_key "Performance Metrics & Sales KPIs"
               "Resource allocation and marketing focus" q_departments.

(** [kpi_section] after "Run Analysis" on the department question. *)
Definition kpi_answered : world :=
  snd (outcome_world 0
         (dispatch_outcome q_departments (Pandas.DataFrame_of departments)
                           chart_blocks)
         (shown (st_dataframe (Pandas.DataFrame_of departments))
            (stored kpi_key 0
               (fetched bolt (cypher q_departments) departments
                  (shown spinner kpi_section))))).

(** A second way to hold the department table: behind reference 1. *)
Definition kpi_elsewhere : world :=
  with_heap (fun _ => [Pandas.DataFrame_empty; Pandas.DataFrame_of departments])
            connected.

(** In the section of the first-order question. *)
Definition reorder_section : world :=
  at_section "Reorder Behavior & Loyalty Drivers" "Reorder Dynamics".

(** The chart block of the first-order question (line 1043). *)
Definition first_order_block : chart_block :=
  {| literal := q_first_order;
     guard := fun _ => true;
     assigns := None;
     shaping := SortValues "percentInFirstOrders" false;
     shaping_reads := ["percentInFirstOrders"];
     plot := px_bar;
     plot_reads := [("x", "percentInFirstOrders"); ("y", "productName");
                    ("color", "totalOrders")];
     title := "Top Products by First Order Inclusion (%)" |}.

(** In the section of the supplier question. *)
Definition delivery_section : world :=
  at_section "Supply Chain & Delivery Performance" "Delivery Success Factors".

Definition suppliers_key : string :=
  response_key "Supply Chain & Delivery Performance"
               "Delivery Success Factors" q_suppliers.

(** [delivery_section] after "Run Analysis" on the supplier question, while
    the database still had supplier rows. *)
Definition suppliers_answered : world :=
  shown (st_dataframe (Pandas.DataFrame_of suppliers))
    (stored suppliers_key 0
       (fetched bolt (cypher q_suppliers) suppliers
          (shown spinner delivery_section))).

(** In the section of the product life-cycle question. *)
Definition lifecycle_section : world :=
  at_section "Demand Trends & Seasonality" "Product Lifecycle & Decline".

(** A user who opens a category, a section, goes back, opens another
    section and returns home. *)
Definition browse : list nav_call :=
  [ selectCategory "Reorder Behavior & Loyalty Drivers";
    selectSection "Reorder Dynamics";
    backToSections;
    selectSection "Promotions & Reorder Uplift";
    goHome ].

End Sample.

Section Program.

Set Default Proof Using "Type".

(** The Cypher text bound to each catalog question (the ["query"] fields of
    lines 80-777), opaque to the program. *)
Variable cypher : string -> string.

(** [GraphDatabase.driver(uri, auth=(user, password))]: [Some msg] when the
    constructor raises. *)
Variable neo4j_open : string -> string -> string -> option string.

(** One round trip [driver.session().run(query, params)] read to the end,
    as the [n]-th request of the run: the records, or the message of the
    exception. *)
Variable neo4j_run : nat -> driver -> string -> record -> string + list record.

(** [driver.close()]: [Some msg] when it raises. *)
Variable neo4j_close : driver -> option string.

(** Writing the workbook (lines 1378-1384): [Some msg] when xlsxwriter or
    pandas raises. *)
Variable xlsx_write : list (string * DataFrame) -> option string.

Record question_data := {
  question : string;
  query : string
}.

(** The [questions] dictionary (line 80). *)
Definition questions : PyDict.t (PyDict.t (list question_data)) :=
  map (fun cs =>
    (fst cs,
     map (fun sq =>
       (fst sq, map (fun q => {| question := q; query := cypher q |}) (snd sq)))
       (snd cs)))
    catalog.

(** [GraphDatabase.driver(...)] *)
Definition GraphDatabase_driver (uri username password : string) : M driver :=
  match neo4j_open uri username password with
  | Some msg => raise (Neo4jError msg)
  | None =>
      w <- get_world ;;
      update (with_drivers_made (S (drivers_made w))) ;;
      ret {| drv_id := drivers_made w; drv_uri := uri;
             drv_user := username; drv_password := password |}
  end.

(** [with d.session() as session: session.run(query, params)], consumed. *)
Definition session_run (d : driver) (query : string) (params : record)
  : M (list record) :=
  w <- get_world ;;
  update (with_db_log (fun l =>
    (l ++ [{| call_driver := drv_id d; call_query := query;
              call_params := params |}])%list)) ;;
  match neo4j_run (length (db_log w)) d query params with
  | inl msg => raise (Neo4jError msg)
  | inr data => ret data
  end.

(** [driver.close()] *)
Definition driver_close (d : driver) : M unit :=
  update (with_close_log (fun l => (l ++ [drv_id d])%list)) ;;
  match neo4j_close d with
  | Some msg => raise (Neo4jError msg)
  | None => ret tt
  end.

(** Lines 32-45. *)
Definition connect_to_neo4j (uri username password : string) : M bool :=
  try_except
    (d <- GraphDatabase_driver uri username password ;;
     _ <- session_run d "RETURN 1 AS test" [] ;;
     update_session (set_neo4j_driver (Some d)) ;;
     update_session (set_neo4j_connected true) ;;
     ret true)
    (fun e =>
       emit (st_error ("Failed to connect to Neo4j: " ++ str_exn e)) ;;
       update_session (set_neo4j_connected false) ;;
       ret false).

(** Lines 48-63.  The result is [None] or a reference to a new DataFrame. *)
Definition run_neo4j_query (query : string) (params : option record)
  : M (option ref) :=
  s <- get_session ;;
  match neo4j_connected s, neo4j_driver s with
  | true, Some d =>
      try_except
        (data <- session_run d query
                   (match params with Some p => p | None => [] end) ;;
         match data with
         | [] => r <- new_frame Pandas.DataFrame_empty ;; ret (Some r)
         | _ => r <- new_frame (Pandas.DataFrame_of data) ;; ret (Some r)
         end)
        (fun e =>
           emit (st_error ("Query execution failed: " ++ str_exn e)) ;;
           ret None)
  | _, _ =>
      emit (st_error "Not connected to Neo4j. Please connect first.") ;;
      ret None
  end.

(** The body of a "Run Analysis" button (lines 892-1315). *)
Definition run_analysis (category section question query : string) : M unit :=
  emit (st_spinner "Executing query...") ;;
  result_df <- run_neo4j_query query None ;;
  match result_df with
  | None => ret tt
  | Some r =>
      df <- deref r ;;
      when (negb (Pandas.empty df))
        (s <- get_session ;;
         update_session
           (set_responses
              (PyDict.set (response_key category section question) r
                          (responses s))) ;;
         df <- deref r ;;
         emit (st_dataframe df) ;;
         dispatch_charts question r)
  end.

(** [d[k]] on a dictionary: [KeyError] when the key is absent. *)
Definition subscript {V} (d : PyDict.t V) (k : option string) : M V :=
  match k with
  | Some k' =>
      match PyDict.get k' d with
      | Some v => ret v
      | None => raise (KeyError k')
      end
  | None => raise (KeyError "None")
  end.

(** [enumerate(xs)] *)
Definition enumerate {A} (xs : list A) : list (nat * A) :=
  combine (seq 0 (length xs)) xs.

(** The "Back to Sections" handler (lines 1319-1320). *)
Definition back_to_sections : M unit :=
  update_session clear_section ;;
  st_rerun.

(** Lines 857-1320. *)
Definition category_page : M unit :=
  s <- get_session ;;
  let category := category s in
  emit (st_title (fmt category)) ;;
  match section s with
  | None =>
      emit (st_markdown "### Select a section to explore:") ;;
      sections <- subscript questions category ;;
      for_each (PyDict.keys sections) (fun section =>
        b <- button section ("section_" ++ section) ;;
        when b (update_session (navigate_to_section section)))
  | Some section =>
      emit (st_subheader section) ;;
      sections <- subscript questions category ;;
      entries <- subscript sections (Some section) ;;
      for_each (enumerate entries) (fun iq =>
        let question := question (snd iq) in
        let query := query (snd iq) in
        emit (st_markdown ("**- " ++ question ++ "**")) ;;
        b <- button "Run Analysis"
               ("run_" ++ fmt category ++ "_" ++ section ++ "_"
                ++ PyStr.of_Z (Z.of_nat (fst iq))) ;;
        when b (run_analysis (fmt category) section question query)) ;;
      b <- button "Back to Sections" "back_to_sections" ;;
      when b back_to_sections
  end.

(** The "Disconnect from Neo4j" handler (lines 1345-1353). *)
Definition disconnect : M unit :=
  s <- get_session ;;
  match neo4j_driver s with
  | Some d => try_except (driver_close d) (fun _ => ret tt)
  | None => ret tt
  end ;;
  update_session (set_neo4j_connected false) ;;
  update_session (set_neo4j_driver None) ;;
  emit (sidebar_success "Disconnected from Neo4j") ;;
  st_rerun.

(** [key.split(" | ")[-1][:31]] (line 1364). *)
Definition sheet_name_of (key : string) : string :=
  PyStr.slice_to 31 (PyStr.last (PyStr.split key " | ")).

(** Lines 1360-1365: the [all_data] dictionary, from sheet name to the
    stored DataFrame object.  [isinstance(value, pd.DataFrame)] holds when
    the reference points at a DataFrame of the heap. *)
Definition collect_all_data (h : list DataFrame) (resp : PyDict.t ref)
  : PyDict.t ref :=
  fold_left (fun all_data kv =>
    match nth_error h (snd kv) with
    | Some _ =>
        if negb (PyStr.endswith (fst kv) "_notes")
        then PyDict.set (sheet_name_of (fst kv)) (snd kv) all_data
        else all_data
    | None => all_data
    end) (PyDict.items resp) PyDict.empty.

(** The tables behind [all_data], read when they are written out. *)
Definition sheets_of (h : list DataFrame) (all_data : PyDict.t ref)
  : list (string * DataFrame) :=
  map (fun nr => (fst nr, nth (snd nr) h Pandas.DataFrame_empty)) all_data.

(** The "Export All Results" handler (lines 1359-1395); [export_format] is
    the choice of the select box. *)
Definition export_all_results (export_format : string) : M unit :=
  w <- get_world ;;
  match responses (session w) with
  | [] => emit (sidebar_warning "No results to export yet!")
  | _ =>
      let all_data := collect_all_data (heap w) (responses (session w)) in
      if String.eqb export_format "CSV" then
        for_each (sheets_of (heap w) all_data) (fun nd =>
          emit (sidebar_download_button
                  ("Download " ++ fst nd) (fst nd ++ ".csv") (Csv (snd nd))))
      else
        try_except
          (match xlsx_write (sheets_of (heap w) all_data) with
           | Some msg => raise (ValueError msg)
           | None => ret tt
           end ;;
           emit (sidebar_download_button
                   "Download All Results (Excel)"
                   "retail_analytics_results.xlsx"
                   (Xlsx (sheets_of (heap w) all_data))))
          (fun e =>
             emit (sidebar_error ("Error creating Excel file: " ++ str_exn e)))
  end.

(** The body of [on_exit] (lines 1404-1406), run against the state of a
    session.  The program itself calls it only through [atexit] (lines
    1409-1410), when the interpreter ends and no script run is going on:
    there [st.session_state] is not the state of a session, the lookup of
    [neo4j_driver] fails and no [close()] is reached.  The model lets it
    read the session all the same, which is the most the function can do to
    a connection; statements over all actions of a session cover it as such
    (the [act_exit] of [perform]). *)
Definition on_exit : M unit :=
  s <- get_session ;;
  match neo4j_driver s with
  | Some d => driver_close d
  | None => ret tt
  end.

(** The actions of a session that can touch the connection or the stored
    results. *)
Inductive action :=
| act_connect (uri username password : string)
| act_disconnect
| act_query (query : string)
| act_navigate (a : nav_call)
| act_category_page (click : option string)
| act_export (export_format : string)
| act_exit.

Definition perform (a : action) : M unit :=
  match a with
  | act_connect uri username password =>
      _ <- connect_to_neo4j uri username password ;; ret tt
  | act_disconnect => disconnect
  | act_query query => _ <- run_neo4j_query query None ;; ret tt
  | act_navigate a => update_session (fun s => nav_step s a)
  | act_category_page click => update (with_clicked click) ;; category_page
  | act_export export_format => export_all_results export_format
  | act_exit => on_exit
  end.

(** The world after a sequence of actions; an exception or a rerun ends the
    action it occurs in, the session goes on. *)
Definition perform_all (w : world) (acts : list action) : world :=
  fold_left (fun w a => snd (perform a w)) acts w.

(* ------------------------------------------------------------------ *)
(** ** The sidebar (lines 1323-1395) *)

(** [st.sidebar.button(label, key=key)]: whether the button is the one whose
    click started this run.  The widgets the sidebar draws for itself (title,
    rules, headers, buttons, the format select box) are not recorded in
    [ui]; what its handlers show is. *)
Definition sidebar_button (label key : string) : M bool :=
  w <- get_world ;;
  ret (match clicked w with
       | Some k => String.eqb k key
       | None => false
       end).

(** [st.session_state.category == category] *)
Definition is_category (x : option string) (category : string) : bool :=
  match x with
  | Some c => String.eqb c category
  | None => false
  end.

(** [st.session_state.current_page == "Category"] *)
Definition is_category_page (p : page) : bool :=
  match p with Category => true | Home => false end.

(** The test of line 1336. *)
Definition category_shown (s : session_state) (name : string) : bool :=
  is_category (category s) name && is_category_page (current_page s).

(** Lines 1323-1395; [export_format] is the choice of the select box.  The
    two buttons without a [key] are identified by their label. *)
Definition sidebar (export_format : string) : M unit :=
  b <- sidebar_button "Home" "sidebar_home" ;;
  when b (update_session navigate_to_home) ;;
  s <- get_session ;;
  when (neo4j_connected s)
    (for_each (PyDict.keys questions) (fun category =>
       b <- sidebar_button category ("sidebar_" ++ category) ;;
       when b (update_session (navigate_to_category category)) ;;
       s <- get_session ;;
       when (category_shown s category)
         (sections <- subscript questions (Some category) ;;
          for_each (PyDict.keys sections) (fun section =>
            b <- sidebar_button ("  • " ++ section)
                   ("sidebar_" ++ category ++ "_" ++ section) ;;
            when b (update_session (set_section (Some section)))))) ;;
     b <- sidebar_button "Disconnect from Neo4j" "Disconnect from Neo4j" ;;
     when b disconnect ;;
     b <- sidebar_button "Export All Results" "Export All Results" ;;
     when b (export_all_results export_format)).

(** Whether a stored entry is written to the sheet called [name]: its value
    is a table object, its key does not end in ["_notes"], and [name] is its
    sheet name (lines 1362-1364). *)
Definition exported_as (h : list DataFrame) (name : string)
  (kv : string * ref) : bool :=
  match nth_error h (snd kv) with
  | Some _ =>
      negb (PyStr.endswith (fst kv) "_notes")
      && String.eqb (sheet_name_of (fst kv)) name
  | None => false
  end.

(** The download button of one CSV file (lines 1369-1375). *)
Definition csv_download (nd : string * DataFrame) : widget :=
  sidebar_download_button ("Download " ++ fst nd) (fst nd ++ ".csv")
                          (Csv (snd nd)).

(** The chart block of the co-purchase question (line 1119). *)
Definition pairing_block : chart_block :=
  {| literal := "What are the top product pairings based on co-purchase frequency?";
     guard := Pandas.issubset ["productA"; "productB"; "timesBoughtTogether"];
     assigns := Some ("pair", pair_label);
     shaping := Reversed; shaping_reads := [];
     plot := px_bar;
     plot_reads := [("x", "timesBoughtTogether"); ("y", "pair");
                    ("color", "timesBoughtTogether")];
     title := "Top Product Co-Purchase Pairs by Frequency" |}.

(** A text cell, [isinstance(v, str)]. *)
Definition is_text (v : scalar) : bool :=
  match v with PyText _ => true | _ => false end.

(** Every record of a reply has a text under [c]. *)
Definition text_column (c : string) (data : list record) : bool :=
  forallb (fun r => is_text (Pandas.cell r c)) data.

(** A table with one more column on the right, computed row by row. *)
Definition with_new_column (c : string) (f : list scalar -> scalar)
  (df : DataFrame) : DataFrame :=
  {| columns := (columns df ++ [c])%list;
     rows := map (fun row => (row ++ [f row])%list) (rows df) |}.

(** Every column a chart block reads. *)
Definition all_columns : list string :=
  nodup String.string_dec
    (flat_map (fun b => (shaping_reads b ++ map snd (plot_reads b))%list)
              chart_blocks).

(** A one-row table with every column the chart blocks read, except [c]. *)
Definition table_without (c : string) : DataFrame :=
  {| columns := filter (fun x => negb (String.eqb x c)) all_columns;
     rows := [map (fun _ => PyNone)
                  (filter (fun x => negb (String.eqb x c)) all_columns)] |}.

(** The columns a block needs that its test lets through when absent. *)
Definition untested (b : chart_block) : list string :=
  filter (fun c => guard b (table_without c)) (needed_columns b).

(** A block whose test guarantees every column it needs. *)
Definition column_safe (b : chart_block) : Prop :=
  forall df, guard b df = true ->
  forall c, In c (needed_columns b) -> Pandas.has_column c df = true.

(* ------------------------------------------------------------------ *)
(** ** Assertions about statements *)

(** [m], started in a world where [P] holds, either returns [a] in a world
    where [Q a] holds, or ends with an exception or a rerun in a world where
    [E] holds. *)
Definition triple {A} (P : world -> Prop) (m : M A)
  (Q : A -> world -> Prop) (E : world -> Prop) : Prop :=
  forall w, P w ->
    match m w with
    | (Ok a, w') => Q a w'
    | (_, w') => E w'
    end.

(** [m] keeps [I], however it ends. *)
Definition invariant {A} (I : world -> Prop) (m : M A) : Prop :=
  triple I m (fun _ => I) I.

(** The stored results are well formed: the keys are pairwise different,
    each is the composite key of a catalog question, and each is bound to a
    table object. *)
Definition store_ok (w : world) : Prop :=
  PyDict.wf (responses (session w))
  /\ forall k r, In (k, r) (responses (session w)) ->
       In k catalog_keys /\ r < length (heap w).

(** The three positions of the navigation, with names from the catalog:
    the home page, a category of the catalog, a section of that category. *)
Definition nav_consistent (s : session_state) : Prop :=
  match current_page s, category s, section s with
  | Home, None, None => True
  | Category, Some c, None => In c (map fst catalog)
  | Category, Some c, Some x =>
      exists sections, In (c, sections) catalog /\ In x (map fst sections)
  | _, _, _ => False
  end.

(** A connected session has a driver. *)
Definition connection_ok (s : session_state) : Prop :=
  neo4j_connected s = true -> neo4j_driver s <> None.

(** An assertion that the drawing of widgets does not disturb. *)
Definition ui_blind (I : world -> Prop) : Prop :=
  forall f w, I w -> I (with_ui f w).

(** [m], started in a world where [P] holds, raises nothing: it returns [a]
    in a world where [Q a] holds, or asks for a rerun in a world where [R]
    holds. *)
Definition safely {A} (P : world -> Prop) (m : M A)
  (Q : A -> world -> Prop) (R : world -> Prop) : Prop :=
  forall w, P w ->
    match m w with
    | (Ok a, w') => Q a w'
    | (Rerun, w') => R w'
    | (Raise _, _) => False
    end.

(** What a run of a page that only browses leaves as it was in [w]:
    everything but the widgets drawn and the selected section. *)
Definition untouched (w w' : world) : Prop :=
  clicked w' = clicked w
  /\ db_log w' = db_log w
  /\ heap w' = heap w
  /\ drivers_made w' = drivers_made w
  /\ close_log w' = close_log w
  /\ responses (session w') = responses (session w)
  /\ neo4j_connected (session w') = neo4j_connected (session w)
  /\ neo4j_driver (session w') = neo4j_driver (session w)
  /\ current_page (session w') = current_page (session w)
  /\ category (session w') = category (session w).

(** The test a button makes on the click that started the run. *)
Definition is_clicked (key : string) (w : world) : bool :=
  match clicked w with
  | Some k => String.eqb k key
  | None => false
  end.

(** The key of the Run Analysis button of the [i]-th question of a section,
    [f"run_{category}_{section}_{i}"] (line 892). *)
Definition run_key (c s : string) (i : nat) : string :=
  "run_" ++ c ++ "_" ++ s ++ "_" ++ PyStr.of_Z (Z.of_nat i).

(** A run started by the click [key] in which no request went out yet on
    the open connection [d]; [l] is the request log. *)
Definition run_pending (key : string) (l : list db_call) (d : driver)
  (w : world) : Prop :=
  clicked w = Some key
  /\ db_log w = l
  /\ neo4j_connected (session w) = true
  /\ neo4j_driver (session w) = Some d.

(** The same run once its request is in the log [l]. *)
Definition run_sent (key : string) (l : list db_call) (w : world) : Prop :=
  clicked w = Some key /\ db_log w = l.

(** The keys of the buttons among the widgets [u]. *)
Definition button_keys (u : list widget) : list string :=
  flat_map (fun x => match x with st_button _ key => [key] | _ => [] end) u.

(** From [w] to [w'] widgets were only added, and none of them is a button
    with the key [key]. *)
Definition draws_no (key : string) (w w' : world) : Prop :=
  exists drawn,
    ui w' = (ui w ++ drawn)%list /\ ~ In key (button_keys drawn).

(** A connected session on the page of a category, with no section
    selected. *)
Definition kpi_category : world :=
  with_session (navigate_to_category "Performance Metrics & Sales KPIs")
               Sample.connected.

(** The characters that xlsxwriter refuses in the name of a sheet: the
    brackets, the colon, the star, the question mark, the slash and the
    backslash. *)
Definition xlsx_forbidden (a : ascii) : bool :=
  existsb (Ascii.eqb a) ["["; "]"; ":"; "*"; "?"; "/"; ascii_of_nat 92]%char.

Definition has_forbidden (s : string) : bool :=
  existsb xlsx_forbidden (list_ascii_of_string s).

(** A writer that, like xlsxwriter, refuses a workbook with a sheet whose
    name has such a character. *)
Definition refuses_forbidden
  (write : list (string * DataFrame) -> option string) : Prop :=
  forall sheets,
    existsb has_forbidden (map fst sheets) = true -> write sheets <> None.

(** A writer that refuses exactly these workbooks. *)
Definition strict_writer (sheets : list (string * DataFrame))
  : option string :=
  if existsb has_forbidden (map fst sheets)
  then Some "Invalid Excel character in sheetname"
  else None.

(** The key of the catalog question of line 167. *)
Definition basket_key : string :=
  response_key "Customer Lifecycle & Behavior" "Customer Journey Evolution"
    "How does customer/basket share vary across product categories over time?".

(** A session that holds a result of that question. *)
Definition basket_answered : world :=
  with_session (set_responses [(basket_key, 0)])
    (with_heap (fun _ => [Pandas.DataFrame_of Sample.departments])
               Sample.connected).

(* ------------------------------------------------------------------ *)
(** * Properties *)

(** ** Lists, strings and dictionaries *)

Lemma replace_nth_same {A} (l : list A) (i : nat) (x : A) :
  nth_error l i = Some x -> Pandas.replace_nth i x l = l.
Proof.
  revert i; induction l as [|y l IH]; intros [|i] H; simpl in *;
    try discriminate; try reflexivity.
  - now inversion H.
  - now rewrite IH.
Qed.

Lemma replace_nth_twice {A} (l : list A) (i : nat) (x y : A) :
  Pandas.replace_nth i y (Pandas.replace_nth i x l) = Pandas.replace_nth i y l.
Proof.
  revert i; induction l as [|z l IH]; intros [|i]; simpl; try reflexivity.
  now rewrite IH.
Qed.

Lemma nth_error_replace_nth {A} (l : list A) (i : nat) (x y : A) :
  nth_error l i = Some y -> nth_error (Pandas.replace_nth i x l) i = Some x.
Proof.
  revert i; induction l as [|z l IH]; intros [|i] H; simpl in *;
    try discriminate; try reflexivity.
  now apply IH.
Qed.

Lemma nth_error_replace_nth_other {A} (l : list A) (i j : nat) (x : A) :
  i <> j -> nth_error (Pandas.replace_nth i x l) j = nth_error l j.
Proof.
  revert i j; induction l as [|z l IH]; intros [|i] [|j] H; simpl;
    try reflexivity; try congruence.
  apply IH; congruence.
Qed.

Lemma length_replace_nth {A} (l : list A) (i : nat) (x : A) :
  length (Pandas.replace_nth i x l) = length l.
Proof.
  revert i; induction l as [|z l IH]; intros [|i]; simpl; try reflexivity.
  now rewrite IH.
Qed.

Lemma nth_error_fresh {A} (l : list A) (x : A) :
  nth_error (l ++ [x])%list (length l) = Some x.
Proof.
  rewrite nth_error_app2 by lia. now rewrite Nat.sub_diag.
Qed.

Lemma nth_of_nth_error {A} (l : list A) (i : nat) (x d : A) :
  nth_error l i = Some x -> nth i l d = x.
Proof.
  intros H. now apply nth_error_nth.
Qed.

(** Two prefixes of one string are comparable. *)
Lemma prefix_comparable (a b s : string) :
  String.prefix a s = true -> String.prefix b s = true ->
  String.prefix a b = true \/ String.prefix b a = true.
Proof.
  revert b s; induction a as [|c a IH]; intros b s Ha Hb.
  - left. now destruct b.
  - destruct b as [|c' b].
    + now right.
    + destruct s as [|c'' s]; [discriminate|].
      simpl in *.
      destruct (Ascii.ascii_dec c c'') as [->|]; [|discriminate].
      destruct (Ascii.ascii_dec c' c'') as [->|]; [|discriminate].
      destruct (Ascii.ascii_dec c'' c'') as [_|]; [|congruence].
      eauto.
Qed.

(** In a prefix-free list at most one entry is a prefix of a given string. *)
Lemma prefix_free_at_most_one (ls : list string) (s : string) :
  prefix_free ls = true ->
  length (filter (fun l => String.prefix l s) ls) <= 1.
Proof.
  induction ls as [|l ls IH]; simpl; intros H; [lia|].
  apply andb_prop in H as [Hl Hls].
  destruct (String.prefix l s) eqn:E; [|auto].
  simpl. apply le_n_S.
  replace (filter (fun l0 => String.prefix l0 s) ls) with (@nil string);
    [simpl; lia|].
  symmetry. clear IH Hls.
  induction ls as [|l' ls IH]; [reflexivity|].
  simpl in Hl. apply andb_prop in Hl as [Hl' Hl].
  simpl. destruct (String.prefix l' s) eqn:E'; [|auto].
  destruct (prefix_comparable l l' s E E') as [P|P]; rewrite P in Hl';
    simpl in Hl'; try discriminate.
  now rewrite andb_false_r in Hl'.
Qed.

Lemma get_set_same {V} (k : string) (v : V) (d : PyDict.t V) :
  PyDict.get k (PyDict.set k v d) = Some v.
Proof.
  induction d as [|[k' v'] d IH]; simpl.
  - now rewrite String.eqb_refl.
  - destruct (String.eqb k k') eqn:E; simpl; rewrite E; auto.
Qed.

Lemma get_set_other {V} (k k' : string) (v : V) (d : PyDict.t V) :
  k' <> k -> PyDict.get k' (PyDict.set k v d) = PyDict.get k' d.
Proof.
  intros N. induction d as [|[k0 v0] d IH]; simpl.
  - destruct (String.eqb_spec k' k); congruence.
  - destruct (String.eqb_spec k k0) as [->|]; simpl.
    + destruct (String.eqb_spec k' k0); congruence.
    + destruct (String.eqb_spec k' k0); auto.
Qed.

Lemma keys_set {V} (k : string) (v : V) (d : PyDict.t V) :
  PyDict.keys (PyDict.set k v d)
  = if PyDict.mem k d then PyDict.keys d else (PyDict.keys d ++ [k])%list.
Proof.
  unfold PyDict.mem, PyDict.keys.
  induction d as [|[k' v'] d IH]; simpl; [reflexivity|].
  destruct (String.eqb_spec k k') as [->|N]; simpl; [reflexivity|].
  rewrite IH. now destruct (PyDict.get k d).
Qed.

Lemma mem_keys {V} (k : string) (d : PyDict.t V) :
  PyDict.mem k d = true <-> In k (PyDict.keys d).
Proof.
  clear cypher neo4j_open.
  unfold PyDict.mem.
  induction d as [|[k' v'] d IH]; simpl; [split; [discriminate|tauto]|].
  destruct (String.eqb_spec k k') as [->|N]; [tauto|].
  rewrite IH. split; [tauto|]. intros [E|H]; [congruence|exact H].
Qed.

(** An assignment keeps the keys of a dictionary distinct. *)
Lemma wf_set {V} (k : string) (v : V) (d : PyDict.t V) :
  PyDict.wf d -> PyDict.wf (PyDict.set k v d).
Proof.
  clear cypher neo4j_open.
  unfold PyDict.wf. intros H. rewrite keys_set.
  destruct (PyDict.mem k d) eqn:E; [exact H|].
  apply NoDup_app; [exact H | repeat constructor; simpl; tauto |].
  intros x Hx [<-|[]].
  apply mem_keys in Hx. congruence.
Qed.

(** Assigning under a new key appends the entry. *)
Lemma set_fresh {V} (k : string) (v : V) (d : PyDict.t V) :
  ~ In k (PyDict.keys d) -> PyDict.set k v d = (d ++ [(k, v)])%list.
Proof.
  clear cypher neo4j_open.
  induction d as [|[k' v'] d IH]; simpl; intros N; [reflexivity|].
  destruct (String.eqb_spec k k') as [->|]; [tauto|].
  rewrite IH; tauto.
Qed.

(* ------------------------------------------------------------------ *)
(** ** Navigation *)

Lemma nav_invariant_initial : nav_invariant initial_session.
Proof. intros H. now elim H. Qed.

Lemma category_active_spec (s : session_state) :
  category_active s = true <->
  category s <> None /\ current_page s = Category.
Proof.
  unfold category_active.
  destruct (category s), (current_page s); split;
    try discriminate; try (intros [? ?]; congruence); try (split; congruence).
Qed.

(** One call keeps the invariant, provided a section is only selected while
    a category is active. *)
Lemma nav_step_invariant (s : session_state) (a : nav_call) :
  nav_invariant s ->
  match a with selectSection _ => category_active s = true | _ => True end ->
  nav_invariant (nav_step s a).
Proof.
  intros I G. destruct a; simpl.
  - intros H. now elim H.
  - intros H. now elim H.
  - intros _. now apply category_active_spec in G.
  - intros H. now elim H.
Qed.

Lemma guarded_trace_invariant (calls : list nav_call) :
  forall s, nav_invariant s ->
  section_calls_guarded s calls = true ->
  Forall nav_invariant (nav_trace s calls).
Proof.
  induction calls as [|a calls IH]; intros s I G; simpl; [constructor|].
  simpl in G. apply andb_prop in G as [Ga G].
  assert (nav_invariant (nav_step s a)) as I'.
  { apply nav_step_invariant; [exact I|]. now destruct a. }
  constructor; auto.
Qed.

(** C1 (amended).  After every call of every finite sequence of [goHome],
    [selectCategory], [selectSection] and [backToSections] that starts in the
    initial state and in which each [selectSection] is called while a
    category is selected on the category page, a selected section implies a
    selected category and the category page. *)
Theorem guarded_navigation_keeps_invariant (calls : list nav_call) :
  section_calls_guarded initial_session calls = true ->
  Forall nav_invariant (nav_trace initial_session calls).
Proof.
  apply guarded_trace_invariant, nav_invariant_initial.
Qed.

(** C9.  [navigate_to_section] assigns its argument to the section field and
    leaves the page, the category, the stored responses, the connection flag
    and the driver handle as they were; as a statement of a page it changes
    nothing else of the world either. *)
Theorem navigate_to_section_frame (s : session_state) (x : string) :
  section (navigate_to_section x s) = Some x
  /\ current_page (navigate_to_section x s) = current_page s
  /\ category (navigate_to_section x s) = category s
  /\ responses (navigate_to_section x s) = responses s
  /\ neo4j_connected (navigate_to_section x s) = neo4j_connected s
  /\ neo4j_driver (navigate_to_section x s) = neo4j_driver s
  /\ forall w : world,
       update_session (navigate_to_section x) w
       = (Ok tt,
          {| session := navigate_to_section x (session w);
             heap := heap w; ui := ui w; clicked := clicked w;
             db_log := db_log w; drivers_made := drivers_made w;
             close_log := close_log w |}).
Proof.
  repeat split.
Qed.

(* ------------------------------------------------------------------ *)
(** ** Chart blocks: the statements compute [dispatch_outcome] *)

Lemma settle_noop (r : ref) (df : DataFrame) (w : world) :
  nth_error (heap w) r = Some df -> settle r df [] w = w.
Proof.
  intros H. destruct w as [s h u c l n cl]; simpl in *.
  unfold settle, with_ui, with_heap; simpl.
  now rewrite app_nil_r, (replace_nth_same h r df H).
Qed.

Lemma settle_settle (r : ref) (df1 df2 : DataFrame) (cs1 cs2 : list chart)
  (w : world) :
  settle r df2 cs2 (settle r df1 cs1 w) = settle r df2 (cs1 ++ cs2)%list w.
Proof.
  destruct w as [s h u c l n cl].
  unfold settle, with_ui, with_heap; simpl.
  now rewrite replace_nth_twice, map_app, app_assoc.
Qed.

Lemma heap_settle (r : ref) (df df0 : DataFrame) (cs : list chart) (w : world) :
  nth_error (heap w) r = Some df0 ->
  nth_error (heap (settle r df cs w)) r = Some df.
Proof.
  intros H. simpl. eapply nth_error_replace_nth; eauto.
Qed.

Lemma for_each_pandas_reads (df : DataFrame) (cs : list string) (w : world) :
  for_each cs (pandas_reads df) w
  = match first_missing df (fun c => c) KeyError cs with
    | Some e => (Raise e, w)
    | None => (Ok tt, w)
    end.
Proof.
  induction cs as [|c cs IH]; simpl; [reflexivity|].
  unfold bind, pandas_reads.
  destruct (Pandas.has_column c df); simpl; [apply IH | reflexivity].
Qed.

Lemma for_each_plotly_reads (df : DataFrame) (acs : list (string * string))
  (w : world) :
  for_each acs (plotly_reads df) w
  = match first_missing df snd (plotly_error df) acs with
    | Some e => (Raise e, w)
    | None => (Ok tt, w)
    end.
Proof.
  induction acs as [|ac acs IH]; simpl; [reflexivity|].
  unfold bind, plotly_reads.
  destruct (Pandas.has_column (snd ac) df); simpl; [apply IH | reflexivity].
Qed.

Lemma build_chart_outcome (r : ref) (b : chart_block) (w : world)
  (df : DataFrame) :
  nth_error (heap w) r = Some df ->
  build_chart r b w = outcome_world r (build_outcome df b) w.
Proof.
  intros H.
  assert (forall w1 : world,
    heap w1 = Pandas.replace_nth r (assigned b df) (heap w) ->
    (df' <- deref r ;;
     for_each (shaping_reads b) (pandas_reads df') ;;
     for_each (plot_reads b) (plotly_reads df') ;;
     emit (st_plotly_chart
             {| chart_kind_of := plot b; chart_title := title b;
                chart_recipe := shaping b; chart_data := df' |})) w1
    = (fst (fst (build_outcome df b)),
       with_ui (fun u => (u ++ map st_plotly_chart (snd (build_outcome df b)))%list)
               w1)) as K.
  { intros w1 Hh. unfold bind at 1. unfold deref.
    assert (nth r (heap w1) Pandas.DataFrame_empty = assigned b df) as ->.
    { apply nth_of_nth_error. rewrite Hh.
      eapply nth_error_replace_nth; eauto. }
    unfold bind at 1. rewrite for_each_pandas_reads.
    unfold build_outcome.
    destruct (first_missing (assigned b df) (fun c => c) KeyError
                            (shaping_reads b)); simpl.
    - destruct w1; unfold with_ui; simpl. now rewrite app_nil_r.
    - unfold bind at 1. rewrite for_each_plotly_reads.
      destruct (first_missing (assigned b df) snd
                  (plotly_error (assigned b df)) (plot_reads b)); simpl.
      + destruct w1; unfold with_ui; simpl. now rewrite app_nil_r.
      + reflexivity. }
  assert (snd (fst (build_outcome df b)) = assigned b df) as T.
  { unfold build_outcome.
    destruct (first_missing (assigned b df) (fun c => c) KeyError
                            (shaping_reads b)); [reflexivity|].
    now destruct (first_missing (assigned b df) snd
                    (plotly_error (assigned b df)) (plot_reads b)). }
  unfold build_chart, outcome_world, settle. rewrite T.
  unfold bind at 1.
  destruct (assigns b) as [[c f]|] eqn:E.
  - unfold mutate, update. rewrite K.
    + f_equal. f_equal. destruct w; unfold with_heap; simpl in *.
      rewrite H. unfold assigned. now rewrite E.
    + simpl. rewrite H. unfold assigned. now rewrite E.
  - unfold ret. rewrite K.
    + f_equal. f_equal. destruct w; unfold with_heap; simpl in *.
      unfold assigned. rewrite E.
      now rewrite (replace_nth_same _ _ _ H).
    + unfold assigned. rewrite E. now rewrite (replace_nth_same _ _ _ H).
Qed.

Lemma run_block_outcome (q : string) (r : ref) (b : chart_block) (w : world)
  (df : DataFrame) :
  nth_error (heap w) r = Some df ->
  run_block q r b w = outcome_world r (block_outcome q df b) w.
Proof.
  intros H. unfold run_block, bind, deref.
  rewrite (nth_of_nth_error _ _ _ _ H).
  unfold block_outcome, when.
  destruct (block_fires q df b).
  - now apply build_chart_outcome.
  - unfold outcome_world, ret; simpl. now rewrite (settle_noop _ _ _ H).
Qed.

Lemma for_each_blocks_outcome (q : string) (r : ref) (bs : list chart_block) :
  forall (w : world) (df : DataFrame),
  nth_error (heap w) r = Some df ->
  for_each bs (run_block q r) w
  = outcome_world r (dispatch_outcome q df bs) w.
Proof.
  induction bs as [|b bs IH]; intros w df H; simpl.
  - unfold outcome_world, ret; simpl. now rewrite (settle_noop _ _ _ H).
  - unfold bind. rewrite (run_block_outcome q r b w df H).
    destruct (block_outcome q df b) as [[res df1] cs1]; simpl.
    destruct res as [[]| e |]; try reflexivity.
    rewrite (IH _ df1) by (eapply heap_settle; eauto).
    destruct (dispatch_outcome q df1 bs) as [[res2 df2] cs2]; simpl.
    unfold outcome_world; simpl. now rewrite settle_settle.
Qed.

(** The chart statements of a run only depend on the question and on the
    table behind [result_df]. *)
Lemma dispatch_charts_outcome (q : string) (r : ref) (w : world)
  (df : DataFrame) :
  nth_error (heap w) r = Some df ->
  dispatch_charts q r w = outcome_world r (dispatch_outcome q df chart_blocks) w.
Proof.
  apply for_each_blocks_outcome.
Qed.

(* ------------------------------------------------------------------ *)
(** ** The query gateway *)

Lemma run_neo4j_query_not_connected (query : string) (params : option record)
  (w : world) :
  neo4j_connected (session w) = false \/ neo4j_driver (session w) = None ->
  run_neo4j_query query params w
  = (Ok None,
     shown (st_error "Not connected to Neo4j. Please connect first.") w).
Proof.
  intros H. unfold run_neo4j_query, bind, get_session.
  destruct H as [H|H]; rewrite H.
  - reflexivity.
  - now destruct (neo4j_connected (session w)).
Qed.

Lemma run_neo4j_query_reply (query : string) (w : world) (d : driver)
  (data : list record) :
  neo4j_connected (session w) = true ->
  neo4j_driver (session w) = Some d ->
  neo4j_run (length (db_log w)) d query [] = inr data ->
  run_neo4j_query query None w
  = (Ok (Some (length (heap w))), fetched d query data w).
Proof.
  intros Hc Hd Hr.
  unfold run_neo4j_query, bind, get_session. rewrite Hc, Hd.
  unfold try_except, bind, session_run, bind, get_world, update; simpl.
  rewrite Hr. simpl.
  destruct data; reflexivity.
Qed.

Lemma run_neo4j_query_error (query : string) (w : world) (d : driver)
  (msg : string) :
  neo4j_connected (session w) = true ->
  neo4j_driver (session w) = Some d ->
  neo4j_run (length (db_log w)) d query [] = inl msg ->
  run_neo4j_query query None w
  = (Ok None,
     shown (st_error ("Query execution failed: " ++ msg))
           (asked d query [] w)).
Proof.
  intros Hc Hd Hr.
  unfold run_neo4j_query, bind, get_session. rewrite Hc, Hd.
  unfold try_except, bind, session_run, bind, get_world, update; simpl.
  rewrite Hr. reflexivity.
Qed.

(** ** Stepping through statements *)

Lemma bind_ok {A B} (m : M A) (k : A -> M B) (w w' : world) (a : A) :
  m w = (Ok a, w') -> bind m k w = k a w'.
Proof. unfold bind. now intros ->. Qed.

Lemma bind_raise {A B} (m : M A) (k : A -> M B) (w w' : world) (e : exn) :
  m w = (Raise e, w') -> bind m k w = (Raise e, w').
Proof. unfold bind. now intros ->. Qed.

Lemma bind_rerun {A B} (m : M A) (k : A -> M B) (w w' : world) :
  m w = (Rerun, w') -> bind m k w = (Rerun, w').
Proof. unfold bind. now intros ->. Qed.

Lemma bind_ret {A B} (a : A) (k : A -> M B) (w : world) :
  bind (ret a) k w = k a w.
Proof. reflexivity. Qed.

Lemma bind_emit {B} (x : widget) (k : unit -> M B) (w : world) :
  bind (emit x) k w = k tt (shown x w).
Proof. reflexivity. Qed.

Lemma bind_get_session {B} (k : session_state -> M B) (w : world) :
  bind get_session k w = k (session w) w.
Proof. reflexivity. Qed.

Lemma bind_get_world {B} (k : world -> M B) (w : world) :
  bind get_world k w = k w w.
Proof. reflexivity. Qed.

Lemma bind_update {B} (f : world -> world) (k : unit -> M B) (w : world) :
  bind (update f) k w = k tt (f w).
Proof. reflexivity. Qed.

Lemma bind_update_session {B} (f : session_state -> session_state)
  (k : unit -> M B) (w : world) :
  bind (update_session f) k w = k tt (with_session f w).
Proof. reflexivity. Qed.

Lemma bind_deref {B} (r : ref) (k : DataFrame -> M B) (w : world) :
  bind (deref r) k w = k (nth r (heap w) Pandas.DataFrame_empty) w.
Proof. reflexivity. Qed.

(** ** The "Run Analysis" handler *)

Lemma deref_fetched (d : driver) (query : string) (data : list record)
  (w : world) :
  nth (length (heap w)) (heap (fetched d query data w)) Pandas.DataFrame_empty
  = Pandas.DataFrame_of data.
Proof.
  apply nth_of_nth_error. apply nth_error_fresh.
Qed.

Lemma run_analysis_reply_empty (c s q query : string) (w : world) (d : driver)
  (data : list record) :
  neo4j_connected (session w) = true ->
  neo4j_driver (session w) = Some d ->
  neo4j_run (length (db_log w)) d query [] = inr data ->
  Pandas.empty (Pandas.DataFrame_of data) = true ->
  run_analysis c s q query w
  = (Ok tt, fetched d query data (shown (st_spinner "Executing query...") w)).
Proof.
  intros Hc Hd Hr He.
  unfold run_analysis. rewrite bind_emit.
  rewrite (bind_ok _ _ _ _ _
             (run_neo4j_query_reply query
                (shown (st_spinner "Executing query...") w) d data Hc Hd Hr)).
  rewrite bind_deref.
  rewrite (deref_fetched d query data
             (shown (st_spinner "Executing query...") w)).
  now rewrite He.
Qed.

Lemma run_analysis_reply_table (c s q query : string) (w : world) (d : driver)
  (data : list record) :
  neo4j_connected (session w) = true ->
  neo4j_driver (session w) = Some d ->
  neo4j_run (length (db_log w)) d query [] = inr data ->
  Pandas.empty (Pandas.DataFrame_of data) = false ->
  run_analysis c s q query w
  = outcome_world (length (heap w))
      (dispatch_outcome q (Pandas.DataFrame_of data) chart_blocks)
      (shown (st_dataframe (Pandas.DataFrame_of data))
         (stored (response_key c s q) (length (heap w))
            (fetched d query data
               (shown (st_spinner "Executing query...") w)))).
Proof.
  intros Hc Hd Hr He.
  unfold run_analysis. rewrite bind_emit.
  rewrite (bind_ok _ _ _ _ _
             (run_neo4j_query_reply query
                (shown (st_spinner "Executing query...") w) d data Hc Hd Hr)).
  rewrite bind_deref.
  rewrite (deref_fetched d query data
             (shown (st_spinner "Executing query...") w)).
  rewrite He. unfold negb, when.
  rewrite bind_get_session, bind_update_session, bind_deref.
  change (heap (with_session _ ?x)) with (heap x).
  rewrite (deref_fetched d query data
             (shown (st_spinner "Executing query...") w)).
  rewrite bind_emit.
  apply dispatch_charts_outcome. simpl. apply nth_error_fresh.
Qed.

Lemma run_analysis_error (c s q query : string) (w : world) (d : driver)
  (msg : string) :
  neo4j_connected (session w) = true ->
  neo4j_driver (session w) = Some d ->
  neo4j_run (length (db_log w)) d query [] = inl msg ->
  run_analysis c s q query w
  = (Ok tt,
     shown (st_error ("Query execution failed: " ++ msg))
       (asked d query [] (shown (st_spinner "Executing query...") w))).
Proof.
  intros Hc Hd Hr.
  unfold run_analysis. rewrite bind_emit.
  now rewrite (bind_ok _ _ _ _ _
                 (run_neo4j_query_error query
                    (shown (st_spinner "Executing query...") w) d msg
                    Hc Hd Hr)).
Qed.

(* ------------------------------------------------------------------ *)
(** ** What [dispatch_outcome] can be *)

Lemma block_fires_matches (q : string) (df : DataFrame) (b : chart_block) :
  block_fires q df b = true -> literal_matches q b = true.
Proof.
  unfold block_fires, literal_matches. intros H.
  now apply andb_prop in H.
Qed.

Lemma block_outcome_idle (q : string) (df : DataFrame) (b : chart_block) :
  block_fires q df b = false -> block_outcome q df b = (Ok tt, df, []).
Proof.
  unfold block_outcome. now intros ->.
Qed.

Lemma build_outcome_cases (df : DataFrame) (b : chart_block) :
  (exists e, build_outcome df b = (Raise e, assigned b df, []))
  \/ build_outcome df b = (Ok tt, assigned b df, [figure b (assigned b df)]).
Proof.
  unfold build_outcome.
  destruct (first_missing (assigned b df) (fun c => c) KeyError
                          (shaping_reads b)) as [e|]; [left; eauto|].
  destruct (first_missing (assigned b df) snd (plotly_error (assigned b df))
                          (plot_reads b)) as [e|]; [left; eauto|].
  now right.
Qed.

Lemma block_outcome_cases (q : string) (df : DataFrame) (b : chart_block) :
  block_outcome q df b = (Ok tt, df, [])
  \/ (literal_matches q b = true
      /\ ((exists e, block_outcome q df b = (Raise e, assigned b df, []))
          \/ block_outcome q df b
             = (Ok tt, assigned b df, [figure b (assigned b df)]))).
Proof.
  unfold block_outcome.
  destruct (block_fires q df b) eqn:F; [right|now left].
  split; [eapply block_fires_matches; eauto|].
  apply build_outcome_cases.
Qed.

(** A run draws no more figures than there are blocks whose literal matches
    the question. *)
Lemma dispatch_outcome_charts_le (q : string) (bs : list chart_block) :
  forall df,
  length (snd (dispatch_outcome q df bs))
  <= length (filter (literal_matches q) bs).
Proof.
  induction bs as [|b bs IH]; intros df; simpl; [lia|].
  destruct (block_outcome_cases q df b) as [E|[L [[e E]|E]]]; rewrite E.
  - specialize (IH df).
    destruct (dispatch_outcome q df bs) as [[res df'] cs]; simpl in *.
    destruct (literal_matches q b); simpl; lia.
  - rewrite L. simpl. lia.
  - rewrite L. specialize (IH (assigned b df)).
    destruct (dispatch_outcome q (assigned b df) bs) as [[res df'] cs];
      simpl in *. lia.
Qed.

(** Every figure of a run comes from a block whose literal matches. *)
Lemma dispatch_outcome_figures (q : string) (bs : list chart_block) :
  forall df c,
  In c (snd (dispatch_outcome q df bs)) ->
  exists b df', In b bs /\ literal_matches q b = true /\ c = figure b df'.
Proof.
  clear cypher neo4j_open.
  induction bs as [|b bs IH]; intros df c; simpl; [tauto|].
  destruct (block_outcome_cases q df b) as [E|[L [[e E]|E]]]; rewrite E.
  - specialize (IH df c).
    destruct (dispatch_outcome q df bs) as [[res df'] cs]; simpl in *.
    intros H. destruct (IH H) as (b' & d' & ? & ? & ?). eauto 6.
  - simpl. tauto.
  - specialize (IH (assigned b df) c).
    destruct (dispatch_outcome q (assigned b df) bs) as [[res df'] cs];
      simpl in *.
    intros [<-|H]; [eauto 6|].
    destruct (IH H) as (b' & d' & ? & ? & ?). eauto 6.
Qed.

(** The table object is left alone unless a matching block assigns to it. *)
Lemma dispatch_outcome_table (q : string) (bs : list chart_block) :
  (forall b, In b bs -> literal_matches q b = true -> assigns b = None) ->
  forall df, snd (fst (dispatch_outcome q df bs)) = df.
Proof.
  induction bs as [|b bs IH]; intros N df; simpl; [reflexivity|].
  assert (literal_matches q b = true -> assigned b df = df) as A.
  { intros L. unfold assigned. now rewrite (N b (or_introl eq_refl) L). }
  assert (forall x, snd (fst (dispatch_outcome q x bs)) = x) as IH'.
  { apply IH. intros b' ? ?. apply N; simpl; auto. }
  destruct (block_outcome_cases q df b) as [E|[L [[e E]|E]]]; rewrite E.
  - specialize (IH' df).
    now destruct (dispatch_outcome q df bs) as [[res df'] cs].
  - simpl. auto.
  - specialize (IH' (assigned b df)).
    destruct (dispatch_outcome q (assigned b df) bs) as [[res df'] cs];
      simpl in *. rewrite IH'. auto.
Qed.

(** Where no block fires the run ends normally and draws nothing. *)
Lemma dispatch_outcome_idle (q : string) (df : DataFrame)
  (bs : list chart_block) :
  (forall b, In b bs -> block_fires q df b = false) ->
  dispatch_outcome q df bs = (Ok tt, df, []).
Proof.
  induction bs as [|b bs IH]; intros N; simpl; [reflexivity|].
  rewrite block_outcome_idle by (apply N; simpl; auto).
  rewrite IH; [reflexivity|]. intros b' ?. apply N; simpl; auto.
Qed.

Lemma filter_literals (s : string) (bs : list chart_block) :
  length (filter (fun b => String.prefix (literal b) s) bs)
  = length (filter (fun l => String.prefix l s) (map literal bs)).
Proof.
  induction bs as [|b bs IH]; simpl; [reflexivity|].
  destruct (String.prefix (literal b) s); simpl; now rewrite IH.
Qed.

Lemma chart_literals_prefix_free : prefix_free (map literal chart_blocks) = true.
Proof. vm_compute. reflexivity. Qed.

(** At most one chart block has a literal that the question starts with. *)
Lemma at_most_one_literal (q : string) :
  length (filter (literal_matches q) chart_blocks) <= 1.
Proof.
  unfold literal_matches, PyStr.startswith.
  rewrite filter_literals.
  apply prefix_free_at_most_one, chart_literals_prefix_free.
Qed.

Lemma catalog_cross_trigger_free :
  cross_trigger_free catalog_questions chart_blocks = true.
Proof. vm_compute. reflexivity. Qed.

(** No chart block answers to two different questions of the catalog. *)
Lemma catalog_blocks_disjoint (q1 q2 : string) (b : chart_block) :
  In q1 catalog_questions -> In q2 catalog_questions -> q1 <> q2 ->
  In b chart_blocks ->
  literal_matches q1 b = true -> literal_matches q2 b = false.
Proof.
  intros H1 H2 N Hb L1.
  pose proof catalog_cross_trigger_free as C. unfold cross_trigger_free in C.
  rewrite forallb_forall in C. specialize (C q1 H1).
  rewrite forallb_forall in C. specialize (C q2 H2).
  apply orb_prop in C as [C|C].
  - apply String.eqb_eq in C. contradiction.
  - rewrite forallb_forall in C. specialize (C b Hb).
    rewrite L1 in C. simpl in C. now destruct (literal_matches q2 b).
Qed.

Lemma charts_of_app (u v : list widget) :
  charts_of (u ++ v)%list = (charts_of u ++ charts_of v)%list.
Proof. unfold charts_of. apply flat_map_app. Qed.

Lemma charts_of_figures (cs : list chart) :
  charts_of (map st_plotly_chart cs) = cs.
Proof.
  induction cs as [|c cs IH]; simpl; [reflexivity|]. now f_equal.
Qed.

Lemma charts_of_settle (r : ref) (df : DataFrame) (cs : list chart)
  (w : world) :
  charts_of (ui (settle r df cs w)) = (charts_of (ui w) ++ cs)%list.
Proof.
  simpl. now rewrite charts_of_app, charts_of_figures.
Qed.

(** C2.  What the chart statements do is a function of the question and of
    the table alone: two runs on the same pair, in whatever worlds, end the
    same way and draw the same figure or both none; a run draws at most one
    figure; and for two different questions of the catalog a block that
    fires for one never fires for the other, whatever the tables. *)
Theorem chart_dispatch_keyed_by_question
  (q1 q2 : string) (df : DataFrame) (r1 r2 : ref) (w1 w2 : world) :
  nth_error (heap w1) r1 = Some df ->
  nth_error (heap w2) r2 = Some df ->
  In q1 catalog_questions -> In q2 catalog_questions -> q1 <> q2 ->
  fst (dispatch_charts q1 r1 w1) = fst (dispatch_charts q1 r2 w2)
  /\ (exists cs,
        length cs <= 1
        /\ charts_of (ui (snd (dispatch_charts q1 r1 w1)))
           = (charts_of (ui w1) ++ cs)%list
        /\ charts_of (ui (snd (dispatch_charts q1 r2 w2)))
           = (charts_of (ui w2) ++ cs)%list)
  /\ (forall b df1 df2, In b chart_blocks ->
        block_fires q1 df1 b = true -> block_fires q2 df2 b = false)
  /\ (forall b df1 df2, In b chart_blocks ->
        block_fires q2 df2 b = true -> block_fires q1 df1 b = false).
Proof.
  intros H1 H2 C1 C2 N.
  rewrite (dispatch_charts_outcome q1 r1 w1 df H1).
  rewrite (dispatch_charts_outcome q1 r2 w2 df H2).
  unfold outcome_world; simpl fst; simpl snd.
  split; [reflexivity|]. split.
  - exists (snd (dispatch_outcome q1 df chart_blocks)). split.
    + eapply Nat.le_trans;
        [apply dispatch_outcome_charts_le | apply at_most_one_literal].
    + split; apply charts_of_settle.
  - split; intros b df1 df2 Hb F.
    + apply block_fires_matches in F.
      unfold block_fires.
      fold (literal_matches q2 b).
      now rewrite (catalog_blocks_disjoint q1 q2 b C1 C2 N Hb F).
    + apply block_fires_matches in F.
      unfold block_fires.
      fold (literal_matches q1 b).
      rewrite (catalog_blocks_disjoint q2 q1 b C2 C1) by auto.
      reflexivity.
Qed.

(* ------------------------------------------------------------------ *)
(** ** Query execution and the stored results *)

(** C6.  A query attempted while the session is not connected returns
    [None] after the message "Not connected to Neo4j. Please connect first.";
    no request reaches the database, and neither the session state nor the
    table objects change. *)
Theorem query_while_disconnected (query : string) (params : option record)
  (w : world) :
  neo4j_connected (session w) = false ->
  fst (run_neo4j_query query params w) = Ok None
  /\ ui (snd (run_neo4j_query query params w))
     = (ui w ++ [st_error "Not connected to Neo4j. Please connect first."])%list
  /\ db_log (snd (run_neo4j_query query params w)) = db_log w
  /\ session (snd (run_neo4j_query query params w)) = session w
  /\ heap (snd (run_neo4j_query query params w)) = heap w.
Proof.
  intros H. rewrite run_neo4j_query_not_connected by now left.
  repeat split.
Qed.

(** C7.  When the database fails on a query with message [msg], the gateway
    returns [None] after showing "Query execution failed: " followed by
    [msg], and the "Run Analysis" handler ends normally with the session
    state, in particular the stored responses, and every table object
    unchanged. *)
Theorem failed_query_leaves_results (c s q query : string) (w : world)
  (d : driver) (msg : string) :
  neo4j_connected (session w) = true ->
  neo4j_driver (session w) = Some d ->
  neo4j_run (length (db_log w)) d query [] = inl msg ->
  fst (run_neo4j_query query None w) = Ok None
  /\ ui (snd (run_neo4j_query query None w))
     = (ui w ++ [st_error ("Query execution failed: " ++ msg)])%list
  /\ fst (run_analysis c s q query w) = Ok tt
  /\ responses (session (snd (run_analysis c s q query w)))
     = responses (session w)
  /\ session (snd (run_analysis c s q query w)) = session w
  /\ heap (snd (run_analysis c s q query w)) = heap w
  /\ ui (snd (run_analysis c s q query w))
     = (ui w ++ [st_spinner "Executing query...";
                 st_error ("Query execution failed: " ++ msg)])%list.
Proof.
  intros Hc Hd Hr.
  rewrite (run_neo4j_query_error query w d msg Hc Hd Hr).
  rewrite (run_analysis_error c s q query w d msg Hc Hd Hr).
  repeat split. simpl. now rewrite <- app_assoc.
Qed.

Lemma DataFrame_of_no_records : Pandas.DataFrame_of [] = Pandas.DataFrame_empty.
Proof. reflexivity. Qed.

(** C3 (amended).  A query the database answers makes the gateway return a
    new table object holding the reply, a zero-row table for an empty match
    set, without an error.  If that table is not empty, the handler binds
    the query's composite key to the new object, replacing whatever the key
    was bound to and touching no other key, and, unless a chart block that
    matches the question assigns a column, the object still holds the reply
    when the handler ends.  If the table is empty, nothing is stored: the
    handler ends normally and the responses are as before. *)
Theorem reply_stored_unless_empty (c s q query : string) (w : world)
  (d : driver) (data : list record) :
  neo4j_connected (session w) = true ->
  neo4j_driver (session w) = Some d ->
  neo4j_run (length (db_log w)) d query [] = inr data ->
  fst (run_neo4j_query query None w) = Ok (Some (length (heap w)))
  /\ nth_error (heap (snd (run_neo4j_query query None w))) (length (heap w))
     = Some (Pandas.DataFrame_of data)
  /\ ui (snd (run_neo4j_query query None w)) = ui w
  /\ (data = [] -> Pandas.DataFrame_of data = Pandas.DataFrame_empty)
  /\ (Pandas.empty (Pandas.DataFrame_of data) = false ->
      responses (session (snd (run_analysis c s q query w)))
      = PyDict.set (response_key c s q) (length (heap w))
                   (responses (session w))
      /\ PyDict.get (response_key c s q)
           (responses (session (snd (run_analysis c s q query w))))
         = Some (length (heap w))
      /\ (forall k, k <> response_key c s q ->
            PyDict.get k
              (responses (session (snd (run_analysis c s q query w))))
            = PyDict.get k (responses (session w)))
      /\ ((forall b, In b chart_blocks -> literal_matches q b = true ->
             assigns b = None) ->
          nth_error (heap (snd (run_analysis c s q query w)))
                    (length (heap w))
          = Some (Pandas.DataFrame_of data)))
  /\ (Pandas.empty (Pandas.DataFrame_of data) = true ->
      fst (run_analysis c s q query w) = Ok tt
      /\ responses (session (snd (run_analysis c s q query w)))
         = responses (session w)
      /\ ui (snd (run_analysis c s q query w))
         = (ui w ++ [st_spinner "Executing query..."])%list).
Proof.
  intros Hc Hd Hr.
  rewrite (run_neo4j_query_reply query w d data Hc Hd Hr).
  split; [reflexivity|].
  split; [apply nth_error_fresh|].
  split; [reflexivity|].
  split; [now intros ->|].
  split; intros He.
  - rewrite (run_analysis_reply_table c s q query w d data Hc Hd Hr He).
    unfold outcome_world.
    split; [reflexivity|].
    split; [apply get_set_same|].
    split; [intros k N; now apply get_set_other|].
    intros N. cbn [snd fst].
    rewrite (dispatch_outcome_table q chart_blocks N).
    eapply heap_settle. apply nth_error_fresh.
  - rewrite (run_analysis_reply_empty c s q query w d data Hc Hd Hr He).
    repeat split.
Qed.

(* ------------------------------------------------------------------ *)
(** ** Chart blocks on a table that lacks a column *)

Lemma index_of_has (c : string) (cols : list string) :
  existsb (String.eqb c) cols = false -> Pandas.index_of c cols = None.
Proof.
  induction cols as [|c' cols IH]; simpl; [reflexivity|].
  destruct (String.eqb c c'); simpl; [discriminate|].
  intros H. now rewrite IH.
Qed.

Lemma index_of_some (c : string) (cols : list string) :
  existsb (String.eqb c) cols = true -> exists i, Pandas.index_of c cols = Some i.
Proof.
  induction cols as [|c' cols IH]; simpl; [discriminate|].
  destruct (String.eqb c c'); simpl; [eauto|].
  intros H. destruct (IH H) as [i ->]. simpl. eauto.
Qed.

(** A column assignment adds at most the assigned label. *)
Lemma has_column_set_column (c c' : string) (vals : list scalar)
  (df : DataFrame) :
  c <> c' ->
  Pandas.has_column c (Pandas.set_column c' vals df) = Pandas.has_column c df.
Proof.
  intros N. unfold Pandas.set_column, Pandas.has_column.
  destruct (existsb (String.eqb c') (columns df)) eqn:E.
  - destruct (index_of_some _ _ E) as [i ->]. reflexivity.
  - rewrite (index_of_has _ _ E). simpl.
    rewrite existsb_app. simpl.
    destruct (String.eqb_spec c c'); [contradiction|].
    now rewrite !orb_false_r.
Qed.

Lemma first_missing_found {A} (df : DataFrame) (col : A -> string)
  (err : A -> exn) (xs : list A) (x : A) :
  In x xs -> Pandas.has_column (col x) df = false ->
  exists e, first_missing df col err xs = Some e.
Proof.
  induction xs as [|y xs IH]; simpl; [tauto|].
  intros [->|H] M.
  - rewrite M. eauto.
  - destruct (Pandas.has_column (col y) df); eauto.
Qed.

Lemma needed_column_missing (b : chart_block) (df : DataFrame) (c : string) :
  In c (needed_columns b) -> Pandas.has_column c df = false ->
  (In c (shaping_reads b) \/ In c (map snd (plot_reads b)))
  /\ Pandas.has_column c (assigned b df) = false.
Proof.
  unfold needed_columns, assigned. intros H M.
  apply filter_In in H as [H F]. apply in_app_or in H. split; [exact H|].
  destruct (assigns b) as [[c' f]|]; [|exact M].
  rewrite has_column_set_column; [exact M|].
  intros ->. now rewrite String.eqb_refl in F.
Qed.

(** A block whose test passed on a table without one of the columns it
    needs ends with an exception and draws nothing. *)
Lemma build_outcome_raises (df : DataFrame) (b : chart_block) (c : string) :
  In c (needed_columns b) -> Pandas.has_column c df = false ->
  exists e, build_outcome df b = (Raise e, assigned b df, []).
Proof.
  intros H M.
  destruct (needed_column_missing b df c H M) as [[R|R] M'].
  - destruct (first_missing_found (assigned b df) (fun x => x) KeyError
                _ c R M') as [e E].
    exists e. unfold build_outcome. now rewrite E.
  - apply in_map_iff in R as ([a c'] & <- & R).
    destruct (first_missing_found (assigned b df) snd
                (plotly_error (assigned b df)) _ (a, c') R M') as [e E].
    unfold build_outcome.
    destruct (first_missing (assigned b df) (fun x => x) KeyError
                (shaping_reads b)) as [e'|]; [eauto|].
    rewrite E. eauto.
Qed.

Lemma dispatch_outcome_skip (q : string) (df : DataFrame)
  (pre rest : list chart_block) :
  (forall x, In x pre -> literal_matches q x = false) ->
  dispatch_outcome q df (pre ++ rest)%list = dispatch_outcome q df rest.
Proof.
  induction pre as [|x pre IH]; intros N; simpl; [reflexivity|].
  rewrite block_outcome_idle.
  - rewrite IH by (intros y ?; apply N; simpl; auto).
    now destruct (dispatch_outcome q df rest) as [[res df'] cs].
  - unfold block_fires. fold (literal_matches q x).
    now rewrite (N x (or_introl eq_refl)).
Qed.

Lemma filter_nil_forall {A} (p : A -> bool) (l : list A) :
  length (filter p l) = 0 -> forall x, In x l -> p x = false.
Proof.
  intros H x Hx. destruct (p x) eqn:E; [|reflexivity].
  assert (In x (filter p l)) as I by (apply filter_In; auto).
  destruct (filter p l); [destruct I | discriminate].
Qed.

(** The block whose literal matches a question is the only one that does. *)
Lemma matching_block_alone (q : string) (b : chart_block) :
  In b chart_blocks -> literal_matches q b = true ->
  exists pre post,
    chart_blocks = (pre ++ b :: post)%list
    /\ (forall x, In x pre -> literal_matches q x = false)
    /\ (forall x, In x post -> literal_matches q x = false).
Proof.
  intros Hb L.
  destruct (in_split _ _ Hb) as (pre & post & E).
  exists pre, post. split; [exact E|].
  pose proof (at_most_one_literal q) as K. rewrite E in K.
  rewrite filter_app, length_app in K. simpl in K. rewrite L in K.
  simpl in K.
  split; apply (filter_nil_forall (literal_matches q)); lia.
Qed.

(** C4 (amended).  Let a non-empty reply be shown for a question that a
    chart block matches.  If the block's own test on the table fails, no
    block runs: the handler ends normally with the table as its only
    output.  If the test passes, or the block has none, and a column the
    block needs is absent, the exception is not caught: it leaves the
    handler after the table was stored and shown, and no figure is drawn. *)
Theorem chart_block_failure_not_caught (c s q query : string) (w : world)
  (d : driver) (data : list record) (b : chart_block) :
  neo4j_connected (session w) = true ->
  neo4j_driver (session w) = Some d ->
  neo4j_run (length (db_log w)) d query [] = inr data ->
  Pandas.empty (Pandas.DataFrame_of data) = false ->
  In b chart_blocks -> literal_matches q b = true ->
  (block_fires q (Pandas.DataFrame_of data) b = false ->
   fst (run_analysis c s q query w) = Ok tt
   /\ ui (snd (run_analysis c s q query w))
      = (ui w ++ [st_spinner "Executing query...";
                  st_dataframe (Pandas.DataFrame_of data)])%list)
  /\ (block_fires q (Pandas.DataFrame_of data) b = true ->
      (exists col, In col (needed_columns b)
                   /\ Pandas.has_column col (Pandas.DataFrame_of data) = false) ->
      (exists e, fst (run_analysis c s q query w) = Raise e)
      /\ ui (snd (run_analysis c s q query w))
         = (ui w ++ [st_spinner "Executing query...";
                     st_dataframe (Pandas.DataFrame_of data)])%list
      /\ PyDict.get (response_key c s q)
           (responses (session (snd (run_analysis c s q query w))))
         = Some (length (heap w))).
Proof.
  intros Hc Hd Hr He Hb L.
  rewrite (run_analysis_reply_table c s q query w d data Hc Hd Hr He).
  destruct (matching_block_alone q b Hb L) as (pre & post & E & Npre & Npost).
  unfold outcome_world. cbn [fst snd]. split.
  - intros F.
    rewrite dispatch_outcome_idle.
    + split; [reflexivity|]. simpl. now rewrite app_nil_r, <- app_assoc.
    + intros x Hx. rewrite E in Hx. apply in_app_or in Hx.
      unfold block_fires. fold (literal_matches q x).
      destruct Hx as [Hx|[<-|Hx]].
      * now rewrite (Npre x Hx).
      * exact F.
      * now rewrite (Npost x Hx).
  - intros F (col & Hcol & M).
    destruct (build_outcome_raises _ b col Hcol M) as [e B].
    assert (dispatch_outcome q (Pandas.DataFrame_of data) chart_blocks
            = (Raise e, assigned b (Pandas.DataFrame_of data), [])) as ->.
    { rewrite E, dispatch_outcome_skip by exact Npre.
      simpl. unfold block_outcome. rewrite F, B. reflexivity. }
    split; [exists e; reflexivity|]. split.
    + simpl. now rewrite app_nil_r, <- app_assoc.
    + simpl. apply get_set_same.
Qed.

(* ------------------------------------------------------------------ *)
(** ** Export *)

Lemma distinct_NoDup (ls : list string) : distinct ls = true -> NoDup ls.
Proof.
  induction ls as [|l ls IH]; simpl; intros H; constructor;
    apply andb_prop in H as [N D]; auto.
  intros I. apply negb_true_iff in N.
  assert (existsb (String.eqb l) ls = true) as E.
  { apply existsb_exists. exists l. split; [exact I | apply String.eqb_refl]. }
  congruence.
Qed.

Lemma NoDup_map_injective {A B} (f : A -> B) (l : list A) (x y : A) :
  NoDup (map f l) -> In x l -> In y l -> f x = f y -> x = y.
Proof.
  induction l as [|a l IH]; simpl; [tauto|].
  intros N Hx Hy E. inversion N as [|? ? Na Nl]; subst.
  destruct Hx as [->|Hx], Hy as [->|Hy]; auto.
  - elim Na. rewrite E. now apply in_map.
  - elim Na. rewrite <- E. now apply in_map.
Qed.

Lemma NoDup_map_within {A B} (f : A -> B) (dom l : list A) :
  NoDup (map f dom) -> NoDup l -> (forall x, In x l -> In x dom) ->
  NoDup (map f l).
Proof.
  intros D. induction l as [|a l IH]; simpl; intros N S; constructor;
    inversion N as [|? ? Na Nl]; subst; auto.
  intros I. apply in_map_iff in I as (y & E & Hy).
  assert (y = a) as -> by (eapply (NoDup_map_injective f dom); eauto).
  contradiction.
Qed.

Lemma catalog_sheet_names_distinct :
  NoDup (map sheet_name_of catalog_keys).
Proof. apply distinct_NoDup. vm_compute. reflexivity. Qed.

Lemma catalog_keys_are_not_notes :
  forall k, In k catalog_keys -> PyStr.endswith k "_notes" = false.
Proof.
  assert (forallb (fun k => negb (PyStr.endswith k "_notes")) catalog_keys
          = true) as H by (vm_compute; reflexivity).
  rewrite forallb_forall in H. intros k Hk.
  apply negb_true_iff. auto.
Qed.

(** The sheet name of a catalog result is the start of its question. *)
Lemma catalog_sheet_name (c s q : string) :
  In (c, s, q) catalog_entries ->
  sheet_name_of (response_key c s q) = PyStr.slice_to 31 q.
Proof.
  assert (forallb (fun e =>
            String.eqb
              (sheet_name_of (response_key (fst (fst e)) (snd (fst e)) (snd e)))
              (PyStr.slice_to 31 (snd e))) catalog_entries = true) as H
    by (vm_compute; reflexivity).
  rewrite forallb_forall in H. intros I.
  apply String.eqb_eq. exact (H (c, s, q) I).
Qed.

(** Sheet names are dictionary keys: pairwise different for any store. *)
Lemma sheet_names_unique (h : list DataFrame) (resp : PyDict.t ref) :
  NoDup (PyDict.keys (collect_all_data h resp)).
Proof.
  unfold collect_all_data, PyDict.items.
  assert (forall acc : PyDict.t ref, PyDict.wf acc ->
            PyDict.wf
              (fold_left (fun all_data kv =>
                 match nth_error h (snd kv) with
                 | Some _ =>
                     if negb (PyStr.endswith (fst kv) "_notes")
                     then PyDict.set (sheet_name_of (fst kv)) (snd kv) all_data
                     else all_data
                 | None => all_data
                 end) resp acc)) as K.
  { induction resp as [|kv resp IH]; intros acc W; simpl; [exact W|].
    apply IH.
    match goal with
    | |- context [nth_error h ?x] => destruct (nth_error h x)
    end; [|exact W].
    match goal with
    | |- context [negb ?x] => destruct (negb x)
    end; [|exact W].
    now apply wf_set. }
  apply K. constructor.
Qed.

Lemma collect_all_data_appends (h : list DataFrame) (resp : PyDict.t ref) :
  forall acc : PyDict.t ref,
  (forall kv, In kv resp ->
     snd kv < length h /\ PyStr.endswith (fst kv) "_notes" = false) ->
  NoDup (PyDict.keys acc ++ map (fun kv => sheet_name_of (fst kv)) resp)%list ->
  fold_left (fun all_data kv =>
    match nth_error h (snd kv) with
    | Some _ =>
        if negb (PyStr.endswith (fst kv) "_notes")
        then PyDict.set (sheet_name_of (fst kv)) (snd kv) all_data
        else all_data
    | None => all_data
    end) resp acc
  = (acc ++ map (fun kv => (sheet_name_of (fst kv), snd kv)) resp)%list.
Proof.
  induction resp as [|kv resp IH]; intros acc V N; simpl.
  - now rewrite app_nil_r.
  - destruct (V kv (or_introl eq_refl)) as [L E].
    match goal with
    | |- context [nth_error h ?x] => destruct (nth_error h x) eqn:G
    end; [|apply nth_error_None in G; unfold ref in *; lia].
    match goal with
    | |- context [PyStr.endswith ?x ?y] =>
        replace (PyStr.endswith x y) with false
    end.
    simpl negb. cbv iota.
    simpl in N.
    rewrite set_fresh.
    + rewrite IH.
      * now rewrite <- app_assoc.
      * intros kv' ?. apply V. simpl; auto.
      * unfold PyDict.keys in *. rewrite map_app. simpl.
        now rewrite <- app_assoc.
    + apply NoDup_remove_2 in N. intros I. apply N.
      apply in_or_app. now left.
Qed.

(** For a store of catalog results the [all_data] dictionary has one entry
    per stored result, in the order of storing. *)
Lemma collect_catalog_data (h : list DataFrame) (resp : PyDict.t ref) :
  PyDict.wf resp ->
  (forall k r, In (k, r) resp -> In k catalog_keys /\ r < length h) ->
  collect_all_data h resp
  = map (fun kr => (sheet_name_of (fst kr), snd kr)) resp.
Proof.
  intros W V.
  unfold collect_all_data, PyDict.items, PyDict.empty.
  rewrite collect_all_data_appends; [reflexivity| |].
  - intros [k r] I. destruct (V k r I) as [Ik Lr]. simpl. split; [exact Lr|].
    now apply catalog_keys_are_not_notes.
  - simpl. rewrite <- (map_map fst sheet_name_of).
    apply (NoDup_map_within sheet_name_of catalog_keys).
    + apply catalog_sheet_names_distinct.
    + exact W.
    + intros k I. apply in_map_iff in I as ([k' r] & <- & I).
      now destruct (V k' r I).
Qed.

(** C8 (amended).  Let every stored key be the composite key of a catalog
    question, bound to a table object.  Then the export builds exactly one
    sheet per stored result, in the order of storing; the name of a sheet is
    the last [" | "]-separated part of the key, the question text, cut to 31
    characters; the names are pairwise different; a sheet holds the stored
    table object as it is.  These sheets are what the writer of the workbook
    is given: when it accepts them, the Excel download carries exactly these
    sheets; when it refuses them, its message is shown and no workbook is
    offered.  Which sheets a writer accepts is not part of the statement. *)
Theorem export_sheet_per_catalog_result (w : world) :
  PyDict.wf (responses (session w)) ->
  (forall k r, In (k, r) (responses (session w)) ->
     In k catalog_keys /\ r < length (heap w)) ->
  collect_all_data (heap w) (responses (session w))
  = map (fun kr => (sheet_name_of (fst kr), snd kr)) (responses (session w))
  /\ sheets_of (heap w) (collect_all_data (heap w) (responses (session w)))
     = map (fun kr => (sheet_name_of (fst kr),
                       nth (snd kr) (heap w) Pandas.DataFrame_empty))
           (responses (session w))
  /\ NoDup (map fst (sheets_of (heap w)
                       (collect_all_data (heap w) (responses (session w)))))
  /\ (forall c s q, In (c, s, q) catalog_entries ->
        sheet_name_of (response_key c s q) = PyStr.slice_to 31 q)
  /\ (responses (session w) <> [] ->
      xlsx_write (sheets_of (heap w)
                    (collect_all_data (heap w) (responses (session w))))
      = None ->
      export_all_results "Excel" w
      = (Ok tt,
         shown (sidebar_download_button
                  "Download All Results (Excel)"
                  "retail_analytics_results.xlsx"
                  (Xlsx (sheets_of (heap w)
                           (collect_all_data (heap w)
                              (responses (session w)))))) w))
  /\ (responses (session w) <> [] ->
      forall msg,
      xlsx_write (sheets_of (heap w)
                    (collect_all_data (heap w) (responses (session w))))
      = Some msg ->
      export_all_results "Excel" w
      = (Ok tt,
         shown (sidebar_error ("Error creating Excel file: " ++ msg)) w)).
Proof.
  intros W V.
  pose proof (collect_catalog_data (heap w) (responses (session w)) W V) as E.
  split; [exact E|]. split.
  { rewrite E. unfold sheets_of. rewrite map_map. reflexivity. }
  split.
  { unfold sheets_of. rewrite map_map. simpl.
    apply (sheet_names_unique (heap w) (responses (session w))). }
  split; [intros c s q; apply catalog_sheet_name|].
  split.
  - intros NE X. unfold export_all_results. rewrite bind_get_world.
    destruct (responses (session w)) eqn:R; [congruence|].
    simpl String.eqb. cbv iota.
    unfold try_except. unfold bind at 1. rewrite X. reflexivity.
  - intros NE msg X. unfold export_all_results. rewrite bind_get_world.
    destruct (responses (session w)) eqn:R; [congruence|].
    simpl String.eqb. cbv iota.
    unfold try_except. unfold bind at 1. rewrite X. reflexivity.
Qed.

(* ------------------------------------------------------------------ *)
(** ** The connection *)

Lemma keeps_ret {A} (a : A) : keeps_connection (ret a).
Proof. now intros w. Qed.

Lemma keeps_raise {A} (e : exn) : keeps_connection (@raise A e).
Proof. now intros w. Qed.

Lemma keeps_rerun {A} : keeps_connection (@st_rerun A).
Proof. now intros w. Qed.

Lemma keeps_bind {A B} (m : M A) (k : A -> M B) :
  keeps_connection m -> (forall a, keeps_connection (k a)) ->
  keeps_connection (bind m k).
Proof.
  intros Hm Hk w. unfold bind. specialize (Hm w).
  destruct (m w) as [[a|e|] w']; simpl in *; auto.
  now rewrite Hk.
Qed.

Lemma keeps_try_except {A} (m : M A) (h : exn -> M A) :
  keeps_connection m -> (forall e, keeps_connection (h e)) ->
  keeps_connection (try_except m h).
Proof.
  intros Hm Hh w. unfold try_except. specialize (Hm w).
  destruct (m w) as [[a|e|] w']; simpl in *; auto.
  now rewrite Hh.
Qed.

Lemma keeps_when (b : bool) (m : M unit) :
  keeps_connection m -> keeps_connection (when b m).
Proof. destruct b; simpl; auto using @keeps_ret. Qed.

Lemma keeps_for_each {A} (xs : list A) (body : A -> M unit) :
  (forall x, keeps_connection (body x)) -> keeps_connection (for_each xs body).
Proof.
  intros H. induction xs as [|x xs IH]; simpl.
  - apply keeps_ret.
  - apply keeps_bind; auto.
Qed.

Lemma keeps_emit (x : widget) : keeps_connection (emit x).
Proof. now intros w. Qed.

Lemma keeps_get_session : keeps_connection get_session.
Proof. now intros w. Qed.

Lemma keeps_get_world : keeps_connection get_world.
Proof. now intros w. Qed.

Lemma keeps_deref (r : ref) : keeps_connection (deref r).
Proof. now intros w. Qed.

Lemma keeps_new_frame (df : DataFrame) : keeps_connection (new_frame df).
Proof. now intros w. Qed.

Lemma keeps_mutate (r : ref) (f : DataFrame -> DataFrame) :
  keeps_connection (mutate r f).
Proof. now intros w. Qed.

Lemma keeps_update_session (f : session_state -> session_state) :
  (forall s, neo4j_driver (f s) = neo4j_driver s) ->
  keeps_connection (update_session f).
Proof.
  intros H w. unfold connection_of. simpl. now rewrite H.
Qed.

Lemma keeps_with_clicked (k : option string) :
  keeps_connection (update (with_clicked k)).
Proof. now intros w. Qed.

Lemma keeps_button (label key : string) : keeps_connection (button label key).
Proof. now intros w. Qed.

Lemma keeps_subscript {V} (d : PyDict.t V) (k : option string) :
  keeps_connection (subscript d k).
Proof.
  intros w. unfold subscript.
  destruct k as [k|]; [|reflexivity]. now destruct (PyDict.get k d).
Qed.

Lemma keeps_session_run (d : driver) (query : string) (params : record) :
  keeps_connection (session_run d query params).
Proof.
  intros w. unfold session_run, bind, get_world, update; simpl.
  now destruct (neo4j_run (length (db_log w)) d query params).
Qed.

Create HintDb keeps.
#[local] Hint Resolve
  @keeps_ret @keeps_raise @keeps_rerun @keeps_emit keeps_get_session
  keeps_get_world keeps_deref keeps_new_frame keeps_mutate keeps_with_clicked
  keeps_button @keeps_subscript keeps_session_run : keeps.

Ltac keeps_step :=
  first
    [ solve [auto with keeps]
    | apply keeps_bind; [|intros ?]
    | apply keeps_try_except; [|intros ?]
    | apply keeps_when
    | apply keeps_for_each; intros ?
    | apply keeps_update_session; intros ?; reflexivity
    | match goal with
      | |- keeps_connection (match ?x with _ => _ end) => destruct x
      | |- keeps_connection (if ?x then _ else _) => destruct x
      end ].

Ltac keeps := repeat keeps_step.

Lemma keeps_run_neo4j_query (query : string) (params : option record) :
  keeps_connection (run_neo4j_query query params).
Proof. unfold run_neo4j_query. keeps. Qed.

Lemma keeps_pandas_reads (df : DataFrame) (c : string) :
  keeps_connection (pandas_reads df c).
Proof. unfold pandas_reads. keeps. Qed.

Lemma keeps_plotly_reads (df : DataFrame) (ac : string * string) :
  keeps_connection (plotly_reads df ac).
Proof. unfold plotly_reads. keeps. Qed.

#[local] Hint Resolve keeps_run_neo4j_query keeps_pandas_reads
  keeps_plotly_reads : keeps.

Lemma keeps_build_chart (r : ref) (b : chart_block) :
  keeps_connection (build_chart r b).
Proof. unfold build_chart. keeps. Qed.

#[local] Hint Resolve keeps_build_chart : keeps.

Lemma keeps_run_block (q : string) (r : ref) (b : chart_block) :
  keeps_connection (run_block q r b).
Proof. unfold run_block. keeps. Qed.

#[local] Hint Resolve keeps_run_block : keeps.

Lemma keeps_dispatch_charts (q : string) (r : ref) :
  keeps_connection (dispatch_charts q r).
Proof. unfold dispatch_charts. apply keeps_for_each. auto with keeps. Qed.

#[local] Hint Resolve keeps_dispatch_charts : keeps.

Lemma keeps_run_analysis (c s q query : string) :
  keeps_connection (run_analysis c s q query).
Proof. unfold run_analysis. keeps. Qed.

#[local] Hint Resolve keeps_run_analysis : keeps.

Lemma keeps_back_to_sections : keeps_connection back_to_sections.
Proof. unfold back_to_sections. keeps. Qed.

#[local] Hint Resolve keeps_back_to_sections : keeps.

Lemma keeps_category_page : keeps_connection category_page.
Proof. unfold category_page. keeps. Qed.

Lemma keeps_export_all_results (export_format : string) :
  keeps_connection (export_all_results export_format).
Proof. unfold export_all_results. keeps. Qed.

Lemma driver_forgotten_kept (old : nat) (w w' : world) :
  connection_of w' = connection_of w ->
  driver_forgotten old w -> driver_forgotten old w'.
Proof.
  unfold connection_of, driver_forgotten. intros E.
  inversion E as [[E1 E2 E3]]. now rewrite E1, E2, E3.
Qed.

Lemma connect_keeps_forgotten (old : nat) (uri username password : string)
  (w : world) :
  driver_forgotten old w ->
  driver_forgotten old (snd (connect_to_neo4j uri username password w)).
Proof.
  intros (C & L & D).
  unfold connect_to_neo4j, try_except, bind, GraphDatabase_driver.
  destruct (neo4j_open uri username password) as [msg|]; simpl.
  - repeat split; auto.
  - unfold session_run, bind, get_world, update; simpl.
    destruct (neo4j_run _ _ _ _) as [msg|data]; simpl.
    + repeat split; auto; simpl; lia.
    + repeat split; auto; try (simpl; lia).
      intros d [= <-]. simpl. lia.
Qed.

Lemma close_keeps_forgotten (old : nat) (d : driver) (w : world) :
  driver_forgotten old w -> drv_id d <> old ->
  driver_forgotten old (snd (driver_close d w))
  /\ neo4j_driver (session (snd (driver_close d w))) = neo4j_driver (session w).
Proof.
  intros (C & L & D) N. unfold driver_close, bind, update.
  assert (~ In old (close_log w ++ [drv_id d])%list) as C'.
  { intros I. apply in_app_or in I as [I|[I|[]]]; auto. }
  destruct (neo4j_close d); simpl; repeat split; auto.
Qed.

Lemma disconnect_keeps_forgotten (old : nat) (w : world) :
  driver_forgotten old w -> driver_forgotten old (snd (disconnect w)).
Proof.
  intros F. unfold disconnect. rewrite bind_get_session.
  destruct (neo4j_driver (session w)) as [d|] eqn:E.
  - assert (drv_id d <> old) as N by (destruct F as (_ & _ & D); auto).
    destruct (close_keeps_forgotten old d w F N) as [F' _].
    unfold bind, try_except.
    destruct (driver_close d w) as [[[]|e|] w']; simpl in *;
      try exact F'; destruct F' as (C & L & _);
      (split; [exact C | split; [exact L | intros ? ?; discriminate]]).
  - destruct F as (C & L & D). simpl.
    split; [exact C | split; [exact L | intros ? ?; discriminate]].
Qed.

Lemma on_exit_keeps_forgotten (old : nat) (w : world) :
  driver_forgotten old w -> driver_forgotten old (snd (on_exit w)).
Proof.
  intros F. unfold on_exit. rewrite bind_get_session.
  destruct (neo4j_driver (session w)) as [d|] eqn:E; [|exact F].
  assert (drv_id d <> old) as N by (destruct F as (_ & _ & D); auto).
  now destruct (close_keeps_forgotten old d w F N).
Qed.

Lemma nav_step_driver (s : session_state) (a : nav_call) :
  neo4j_driver (nav_step s a) = neo4j_driver s.
Proof. now destruct a. Qed.

(** No action of the session closes a driver the session has forgotten. *)
Lemma perform_keeps_forgotten (old : nat) (a : action) (w : world) :
  driver_forgotten old w -> driver_forgotten old (snd (perform a w)).
Proof.
  intros F.
  destruct a as [uri username password| |qry|nc|click|format|]; simpl perform.
  - unfold bind.
    pose proof (connect_keeps_forgotten old uri username password w F) as K.
    now destruct (connect_to_neo4j uri username password w) as [[b|e|] w'].
  - now apply disconnect_keeps_forgotten.
  - eapply driver_forgotten_kept; [|exact F].
    assert (keeps_connection (_ <- run_neo4j_query qry None ;; ret tt)) as K
      by keeps.
    apply K.
  - eapply driver_forgotten_kept; [|exact F].
    apply keeps_update_session. intros s. apply nav_step_driver.
  - eapply driver_forgotten_kept; [|exact F].
    assert (keeps_connection (update (with_clicked click) ;; category_page))
      as K by (keeps; apply keeps_category_page).
    apply K.
  - eapply driver_forgotten_kept; [|exact F].
    apply keeps_export_all_results.
  - now apply on_exit_keeps_forgotten.
Qed.

Lemma perform_all_keeps_forgotten (old : nat) (acts : list action) :
  forall w, driver_forgotten old w -> driver_forgotten old (perform_all w acts).
Proof.
  induction acts as [|a acts IH]; intros w F; simpl; [exact F|].
  apply IH. now apply perform_keeps_forgotten.
Qed.

(** C10.  When [connect_to_neo4j] succeeds while a driver is stored, the
    stored handle becomes the newly created driver, the session is marked
    connected, nothing is shown, no [close()] is called on the previous
    driver by the call, and none of the session's later actions closes it
    either. *)
Theorem reconnect_drops_open_driver (uri username password : string)
  (w : world) (old : driver) :
  neo4j_driver (session w) = Some old ->
  drv_id old < drivers_made w ->
  ~ In (drv_id old) (close_log w) ->
  fst (connect_to_neo4j uri username password w) = Ok true ->
  neo4j_driver (session (snd (connect_to_neo4j uri username password w)))
  = Some {| drv_id := drivers_made w; drv_uri := uri;
            drv_user := username; drv_password := password |}
  /\ {| drv_id := drivers_made w; drv_uri := uri;
        drv_user := username; drv_password := password |} <> old
  /\ neo4j_connected (session (snd (connect_to_neo4j uri username password w)))
     = true
  /\ ui (snd (connect_to_neo4j uri username password w)) = ui w
  /\ close_log (snd (connect_to_neo4j uri username password w)) = close_log w
  /\ forall acts : list action,
       ~ In (drv_id old)
            (close_log
               (perform_all (snd (connect_to_neo4j uri username password w))
                            acts)).
Proof.
  intros Hd Hl Hc Hok.
  assert (driver_forgotten (drv_id old)
            (snd (connect_to_neo4j uri username password w))
          /\ neo4j_driver
               (session (snd (connect_to_neo4j uri username password w)))
             = Some {| drv_id := drivers_made w; drv_uri := uri;
                       drv_user := username; drv_password := password |}
          /\ neo4j_connected
               (session (snd (connect_to_neo4j uri username password w)))
             = true
          /\ ui (snd (connect_to_neo4j uri username password w)) = ui w
          /\ close_log (snd (connect_to_neo4j uri username password w))
             = close_log w) as (F & E1 & E2 & E3 & E4).
  { revert Hok.
    unfold connect_to_neo4j, try_except, bind, GraphDatabase_driver.
    destruct (neo4j_open uri username password) as [msg|]; simpl;
      [discriminate|].
    unfold session_run, bind, get_world, update; simpl.
    destruct (neo4j_run _ _ _ _) as [msg|data]; simpl; [discriminate|].
    intros _. repeat split; auto.
    - simpl. lia.
    - intros d [= <-]. simpl. lia. }
  repeat split; auto.
  - intros E. rewrite <- E in Hl. simpl in Hl. lia.
  - intros acts.
    now destruct (perform_all_keeps_forgotten (drv_id old) acts _ F).
Qed.

(* ------------------------------------------------------------------ *)
(** * Further properties of the program *)

(** ** The gateway and the connection, case by case *)

(** [run_neo4j_query] (lines 48-63) always returns: every exception of the
    driver is caught.  It leaves the session state, the drivers and their
    closings alone; when the session is connected it sends exactly one
    request, on the stored driver, with [{}] for absent parameters; and it
    returns either [None] after one error message or a reference to one new
    table object. *)
Theorem run_neo4j_query_contained (query : string) (params : option record)
  (w : world) :
  (exists res, fst (run_neo4j_query query params w) = Ok res)
  /\ session (snd (run_neo4j_query query params w)) = session w
  /\ close_log (snd (run_neo4j_query query params w)) = close_log w
  /\ drivers_made (snd (run_neo4j_query query params w)) = drivers_made w
  /\ (forall d, neo4j_connected (session w) = true ->
        neo4j_driver (session w) = Some d ->
        db_log (snd (run_neo4j_query query params w))
        = (db_log w
           ++ [{| call_driver := drv_id d; call_query := query;
                  call_params := match params with
                                 | Some p => p
                                 | None => []
                                 end |}])%list)
  /\ (fst (run_neo4j_query query params w) = Ok None ->
      heap (snd (run_neo4j_query query params w)) = heap w
      /\ exists msg,
           ui (snd (run_neo4j_query query params w))
           = (ui w ++ [st_error msg])%list)
  /\ (forall r, fst (run_neo4j_query query params w) = Ok (Some r) ->
      r = length (heap w)
      /\ (exists df,
            heap (snd (run_neo4j_query query params w))
            = (heap w ++ [df])%list)
      /\ ui (snd (run_neo4j_query query params w)) = ui w).
Proof.
  unfold run_neo4j_query. rewrite bind_get_session.
  destruct (neo4j_connected (session w)) eqn:Hc;
    [destruct (neo4j_driver (session w)) as [d|] eqn:Hd|].
  - unfold try_except, bind, session_run, bind, get_world, update; simpl.
    destruct (neo4j_run _ _ _ _) as [msg|data]; simpl;
      [|destruct data as [|r0 data]; simpl];
      repeat split; eauto; try discriminate;
      try (intros d' _ [= <-]; reflexivity);
      try (match goal with
           | H : Ok (Some _) = Ok (Some _) |- _ => now inversion H
           end).
  - simpl. repeat split; eauto; discriminate.
  - simpl. repeat split; eauto; discriminate.
Qed.

(** [connect_to_neo4j] (lines 32-45) never raises and returns the connection
    flag it leaves in the session; navigation, stored responses and table
    objects are untouched and no driver is closed.  When the driver cannot
    be created, or when the probe query fails, it shows "Failed to connect
    to Neo4j: " followed by the message, marks the session disconnected and
    keeps the stored handle as it was; the driver whose probe failed has
    been created and is not closed. *)
Theorem connect_to_neo4j_contained (uri username password : string)
  (w : world) :
  (exists b,
     fst (connect_to_neo4j uri username password w) = Ok b
     /\ neo4j_connected
          (session (snd (connect_to_neo4j uri username password w))) = b)
  /\ current_page (session (snd (connect_to_neo4j uri username password w)))
     = current_page (session w)
  /\ category (session (snd (connect_to_neo4j uri username password w)))
     = category (session w)
  /\ section (session (snd (connect_to_neo4j uri username password w)))
     = section (session w)
  /\ responses (session (snd (connect_to_neo4j uri username password w)))
     = responses (session w)
  /\ heap (snd (connect_to_neo4j uri username password w)) = heap w
  /\ close_log (snd (connect_to_neo4j uri username password w)) = close_log w
  /\ (forall msg, neo4j_open uri username password = Some msg ->
        connect_to_neo4j uri username password w
        = (Ok false,
           with_session (set_neo4j_connected false)
             (shown (st_error ("Failed to connect to Neo4j: " ++ msg)) w)))
  /\ (forall msg, neo4j_open uri username password = None ->
        neo4j_run (length (db_log w))
          {| drv_id := drivers_made w; drv_uri := uri;
             drv_user := username; drv_password := password |}
          "RETURN 1 AS test" [] = inl msg ->
        fst (connect_to_neo4j uri username password w) = Ok false
        /\ ui (snd (connect_to_neo4j uri username password w))
           = (ui w ++ [st_error ("Failed to connect to Neo4j: " ++ msg)])%list
        /\ neo4j_driver
             (session (snd (connect_to_neo4j uri username password w)))
           = neo4j_driver (session w)
        /\ drivers_made (snd (connect_to_neo4j uri username password w))
           = S (drivers_made w)).
Proof.
  unfold connect_to_neo4j, try_except, bind, GraphDatabase_driver.
  destruct (neo4j_open uri username password) as [msg|]; simpl.
  - repeat split; eauto; try discriminate;
      try (intros; discriminate);
      intros;
      match goal with
      | H : Some _ = Some _ |- _ => inversion H; subst; reflexivity
      end.
  - unfold session_run, bind, get_world, update; simpl.
    destruct (neo4j_run _ _ _ _) as [msg|data]; simpl;
      repeat split; eauto; try discriminate;
      try (intros; discriminate);
      intros;
      match goal with
      | H : inl _ = inl _ |- _ => inversion H; subst; reflexivity
      end.
Qed.

(** The "Disconnect from Neo4j" handler (lines 1345-1353) always runs to its
    [st.rerun()]: whether or not [close()] raises, the session ends up
    disconnected with no stored handle, [close()] has been called once on
    the handle that was stored, the success message is shown, and
    navigation, responses, table objects and the request log are as
    before. *)
Theorem disconnect_always_completes (w : world) :
  fst (disconnect w) = Rerun
  /\ neo4j_connected (session (snd (disconnect w))) = false
  /\ neo4j_driver (session (snd (disconnect w))) = None
  /\ close_log (snd (disconnect w))
     = (close_log w
        ++ match neo4j_driver (session w) with
           | Some d => [drv_id d]
           | None => []
           end)%list
  /\ ui (snd (disconnect w))
     = (ui w ++ [sidebar_success "Disconnected from Neo4j"])%list
  /\ current_page (session (snd (disconnect w))) = current_page (session w)
  /\ category (session (snd (disconnect w))) = category (session w)
  /\ section (session (snd (disconnect w))) = section (session w)
  /\ responses (session (snd (disconnect w))) = responses (session w)
  /\ heap (snd (disconnect w)) = heap w
  /\ db_log (snd (disconnect w)) = db_log w.
Proof.
  unfold disconnect. rewrite bind_get_session.
  destruct (neo4j_driver (session w)) as [d|].
  - unfold bind, try_except, driver_close, bind, update; simpl.
    destruct (neo4j_close d); simpl; repeat split.
  - simpl. rewrite app_nil_r. repeat split.
Qed.

(** After the disconnect handler nothing of the connection is left to use:
    [on_exit] calls no [close()], and a query is refused without a request
    to the database. *)
Theorem nothing_left_after_disconnect (query : string)
  (params : option record) (w : world) :
  on_exit (snd (disconnect w)) = (Ok tt, snd (disconnect w))
  /\ run_neo4j_query query params (snd (disconnect w))
     = (Ok None,
        shown (st_error "Not connected to Neo4j. Please connect first.")
              (snd (disconnect w))).
Proof.
  assert (neo4j_connected (session (snd (disconnect w))) = false
          /\ neo4j_driver (session (snd (disconnect w))) = None) as [Hc Hd].
  { unfold disconnect. rewrite bind_get_session.
    destruct (neo4j_driver (session w)) as [d|]; [|now split].
    unfold bind, try_except, driver_close, bind, update; simpl.
    destruct (neo4j_close d); simpl; now split. }
  split.
  - unfold on_exit. rewrite bind_get_session, Hd. reflexivity.
  - apply run_neo4j_query_not_connected. now left.
Qed.

(* ------------------------------------------------------------------ *)
(** ** Export, for any store *)

Lemma slice_to_length (n : nat) (s : string) :
  String.length (PyStr.slice_to n s) <= n.
Proof.
  unfold PyStr.slice_to. revert s.
  induction n as [|n IH]; intros [|c s]; simpl; try lia.
  specialize (IH s). lia.
Qed.

Lemma in_set_cases {V} (k k' : string) (v v' : V) (d : PyDict.t V) :
  In (k', v') (PyDict.set k v d) -> (k', v') = (k, v) \/ In (k', v') d.
Proof.
  clear. induction d as [|[k0 v0] d IH]; simpl.
  - intros [E|[]]. now left.
  - destruct (String.eqb_spec k k0) as [->|N]; simpl.
    + intros [E|H]; [left; congruence | right; now right].
    + intros [E|H]; [right; now left|].
      destruct (IH H) as [E|I]; [now left | right; now right].
Qed.

Lemma length_set_le {V} (k : string) (v : V) (d : PyDict.t V) :
  length (PyDict.set k v d) <= S (length d).
Proof.
  induction d as [|[k0 v0] d IH]; simpl; [lia|].
  destruct (String.eqb k k0); simpl; lia.
Qed.

Lemma find_app {A} (p : A -> bool) (l1 l2 : list A) :
  find p (l1 ++ l2)%list
  = match find p l1 with Some x => Some x | None => find p l2 end.
Proof.
  induction l1 as [|x l1 IH]; simpl; [reflexivity|].
  now destruct (p x).
Qed.

(** For every store: a sheet name has at most 31 characters and is the sheet
    name of a stored key whose table it carries; the sheet names are
    pairwise different; there are no more sheets than stored results; and
    where several stored keys share a sheet name, the sheet carries the
    table of the one stored last. *)
Theorem export_sheets_of_any_store (h : list DataFrame) (resp : PyDict.t ref) :
  (forall name r, In (name, r) (collect_all_data h resp) ->
     String.length name <= 31
     /\ exists key, In (key, r) resp /\ name = sheet_name_of key)
  /\ NoDup (PyDict.keys (collect_all_data h resp))
  /\ length (collect_all_data h resp) <= length resp
  /\ (forall name,
        PyDict.get name (collect_all_data h resp)
        = option_map snd (find (exported_as h name) (rev resp))).
Proof.
  set (F := fun (all_data : PyDict.t ref) (kv : string * ref) =>
              match nth_error h (snd kv) with
              | Some _ =>
                  if negb (PyStr.endswith (fst kv) "_notes")
                  then PyDict.set (sheet_name_of (fst kv)) (snd kv) all_data
                  else all_data
              | None => all_data
              end).
  assert (forall acc kv name r, In (name, r) (F acc kv) ->
            In (name, r) acc
            \/ ((name, r) = (sheet_name_of (fst kv), snd kv))) as Fin.
  { intros acc kv name r. unfold F.
    destruct (nth_error h (snd kv)); [|now left].
    destruct (negb (PyStr.endswith (fst kv) "_notes")); [|now left].
    intros I. destruct (in_set_cases _ _ _ _ _ I); [now right | now left]. }
  assert (forall acc kv, length (F acc kv) <= S (length acc)) as Flen.
  { intros acc kv. unfold F.
    destruct (nth_error h (snd kv)); [|lia].
    destruct (negb (PyStr.endswith (fst kv) "_notes")); [|lia].
    apply length_set_le. }
  assert (forall acc kv name,
            PyDict.get name (F acc kv)
            = if exported_as h name kv then Some (snd kv)
              else PyDict.get name acc) as Fget.
  { intros acc kv name. unfold F, exported_as.
    destruct (nth_error h (snd kv)); [|reflexivity].
    destruct (negb (PyStr.endswith (fst kv) "_notes")); simpl; [|reflexivity].
    destruct (String.eqb_spec (sheet_name_of (fst kv)) name) as [<-|N].
    - apply get_set_same.
    - apply get_set_other. congruence. }
  unfold collect_all_data, PyDict.items. fold F.
  split; [|split; [apply (sheet_names_unique h resp)|split]].
  - assert (forall l acc name r, In (name, r) (fold_left F l acc) ->
              In (name, r) acc
              \/ exists key, In (key, r) l /\ name = sheet_name_of key) as K.
    { induction l as [|kv l IH]; intros acc name r I; simpl in *; [now left|].
      destruct (IH _ _ _ I) as [I'|(key & I' & E)].
      - destruct (Fin _ _ _ _ I') as [I''|E]; [now left|].
        right. exists (fst kv). inversion E; subst. split; [|reflexivity].
        left. now destruct kv.
      - right. exists key. split; [now right | exact E]. }
    intros name r I. destruct (K _ _ _ _ I) as [[]|(key & I' & E)].
    split; [|eauto]. subst name. apply slice_to_length.
  - assert (forall l acc, length (fold_left F l acc) <= length acc + length l)
      as K.
    { induction l as [|kv l IH]; intros acc; simpl; [lia|].
      specialize (IH (F acc kv)). specialize (Flen acc kv). lia. }
    apply (K resp []).
  - intros name.
    assert (forall l acc,
              PyDict.get name (fold_left F l acc)
              = match find (exported_as h name) (rev l) with
                | Some kv => Some (snd kv)
                | None => PyDict.get name acc
                end) as K.
    { induction l as [|kv l IH]; intros acc; simpl; [reflexivity|].
      rewrite IH, find_app. simpl.
      destruct (find (exported_as h name) (rev l)); [reflexivity|].
      rewrite Fget. now destruct (exported_as h name kv). }
    etransitivity; [exact (K resp [])|]. simpl.
    now destruct (find (exported_as h name) (rev resp)).
Qed.

Lemma for_each_emit {A} (f : A -> widget) (xs : list A) (w : world) :
  for_each xs (fun x => emit (f x)) w
  = (Ok tt, with_ui (fun u => (u ++ map f xs)%list) w).
Proof.
  revert w. induction xs as [|x xs IH]; intros w; simpl.
  - destruct w; unfold ret, with_ui; simpl. now rewrite app_nil_r.
  - rewrite bind_emit, IH. destruct w; unfold shown, with_ui; simpl.
    now rewrite <- app_assoc.
Qed.

(** The "Export All Results" handler (lines 1358-1395) is read-only and
    always ends normally, also when the workbook cannot be written: the
    session state, the table objects, the request log and the drivers are
    unchanged.  With nothing stored it shows the warning and nothing else;
    for "CSV" it offers one download per sheet, named after the sheet; for
    any other format a failure of the writer is shown as "Error creating
    Excel file: " followed by the message, without a download. *)
Theorem export_is_read_only (export_format : string) (w : world) :
  fst (export_all_results export_format w) = Ok tt
  /\ session (snd (export_all_results export_format w)) = session w
  /\ heap (snd (export_all_results export_format w)) = heap w
  /\ db_log (snd (export_all_results export_format w)) = db_log w
  /\ close_log (snd (export_all_results export_format w)) = close_log w
  /\ (responses (session w) = [] ->
      ui (snd (export_all_results export_format w))
      = (ui w ++ [sidebar_warning "No results to export yet!"])%list)
  /\ (responses (session w) <> [] -> export_format = "CSV" ->
      ui (snd (export_all_results export_format w))
      = (ui w
         ++ map csv_download
              (sheets_of (heap w)
                 (collect_all_data (heap w) (responses (session w)))))%list)
  /\ (forall msg,
        responses (session w) <> [] -> export_format <> "CSV" ->
        xlsx_write (sheets_of (heap w)
                      (collect_all_data (heap w) (responses (session w))))
        = Some msg ->
        ui (snd (export_all_results export_format w))
        = (ui w ++ [sidebar_error ("Error creating Excel file: " ++ msg)])%list).
Proof.
  unfold export_all_results. rewrite bind_get_world.
  destruct (responses (session w)) as [|kv resp] eqn:R.
  - repeat split; congruence.
  - destruct (String.eqb_spec export_format "CSV") as [E|N].
    + fold csv_download. rewrite for_each_emit.
      repeat split; try congruence.
    + unfold try_except, bind.
      destruct (xlsx_write _) as [msg|] eqn:X; simpl;
        repeat split; try congruence.
Qed.

(* ------------------------------------------------------------------ *)
(** ** Chart blocks *)

(** A question that no chart block answers (its stripped text starts with
    none of the 26 literals) never fails in the chart code: a non-empty
    reply is stored and shown as a table, and that is all. *)
Theorem question_without_chart_shows_table (c s q query : string) (w : world)
  (d : driver) (data : list record) :
  neo4j_connected (session w) = true ->
  neo4j_driver (session w) = Some d ->
  neo4j_run (length (db_log w)) d query [] = inr data ->
  Pandas.empty (Pandas.DataFrame_of data) = false ->
  (forall b, In b chart_blocks -> literal_matches q b = false) ->
  run_analysis c s q query w
  = (Ok tt,
     shown (st_dataframe (Pandas.DataFrame_of data))
       (stored (response_key c s q) (length (heap w))
          (fetched d query data (shown (st_spinner "Executing query...") w)))).
Proof.
  intros Hc Hd Hr He N.
  rewrite (run_analysis_reply_table c s q query w d data Hc Hd Hr He).
  rewrite dispatch_outcome_idle.
  - unfold outcome_world. cbn [fst snd]. f_equal.
    apply settle_noop. simpl. apply nth_error_fresh.
  - intros b Hb. unfold block_fires. fold (literal_matches q b).
    now rewrite (N b Hb).
Qed.

Lemma pairing_block_listed : In pairing_block chart_blocks.
Proof. unfold chart_blocks. do 14 right. left. reflexivity. Qed.

Lemma set_new_column (c : string) (f : list scalar -> scalar) (df : DataFrame) :
  Pandas.has_column c df = false ->
  Pandas.set_column c (Pandas.apply_rows f df) df = with_new_column c f df.
Proof.
  intros H. unfold Pandas.set_column, with_new_column, Pandas.apply_rows.
  rewrite (index_of_has _ _ H). f_equal.
  induction (rows df) as [|row l IH]; simpl; [reflexivity|].
  now rewrite IH.
Qed.

Lemma has_column_new (c c' : string) (f : list scalar -> scalar)
  (df : DataFrame) :
  Pandas.has_column c (with_new_column c' f df)
  = Pandas.has_column c df || String.eqb c c'.
Proof.
  unfold Pandas.has_column, with_new_column. simpl.
  rewrite existsb_app. simpl. now rewrite orb_false_r.
Qed.

(** The co-purchase question stores a table that is not the reply: when the
    reply has the three columns the block tests and no column [pair], and
    the two products of every record are texts, the chart block appends the
    column [pair] to the very object that was stored and shown, so the
    stored result has one column more than the table displayed before the
    chart, and the chart is drawn from it. *)
Theorem pairing_chart_extends_stored_table (c s q query : string) (w : world)
  (d : driver) (data : list record) :
  neo4j_connected (session w) = true ->
  neo4j_driver (session w) = Some d ->
  neo4j_run (length (db_log w)) d query [] = inr data ->
  Pandas.empty (Pandas.DataFrame_of data) = false ->
  literal_matches q pairing_block = true ->
  Pandas.issubset ["productA"; "productB"; "timesBoughtTogether"]
                  (Pandas.DataFrame_of data) = true ->
  Pandas.has_column "pair" (Pandas.DataFrame_of data) = false ->
  text_column "productA" data = true ->
  text_column "productB" data = true ->
  fst (run_analysis c s q query w) = Ok tt
  /\ PyDict.get (response_key c s q)
       (responses (session (snd (run_analysis c s q query w))))
     = Some (length (heap w))
  /\ nth_error (heap (snd (run_analysis c s q query w))) (length (heap w))
     = Some (with_new_column "pair" (pair_label (Pandas.DataFrame_of data))
               (Pandas.DataFrame_of data))
  /\ ui (snd (run_analysis c s q query w))
     = (ui w
        ++ [st_spinner "Executing query...";
            st_dataframe (Pandas.DataFrame_of data);
            st_plotly_chart
              (figure pairing_block
                 (with_new_column "pair"
                    (pair_label (Pandas.DataFrame_of data))
                    (Pandas.DataFrame_of data)))])%list.
Proof.
  intros Hc Hd Hr He L G P _ _.
  rewrite (run_analysis_reply_table c s q query w d data Hc Hd Hr He).
  destruct (matching_block_alone q pairing_block pairing_block_listed L)
    as (pre & post & E & Npre & Npost).
  set (df := Pandas.DataFrame_of data) in *.
  set (df' := with_new_column "pair" (pair_label df) df).
  assert (assigned pairing_block df = df') as A.
  { unfold assigned. simpl. now apply set_new_column. }
  assert (Pandas.has_column "timesBoughtTogether" df' = true) as T.
  { unfold df'. rewrite has_column_new.
    unfold Pandas.issubset in G. simpl in G.
    apply andb_prop in G as [_ G]. apply andb_prop in G as [_ G].
    apply andb_prop in G as [G _]. now rewrite G. }
  assert (Pandas.has_column "pair" df' = true) as T'.
  { unfold df'. rewrite has_column_new. apply orb_true_r. }
  assert (dispatch_outcome q df chart_blocks
          = (Ok tt, df', [figure pairing_block df'])) as ->.
  { rewrite E, dispatch_outcome_skip by exact Npre.
    simpl. unfold block_outcome, block_fires.
    fold (literal_matches q pairing_block). rewrite L.
    change (guard pairing_block df)
      with (Pandas.issubset ["productA"; "productB"; "timesBoughtTogether"] df).
    rewrite G. simpl andb. cbv iota.
    unfold build_outcome. rewrite A. simpl first_missing.
    rewrite T, T'.
    rewrite dispatch_outcome_idle; [reflexivity|].
    intros b Hb. unfold block_fires. fold (literal_matches q b).
    now rewrite (Npost b Hb). }
  unfold outcome_world. cbn [fst snd].
  split; [reflexivity|]. split; [simpl; apply get_set_same|]. split.
  - eapply heap_settle. simpl. apply nth_error_fresh.
  - simpl. now rewrite <- !app_assoc.
Qed.

Lemma has_column_table_without (c : string) :
  Pandas.has_column c (table_without c) = false.
Proof.
  unfold Pandas.has_column, table_without. cbn [columns].
  generalize all_columns. intros l.
  induction l as [|x l IH]; simpl; [reflexivity|].
  destruct (String.eqb_spec x c) as [->|N]; simpl; [exact IH|].
  destruct (String.eqb_spec c x); [congruence|exact IH].
Qed.

Ltac column_safe_block :=
  let df := fresh "df" in
  let G := fresh "G" in
  let c := fresh "c" in
  let Hc := fresh "Hc" in
  intros df G c Hc;
  unfold Pandas.issubset, Pandas.has_column in *; simpl in G;
  repeat match type of G with
         | (_ && _)%bool = true =>
             let G1 := fresh "G" in apply andb_prop in G as [G1 G]
         end;
  simpl in Hc;
  repeat (destruct Hc as [<-|Hc]; [assumption|]);
  destruct Hc.

(** Half of the chart blocks are safe against a reply that lacks a column.
    For 13 of the 26 blocks the block's own test implies that every column
    the block then reads is present; each of the other 13 lets a table
    through on which a column it reads is absent. *)
Theorem chart_blocks_testing_their_columns :
  map (fun b => match untested b with [] => true | _ => false end) chart_blocks
  = [ true; true; true; true; true; true; true; true; true; true;
      false; false; false; false; true; false; false; false; false; true;
      false; true; false; false; false; false ]
  /\ (forall b, In b chart_blocks -> untested b = [] -> column_safe b)
  /\ (forall b c, In b chart_blocks -> In c (untested b) ->
        guard b (table_without c) = true
        /\ In c (needed_columns b)
        /\ Pandas.has_column c (table_without c) = false).
Proof.
  split; [vm_compute; reflexivity|]. split.
  - intros b Hb U. unfold chart_blocks in Hb.
    repeat (destruct Hb as [<-|Hb];
            [first [ vm_compute in U; discriminate U
                   | clear U; column_safe_block ]|]).
    destruct Hb.
  - intros b c _ I. unfold untested in I. apply filter_In in I as [I G].
    repeat split; auto. apply has_column_table_without.
Qed.

(* ------------------------------------------------------------------ *)
(** ** Rules for assertions *)

Lemma triple_conseq {A} (P P' : world -> Prop) (m : M A)
  (Q Q' : A -> world -> Prop) (E E' : world -> Prop) :
  triple P m Q E ->
  (forall w, P' w -> P w) -> (forall a w, Q a w -> Q' a w) ->
  (forall w, E w -> E' w) ->
  triple P' m Q' E'.
Proof.
  intros H HP HQ HE w Hw. specialize (H w (HP w Hw)).
  destruct (m w) as [[a|e|] w']; auto.
Qed.

Lemma triple_ret {A} (P : world -> Prop) (a : A) (E : world -> Prop) :
  triple P (ret a) (fun a' w => P w /\ a' = a) E.
Proof. intros w Hw. simpl. auto. Qed.

Lemma triple_bind {A B} (P : world -> Prop) (m : M A) (k : A -> M B)
  (R : A -> world -> Prop) (Q : B -> world -> Prop) (E : world -> Prop) :
  triple P m R E -> (forall a, triple (R a) (k a) Q E) ->
  triple P (bind m k) Q E.
Proof.
  intros Hm Hk w Hw. unfold bind. specialize (Hm w Hw).
  destruct (m w) as [[a|e|] w']; auto.
  apply (Hk a w' Hm).
Qed.

Lemma triple_get_session (P : world -> Prop) (E : world -> Prop) :
  triple P get_session (fun s w => P w /\ s = session w) E.
Proof. intros w Hw. simpl. auto. Qed.

Lemma triple_get_world (P : world -> Prop) (E : world -> Prop) :
  triple P get_world (fun w0 w => P w /\ w0 = w) E.
Proof. intros w Hw. simpl. auto. Qed.

Lemma triple_update (P : world -> Prop) (f : world -> world)
  (Q : unit -> world -> Prop) (E : world -> Prop) :
  (forall w, P w -> Q tt (f w)) -> triple P (update f) Q E.
Proof. intros H w Hw. simpl. auto. Qed.

Lemma triple_subscript {V} (P : world -> Prop) (d : PyDict.t V)
  (k : option string) :
  triple P (subscript d k)
    (fun v w => P w /\ exists k', k = Some k' /\ PyDict.get k' d = Some v) P.
Proof.
  intros w Hw. unfold subscript.
  destruct k as [k'|]; [|exact Hw].
  destruct (PyDict.get k' d) eqn:G; simpl; eauto.
Qed.

Lemma invariant_ret {A} (I : world -> Prop) (a : A) : invariant I (ret a).
Proof. intros w Hw. exact Hw. Qed.

Lemma invariant_raise {A} (I : world -> Prop) (e : exn) :
  invariant I (@raise A e).
Proof. intros w Hw. exact Hw. Qed.

Lemma invariant_rerun {A} (I : world -> Prop) : invariant I (@st_rerun A).
Proof. intros w Hw. exact Hw. Qed.

Lemma invariant_bind {A B} (I : world -> Prop) (m : M A) (k : A -> M B) :
  invariant I m -> (forall a, invariant I (k a)) -> invariant I (bind m k).
Proof. intros Hm Hk. eapply triple_bind; [exact Hm|exact Hk]. Qed.

Lemma invariant_try_except {A} (I : world -> Prop) (m : M A)
  (h : exn -> M A) :
  invariant I m -> (forall e, invariant I (h e)) ->
  invariant I (try_except m h).
Proof.
  intros Hm Hh w Hw. unfold try_except. specialize (Hm w Hw).
  destruct (m w) as [[a|e|] w']; auto.
  apply (Hh e w' Hm).
Qed.

Lemma invariant_when (I : world -> Prop) (b : bool) (m : M unit) :
  invariant I m -> invariant I (when b m).
Proof. destruct b; simpl; auto using @invariant_ret. Qed.

Lemma invariant_for_each {A} (I : world -> Prop) (xs : list A)
  (body : A -> M unit) :
  (forall x, In x xs -> invariant I (body x)) -> invariant I (for_each xs body).
Proof.
  induction xs as [|x xs IH]; intros H; simpl.
  - apply invariant_ret.
  - apply invariant_bind; [apply H; now left|].
    intros _. apply IH. intros y Hy. apply H. now right.
Qed.

Lemma invariant_update (I : world -> Prop) (f : world -> world) :
  (forall w, I w -> I (f w)) -> invariant I (update f).
Proof. intros H. apply triple_update. exact H. Qed.

Lemma invariant_get_session (I : world -> Prop) : invariant I get_session.
Proof. intros w Hw. exact Hw. Qed.

Lemma invariant_get_world (I : world -> Prop) : invariant I get_world.
Proof. intros w Hw. exact Hw. Qed.

Lemma invariant_deref (I : world -> Prop) (r : ref) : invariant I (deref r).
Proof. intros w Hw. exact Hw. Qed.

Lemma invariant_subscript {V} (I : world -> Prop) (d : PyDict.t V)
  (k : option string) :
  invariant I (subscript d k).
Proof.
  eapply triple_conseq; [apply (triple_subscript I)| | |]; simpl; tauto.
Qed.

(** The continuation of a successful [d[k]] may use what was found. *)
Lemma invariant_bind_subscript {V B} (I : world -> Prop) (d : PyDict.t V)
  (k : option string) (f : V -> M B) :
  (forall k' v, k = Some k' -> PyDict.get k' d = Some v -> invariant I (f v)) ->
  invariant I (bind (subscript d k) f).
Proof.
  intros H. eapply triple_bind; [apply (triple_subscript I)|].
  intros v w (Hw & k' & Ek & Eg). exact (H k' v Ek Eg w Hw).
Qed.

Lemma invariant_emit (I : world -> Prop) (x : widget) :
  ui_blind I -> invariant I (emit x).
Proof. intros H. apply invariant_update. intros w. apply H. Qed.

Lemma invariant_button (I : world -> Prop) (label key : string) :
  ui_blind I -> invariant I (button label key).
Proof.
  intros H. unfold button.
  apply invariant_bind; [now apply invariant_emit|]. intros _.
  apply invariant_bind; [apply invariant_get_world|]. intros w0.
  apply invariant_ret.
Qed.

Lemma invariant_sidebar_button (I : world -> Prop) (label key : string) :
  invariant I (sidebar_button label key).
Proof.
  unfold sidebar_button.
  apply invariant_bind; [apply invariant_get_world|]. intros w0.
  apply invariant_ret.
Qed.

Lemma invariant_of_snd {A} (I : world -> Prop) (m : M A) :
  (forall w, I w -> I (snd (m w))) -> invariant I m.
Proof.
  intros H w Hw. specialize (H w Hw). now destruct (m w) as [[a|e|] w'].
Qed.

Lemma invariant_snd {A} (I : world -> Prop) (m : M A) (w : world) :
  invariant I m -> I w -> I (snd (m w)).
Proof.
  intros H Hw. specialize (H w Hw). now destruct (m w) as [[a|e|] w'].
Qed.

Lemma invariant_new_frame (I : world -> Prop) (df : DataFrame) :
  (forall w, I w -> I (with_heap (fun h => (h ++ [df])%list) w)) ->
  invariant I (new_frame df).
Proof. intros H w Hw. simpl. auto. Qed.

(* ------------------------------------------------------------------ *)
(** ** The catalog behind [questions] *)

Lemma get_map_values {V W} (f : V -> W) (l : list (string * V)) (k : string)
  (v : W) :
  PyDict.get k (map (fun x => (fst x, f (snd x))) l) = Some v ->
  exists y, In (k, y) l /\ v = f y.
Proof.
  induction l as [|[k0 y0] l IH]; simpl; [discriminate|].
  destruct (String.eqb_spec k k0) as [->|N].
  - intros [= <-]. exists y0. split; [now left | reflexivity].
  - intros H. destruct (IH H) as (y & I & E). exists y. split; [now right|exact E].
Qed.

Lemma questions_sections (c : string)
  (sections : PyDict.t (list question_data)) :
  PyDict.get c questions = Some sections ->
  exists raw, In (c, raw) catalog /\ PyDict.keys sections = map fst raw.
Proof.
  intros H. apply get_map_values in H as (raw & I & ->).
  exists raw. split; [exact I|].
  unfold PyDict.keys. rewrite map_map. reflexivity.
Qed.

Lemma questions_entry (c s : string)
  (sections : PyDict.t (list question_data))
  (entries : list question_data) (qd : question_data) :
  PyDict.get c questions = Some sections ->
  PyDict.get s sections = Some entries ->
  In qd entries ->
  In (response_key c s (question qd)) catalog_keys.
Proof.
  intros H1 H2 H3.
  apply get_map_values in H1 as (raw & I1 & ->).
  apply get_map_values in H2 as (qs & I2 & ->).
  apply in_map_iff in H3 as (q & <- & I3). cbn [question].
  unfold catalog_keys.
  apply in_map_iff. exists (c, s, q). split; [reflexivity|].
  unfold catalog_entries. apply in_flat_map. exists (c, raw).
  split; [exact I1|]. apply in_flat_map. exists (s, qs).
  split; [exact I2|]. apply in_map_iff. exists q. auto.
Qed.

Lemma in_enumerate {A} (xs : list A) (iq : nat * A) :
  In iq (enumerate xs) -> In (snd iq) xs.
Proof.
  destruct iq as [i q]. unfold enumerate. intros H.
  now apply in_combine_r in H.
Qed.

(* ------------------------------------------------------------------ *)
(** ** The stored results stay well formed *)

Lemma store_ok_frame (w w' : world) :
  responses (session w') = responses (session w) ->
  length (heap w) <= length (heap w') ->
  store_ok w -> store_ok w'.
Proof.
  intros Er Lh [W V]. unfold store_ok. rewrite Er. split; [exact W|].
  intros k r I. destruct (V k r I). split; [assumption|lia].
Qed.

Lemma store_ok_new_frame (df : DataFrame) (w : world) :
  store_ok w -> store_ok (with_heap (fun h => (h ++ [df])%list) w).
Proof.
  apply store_ok_frame; [reflexivity|]. simpl. rewrite length_app. lia.
Qed.

Lemma store_ok_mutate (r : ref) (f : DataFrame -> DataFrame) (w : world) :
  store_ok w ->
  store_ok (with_heap (fun h =>
              match nth_error h r with
              | Some df => Pandas.replace_nth r (f df) h
              | None => h
              end) w).
Proof.
  apply store_ok_frame; [reflexivity|]. simpl.
  destruct (nth_error (heap w) r); [rewrite length_replace_nth|]; lia.
Qed.

Lemma store_ok_stored (key : string) (r : ref) (w : world) :
  In key catalog_keys -> r < length (heap w) ->
  store_ok w -> store_ok (stored key r w).
Proof.
  intros Ik Lr [W V]. split.
  - apply wf_set. exact W.
  - intros k' r' I. cbn [stored with_session session heap responses set_responses] in I.
    destruct (in_set_cases _ _ _ _ _ I) as [E|I'].
    + inversion E; subst. split; assumption.
    + exact (V k' r' I').
Qed.

Ltac store_leaf :=
  first [ intros ? ? H; exact H
        | intros ? H; exact H
        | intros ?; apply store_ok_new_frame
        | intros ?; apply store_ok_mutate ].

Lemma store_ok_ui_blind : ui_blind store_ok.
Proof. intros f w H. exact H. Qed.

Create HintDb inv.
#[local] Hint Resolve
  @invariant_ret @invariant_raise @invariant_rerun invariant_get_session
  invariant_get_world invariant_deref @invariant_subscript
  invariant_sidebar_button : inv.

Ltac invariant_step leaf :=
  first
    [ solve [auto with inv]
    | apply invariant_emit; solve [leaf]
    | apply invariant_button; solve [leaf]
    | apply invariant_new_frame; solve [leaf]
    | apply invariant_bind; [|intros ?]
    | apply invariant_try_except; [|intros ?]
    | apply invariant_when
    | apply invariant_for_each; intros ? ?
    | apply invariant_update; solve [leaf]
    | match goal with
      | |- invariant _ (match ?x with _ => _ end) => destruct x
      | |- invariant _ (if ?x then _ else _) => destruct x
      end ].

Ltac invariant_auto leaf := repeat (invariant_step leaf).

Ltac store_blind := first [ exact store_ok_ui_blind | store_leaf ].

Lemma store_ok_session_run (d : driver) (query : string) (params : record) :
  invariant store_ok (session_run d query params).
Proof. unfold session_run. invariant_auto store_blind. Qed.

#[local] Hint Resolve store_ok_session_run : inv.

Lemma store_ok_run_neo4j_query (query : string) (params : option record) :
  invariant store_ok (run_neo4j_query query params).
Proof. unfold run_neo4j_query. invariant_auto store_blind. Qed.

Lemma store_ok_connect_to_neo4j (uri username password : string) :
  invariant store_ok (connect_to_neo4j uri username password).
Proof.
  unfold connect_to_neo4j, GraphDatabase_driver. invariant_auto store_blind.
Qed.

Lemma store_ok_driver_close (d : driver) : invariant store_ok (driver_close d).
Proof. unfold driver_close. invariant_auto store_blind. Qed.

#[local] Hint Resolve store_ok_driver_close : inv.

Lemma store_ok_disconnect : invariant store_ok disconnect.
Proof. unfold disconnect. invariant_auto store_blind. Qed.

Lemma store_ok_on_exit : invariant store_ok on_exit.
Proof. unfold on_exit. invariant_auto store_blind. Qed.

Lemma store_ok_export (export_format : string) :
  invariant store_ok (export_all_results export_format).
Proof. unfold export_all_results. invariant_auto store_blind. Qed.

Lemma run_analysis_not_connected (c s q query : string) (w : world) :
  neo4j_connected (session w) = false \/ neo4j_driver (session w) = None ->
  run_analysis c s q query w
  = (Ok tt,
     shown (st_error "Not connected to Neo4j. Please connect first.")
           (shown (st_spinner "Executing query...") w)).
Proof.
  intros H. unfold run_analysis. rewrite bind_emit.
  now rewrite (bind_ok _ _ _ _ _
                 (run_neo4j_query_not_connected query None
                    (shown (st_spinner "Executing query...") w) H)).
Qed.

Lemma length_heap_settle (r : ref) (df : DataFrame) (cs : list chart)
  (w : world) :
  length (heap (settle r df cs w)) = length (heap w).
Proof. simpl. apply length_replace_nth. Qed.

(** A "Run Analysis" under a catalog key keeps the store well formed. *)
Lemma store_ok_run_analysis (c s q query : string) :
  In (response_key c s q) catalog_keys ->
  invariant store_ok (run_analysis c s q query).
Proof.
  intros Ik. apply invariant_of_snd. intros w Hw.
  destruct (neo4j_connected (session w)) eqn:Hc;
    [destruct (neo4j_driver (session w)) as [d|] eqn:Hd|].
  - destruct (neo4j_run (length (db_log w)) d query []) as [msg|data] eqn:Hr.
    + rewrite (run_analysis_error c s q query w d msg Hc Hd Hr). exact Hw.
    + destruct (Pandas.empty (Pandas.DataFrame_of data)) eqn:He.
      * rewrite (run_analysis_reply_empty c s q query w d data Hc Hd Hr He).
        simpl snd. now apply store_ok_new_frame.
      * rewrite (run_analysis_reply_table c s q query w d data Hc Hd Hr He).
        unfold outcome_world. cbn [snd].
        apply (store_ok_frame
                 (stored (response_key c s q) (length (heap w))
                    (fetched d query data
                       (shown (st_spinner "Executing query...") w)))).
        -- reflexivity.
        -- rewrite length_heap_settle. apply Nat.le_refl.
        -- apply store_ok_stored.
           ++ exact Ik.
           ++ simpl. rewrite length_app. simpl. lia.
           ++ now apply store_ok_new_frame.
  - rewrite run_analysis_not_connected by now right. exact Hw.
  - rewrite run_analysis_not_connected by now left. exact Hw.
Qed.

Lemma store_ok_category_page : invariant store_ok category_page.
Proof.
  unfold category_page.
  apply invariant_bind; [apply invariant_get_session|]. intros s.
  cbv zeta.
  apply invariant_bind; [apply invariant_emit, store_ok_ui_blind|]. intros _.
  destruct (section s) as [x|].
  - apply invariant_bind; [apply invariant_emit, store_ok_ui_blind|].
    intros _.
    apply invariant_bind_subscript. intros c sections Ec Gc.
    apply invariant_bind_subscript. intros x' entries Ex Gx.
    inversion Ex; subst x'.
    apply invariant_bind.
    + apply invariant_for_each. intros iq Hiq.
      apply invariant_bind; [apply invariant_emit, store_ok_ui_blind|].
      intros _.
      apply invariant_bind; [apply invariant_button, store_ok_ui_blind|].
      intros b. apply invariant_when.
      apply store_ok_run_analysis. rewrite Ec. simpl fmt.
      eapply questions_entry; eauto using in_enumerate.
    + intros _.
      apply invariant_bind; [apply invariant_button, store_ok_ui_blind|].
      intros b. apply invariant_when. unfold back_to_sections.
      invariant_auto store_blind.
  - apply invariant_bind; [apply invariant_emit, store_ok_ui_blind|].
    intros _.
    apply invariant_bind; [apply invariant_subscript|]. intros sections.
    apply invariant_for_each. intros x Hx.
    apply invariant_bind; [apply invariant_button, store_ok_ui_blind|].
    intros b. apply invariant_when. invariant_auto store_blind.
Qed.

Lemma store_ok_perform (a : action) : invariant store_ok (perform a).
Proof.
  destruct a as [uri username password| |qry|nc|click|format|]; simpl perform.
  - apply invariant_bind; [apply store_ok_connect_to_neo4j|].
    intros _. apply invariant_ret.
  - apply store_ok_disconnect.
  - apply invariant_bind; [apply store_ok_run_neo4j_query|].
    intros _. apply invariant_ret.
  - apply invariant_update. intros w H. unfold store_ok in *. simpl.
    now destruct nc.
  - apply invariant_bind; [|intros _; apply store_ok_category_page].
    apply invariant_update. intros w H. exact H.
  - apply store_ok_export.
  - apply store_ok_on_exit.
Qed.

(** Whatever the session does from its start -- connecting, disconnecting,
    querying, navigating (also with names that are not in the catalog),
    running pages with any click, exporting, exiting -- the stored results
    stay well formed: the keys are pairwise different, every key is the
    composite key of a catalog question, and every key is bound to a table
    object. *)
Theorem store_always_well_formed (acts : list action) :
  store_ok (perform_all initial_world acts).
Proof.
  assert (forall w, store_ok w -> store_ok (perform_all w acts)) as K.
  { induction acts as [|a acts IH]; intros w H; simpl; [exact H|].
    apply IH. apply invariant_snd; [apply store_ok_perform | exact H]. }
  apply K. split.
  - constructor.
  - intros k r [].
Qed.

(* ------------------------------------------------------------------ *)
(** ** Statements that only touch tables, widgets and the request log *)

Section Blind.

Variable I : world -> Prop.
Hypothesis I_ui : ui_blind I.
Hypothesis I_heap : forall f w, I w -> I (with_heap f w).
Hypothesis I_db_log : forall f w, I w -> I (with_db_log f w).
Hypothesis I_responses :
  forall f w, I w -> I (with_session (fun s => set_responses (f s) s) w).

Ltac blind_leaf :=
  first [ exact I_ui
        | intros ?; apply I_ui
        | intros ?; apply I_heap
        | intros ?; apply I_db_log ].

Lemma blind_session_run (d : driver) (query : string) (params : record) :
  invariant I (session_run d query params).
Proof using I_db_log. unfold session_run. invariant_auto blind_leaf. Qed.

Lemma blind_run_neo4j_query (query : string) (params : option record) :
  invariant I (run_neo4j_query query params).
Proof using I_ui I_heap I_db_log.
  unfold run_neo4j_query.
  invariant_auto ltac:(first [blind_leaf | apply blind_session_run]);
    apply blind_session_run.
Qed.

Lemma blind_pandas_reads (df : DataFrame) (c : string) :
  invariant I (pandas_reads df c).
Proof using. unfold pandas_reads. invariant_auto blind_leaf. Qed.

Lemma blind_plotly_reads (df : DataFrame) (ac : string * string) :
  invariant I (plotly_reads df ac).
Proof using. unfold plotly_reads. invariant_auto blind_leaf. Qed.

Lemma blind_build_chart (r : ref) (b : chart_block) :
  invariant I (build_chart r b).
Proof using I_ui I_heap.
  unfold build_chart, mutate.
  invariant_auto blind_leaf;
    first [apply blind_pandas_reads | apply blind_plotly_reads].
Qed.

Lemma blind_dispatch_charts (q : string) (r : ref) :
  invariant I (dispatch_charts q r).
Proof using I_ui I_heap.
  unfold dispatch_charts. apply invariant_for_each. intros b _.
  unfold run_block.
  apply invariant_bind; [apply invariant_deref|]. intros df.
  apply invariant_when, blind_build_chart.
Qed.

Lemma blind_run_analysis (c s q query : string) :
  invariant I (run_analysis c s q query).
Proof using I_ui I_heap I_db_log I_responses.
  unfold run_analysis.
  apply invariant_bind; [apply invariant_emit, I_ui|]. intros _.
  apply invariant_bind; [apply blind_run_neo4j_query|]. intros [r|];
    [|apply invariant_ret].
  apply invariant_bind; [apply invariant_deref|]. intros df.
  apply invariant_when.
  apply invariant_bind; [apply invariant_get_session|]. intros s0.
  apply invariant_bind.
  { apply invariant_update. intros w Hw.
    apply (I_responses
             (fun _ => PyDict.set (response_key c s q) r (responses s0)) w Hw). }
  intros _.
  apply invariant_bind; [apply invariant_deref|]. intros df'.
  apply invariant_bind; [apply invariant_emit, I_ui|]. intros _.
  apply blind_dispatch_charts.
Qed.

Lemma blind_export (export_format : string) :
  invariant I (export_all_results export_format).
Proof using I_ui.
  unfold export_all_results. invariant_auto blind_leaf.
Qed.

End Blind.

(* ------------------------------------------------------------------ *)
(** ** Pages leave the connection flag and the driver alone *)

Section BlindPage.

Variable I : world -> Prop.
Hypothesis I_ui : ui_blind I.
Hypothesis I_heap : forall f w, I w -> I (with_heap f w).
Hypothesis I_db_log : forall f w, I w -> I (with_db_log f w).
Hypothesis I_responses :
  forall f w, I w -> I (with_session (fun s => set_responses (f s) s) w).
Hypothesis I_section :
  forall x w, I w -> I (with_session (set_section x) w).

Lemma blind_category_page : invariant I category_page.
Proof using I_ui I_heap I_db_log I_responses I_section.
  unfold category_page.
  apply invariant_bind; [apply invariant_get_session|]. intros s.
  cbv zeta.
  apply invariant_bind; [apply invariant_emit, I_ui|]. intros _.
  destruct (section s) as [x|].
  - apply invariant_bind; [apply invariant_emit, I_ui|]. intros _.
    apply invariant_bind; [apply invariant_subscript|]. intros sections.
    apply invariant_bind; [apply invariant_subscript|]. intros entries.
    apply invariant_bind.
    + apply invariant_for_each. intros iq _.
      apply invariant_bind; [apply invariant_emit, I_ui|]. intros _.
      apply invariant_bind; [apply invariant_button, I_ui|]. intros b.
      apply invariant_when.
      now apply blind_run_analysis.
    + intros _.
      apply invariant_bind; [apply invariant_button, I_ui|]. intros b.
      apply invariant_when. unfold back_to_sections.
      apply invariant_bind; [|intros _; apply invariant_rerun].
      apply invariant_update. intros w. apply (I_section None).
  - apply invariant_bind; [apply invariant_emit, I_ui|]. intros _.
    apply invariant_bind; [apply invariant_subscript|]. intros sections.
    apply invariant_for_each. intros x _.
    apply invariant_bind; [apply invariant_button, I_ui|]. intros b.
    apply invariant_when.
    apply invariant_update. intros w. apply (I_section (Some x)).
Qed.

End BlindPage.

Lemma connection_ok_connect (uri username password : string) (w : world) :
  connection_ok (session (snd (connect_to_neo4j uri username password w))).
Proof.
  unfold connect_to_neo4j, try_except, bind, GraphDatabase_driver.
  destruct (neo4j_open uri username password) as [msg|].
  - cbn. intros E. discriminate E.
  - unfold session_run, bind, get_world, update. cbn.
    destruct (neo4j_run _ _ _ _) as [msg|data]; cbn.
    + intros E. discriminate E.
    + intros _ E. discriminate E.
Qed.

Lemma connection_ok_disconnect (w : world) :
  connection_ok (session (snd (disconnect w))).
Proof.
  unfold disconnect. rewrite bind_get_session.
  destruct (neo4j_driver (session w)) as [d|].
  - unfold bind, try_except, driver_close, bind, update. cbn.
    destruct (neo4j_close d); cbn; intros E; discriminate E.
  - cbn. intros E. discriminate E.
Qed.

Lemma connection_ok_perform (a : action) :
  invariant (fun w => connection_ok (session w)) (perform a).
Proof.
  destruct a as [uri username password| |qry|nc|click|format|]; simpl perform.
  - apply invariant_of_snd. intros w _.
    pose proof (connection_ok_connect uri username password w) as K.
    unfold bind.
    now destruct (connect_to_neo4j uri username password w) as [[b|e|] w'].
  - apply invariant_of_snd. intros w _. apply connection_ok_disconnect.
  - apply invariant_bind; [|intros _; apply invariant_ret].
    apply blind_run_neo4j_query; intros ? ? H; exact H.
  - apply invariant_update. intros w H. now destruct nc.
  - apply invariant_bind.
    + apply invariant_update. intros w H. exact H.
    + intros _. apply blind_category_page; intros ? ? H; exact H.
  - apply blind_export. intros ? ? H; exact H.
  - unfold on_exit.
    apply invariant_bind; [apply invariant_get_session|]. intros s.
    destruct (neo4j_driver s) as [d|]; [|apply invariant_ret].
    unfold driver_close.
    apply invariant_bind; [apply invariant_update; intros w H; exact H|].
    intros _. destruct (neo4j_close d);
      [apply invariant_raise | apply invariant_ret].
Qed.

(** Whatever the session does from its start, a session marked connected
    has a stored driver: the two tests at the head of [run_neo4j_query]
    never disagree in that direction. *)
Theorem connected_session_has_driver (acts : list action) :
  connection_ok (session (perform_all initial_world acts)).
Proof.
  assert (forall w, connection_ok (session w) ->
                    connection_ok (session (perform_all w acts))) as K.
  { induction acts as [|a acts IH]; intros w H; simpl; [exact H|].
    apply IH.
    apply (invariant_snd (fun w => connection_ok (session w)));
      [apply connection_ok_perform | exact H]. }
  apply K. intros E. discriminate E.
Qed.

(* ------------------------------------------------------------------ *)
(** ** Pages keep the navigation consistent *)

Lemma triple_pure {A} (P : world -> Prop) (F : Prop) (m : M A)
  (Q : A -> world -> Prop) (E : world -> Prop) :
  (F -> triple P m Q E) -> triple (fun w => P w /\ F) m Q E.
Proof. intros H w [Hw HF]. exact (H HF w Hw). Qed.

Lemma in_fst_catalog {A B} (l : list (A * B)) (a : A) (b : B) :
  In (a, b) l -> In a (map fst l).
Proof. intros H. apply in_map_iff. exists (a, b). auto. Qed.

(** In a consistent position with a category, the page is the category
    page. *)
Lemma nav_consistent_category (s : session_state) (c : string) :
  nav_consistent s -> category s = Some c ->
  current_page s = Category /\ In c (map fst catalog).
Proof.
  unfold nav_consistent. intros H E. rewrite E in H.
  destruct (current_page s); [destruct (section s); contradiction|].
  split; [reflexivity|].
  destruct (section s) as [x|]; [|exact H].
  destruct H as (sections & I & _).
  exact (in_fst_catalog _ _ _ I).
Qed.

Lemma nav_consistent_cleared (s : session_state) :
  nav_consistent s -> nav_consistent (clear_section s).
Proof.
  unfold nav_consistent, clear_section, set_section.
  cbn [current_page category section].
  destruct (current_page s), (category s) as [c|], (section s) as [x|];
    intros H; try exact H; try contradiction.
  destruct H as (sections & I & _).
  exact (in_fst_catalog _ _ _ I).
Qed.

Lemma nav_consistent_section (s : session_state) (c x : string)
  (sections : PyDict.t (list question_data)) :
  nav_consistent s -> category s = Some c ->
  PyDict.get c questions = Some sections -> In x (PyDict.keys sections) ->
  nav_consistent (set_section (Some x) s).
Proof.
  intros H E G Ix.
  destruct (nav_consistent_category s c H E) as [Ep _].
  destruct (questions_sections c sections G) as (raw & Ir & Ek).
  unfold nav_consistent, set_section.
  cbn [current_page category section]. rewrite Ep, E.
  exists raw. split; [exact Ir|]. rewrite <- Ek. exact Ix.
Qed.

(** [category_page] (lines 857-1320), run with any click in a consistent
    position of the navigation, leaves a consistent position, on the same
    page and in the same category: it can only select a section of the
    current category or clear the section. *)
Theorem category_page_keeps_navigation (w : world) :
  nav_consistent (session w) ->
  nav_consistent (session (snd (category_page w)))
  /\ current_page (session (snd (category_page w))) = current_page (session w)
  /\ category (session (snd (category_page w))) = category (session w).
Proof.
  intros H0.
  set (J := fun w' : world =>
              nav_consistent (session w')
              /\ current_page (session w') = current_page (session w)
              /\ category (session w') = category (session w)).
  assert (ui_blind J) as J_ui by (intros f w' H; exact H).
  assert (invariant J category_page) as K.
  { unfold category_page.
    eapply triple_bind.
    { apply (triple_get_session J). }
    intros s.
    eapply triple_conseq with
      (P := fun w' => J w' /\ category s = category (session w));
      [apply triple_pure; intros Ec
      | intros w' [Hw Es]; split; [exact Hw|];
        destruct Hw as (_ & _ & Hc); now rewrite Es
      | intros a w' Hq; exact Hq
      | intros w' He; exact He ].
    cbv zeta.
    apply invariant_bind; [apply invariant_emit, J_ui|]. intros _.
    destruct (section s) as [x|].
    - apply invariant_bind; [apply invariant_emit, J_ui|]. intros _.
      apply invariant_bind; [apply invariant_subscript|]. intros sections.
      apply invariant_bind; [apply invariant_subscript|]. intros entries.
      apply invariant_bind.
      + apply invariant_for_each. intros iq _.
        apply invariant_bind; [apply invariant_emit, J_ui|]. intros _.
        apply invariant_bind; [apply invariant_button, J_ui|]. intros b.
        apply invariant_when.
        apply blind_run_analysis; intros ? ? H; exact H.
      + intros _.
        apply invariant_bind; [apply invariant_button, J_ui|]. intros b.
        apply invariant_when. unfold back_to_sections.
        apply invariant_bind; [|intros _; apply invariant_rerun].
        apply invariant_update. intros w' (Hn & Hp & Hc).
        split; [|split; assumption].
        now apply nav_consistent_cleared.
    - apply invariant_bind; [apply invariant_emit, J_ui|]. intros _.
      apply invariant_bind_subscript. intros c sections Es Gs.
      apply invariant_for_each. intros x Hx.
      apply invariant_bind; [apply invariant_button, J_ui|]. intros b.
      apply invariant_when.
      apply invariant_update. intros w' (Hn & Hp & Hc).
      split; [|split; assumption].
      apply (nav_consistent_section (session w') c x sections); auto.
      now rewrite Hc, <- Ec. }
  apply (invariant_snd J category_page w K).
  split; [exact H0 | split; reflexivity].
Qed.

Lemma keys_questions : PyDict.keys questions = map fst catalog.
Proof. unfold PyDict.keys, questions. now rewrite map_map. Qed.

Lemma category_shown_spec (s : session_state) (c : string) :
  category_shown s c = true ->
  category s = Some c /\ current_page s = Category.
Proof.
  unfold category_shown, is_category, is_category_page. intros H.
  apply andb_prop in H as [H1 H2].
  destruct (category s) as [c'|]; [|discriminate].
  apply String.eqb_eq in H1. subst c'.
  now destruct (current_page s).
Qed.

(** The sidebar (lines 1323-1395), run with any click and any export
    format in a consistent position of the navigation, leaves a consistent
    position: its Home and category buttons lead to positions of the
    catalog, and a section button acts only for a section of the category
    that is shown. *)
Theorem sidebar_keeps_navigation (export_format : string) (w : world) :
  nav_consistent (session w) ->
  nav_consistent (session (snd (sidebar export_format w))).
Proof.
  set (J := fun w' : world => nav_consistent (session w')).
  assert (ui_blind J) as J_ui by (intros f w' H; exact H).
  assert (invariant J (sidebar export_format)) as K.
  { unfold sidebar.
    apply invariant_bind; [apply invariant_sidebar_button|]. intros b.
    apply invariant_bind.
    { apply invariant_when. apply invariant_update. intros w' _. exact I. }
    intros _.
    apply invariant_bind; [apply invariant_get_session|]. intros s.
    apply invariant_when.
    apply invariant_bind.
    { apply invariant_for_each. intros c Hc. rewrite keys_questions in Hc.
      apply invariant_bind; [apply invariant_sidebar_button|]. intros b1.
      apply invariant_bind.
      { apply invariant_when. apply invariant_update. intros w' _.
        exact Hc. }
      intros _.
      eapply triple_bind; [apply (triple_get_session J)|]. intros s1.
      destruct (category_shown s1 c) eqn:Sh; simpl when.
      - destruct (category_shown_spec s1 c Sh) as [Ec Ep].
        eapply triple_bind.
        { eapply triple_conseq;
            [apply (triple_subscript
                      (fun w' => J w' /\ s1 = session w') questions (Some c))
            | intros w' Hw; exact Hw
            | intros a w' Hq; exact Hq
            | intros w' [He _]; exact He ]. }
        intros sections.
        eapply triple_conseq with
          (P := fun w' =>
                  (J w' /\ category (session w') = Some c)
                  /\ PyDict.get c questions = Some sections)
          (Q := fun (_ : unit) w' =>
                  J w' /\ category (session w') = Some c)
          (E := fun w' => J w' /\ category (session w') = Some c);
          [apply triple_pure; intros Gs
          | intros w' ((Hw & Es) & k' & Ek & Gk);
            inversion Ek; subst k'; split; [split|]; auto; now subst s1
          | intros a w' [Hq _]; exact Hq
          | intros w' [He _]; exact He ].
        apply invariant_for_each. intros x Hx.
        apply invariant_bind; [apply invariant_sidebar_button|]. intros b2.
        apply invariant_when.
        apply invariant_update. intros w' [Hn Hc'].
        split; [|exact Hc'].
        apply (nav_consistent_section (session w') c x sections); auto.
      - eapply triple_conseq;
          [apply (invariant_ret J tt)
          | intros w' [Hw _]; exact Hw
          | intros a w' Hq; exact Hq
          | intros w' He; exact He ]. }
    intros _.
    apply invariant_bind; [apply invariant_sidebar_button|]. intros b3.
    apply invariant_bind.
    { apply invariant_when. unfold disconnect, driver_close.
      invariant_auto ltac:(first [exact J_ui | intros ? H; exact H]). }
    intros _.
    apply invariant_bind; [apply invariant_sidebar_button|]. intros b4.
    apply invariant_when. apply blind_export. exact J_ui. }
  intros H0. exact (invariant_snd J (sidebar export_format) w K H0).
Qed.

(* ------------------------------------------------------------------ *)
(** ** Browsing raises nothing *)

Lemma safely_conseq {A} (P P' : world -> Prop) (m : M A)
  (Q Q' : A -> world -> Prop) (R R' : world -> Prop) :
  safely P m Q R ->
  (forall w, P' w -> P w) -> (forall a w, Q a w -> Q' a w) ->
  (forall w, R w -> R' w) ->
  safely P' m Q' R'.
Proof.
  intros H HP HQ HR w Hw. specialize (H w (HP w Hw)).
  destruct (m w) as [[a|e|] w']; auto.
Qed.

Lemma safely_at {A} (P : world -> Prop) (m : M A)
  (Q : A -> world -> Prop) (R : world -> Prop) :
  (forall w, P w -> safely (fun w' => w' = w) m Q R) -> safely P m Q R.
Proof. intros H w Hw. exact (H w Hw w eq_refl). Qed.

Lemma safely_ret {A} (P : world -> Prop) (a : A) (Q : A -> world -> Prop)
  (R : world -> Prop) :
  (forall w, P w -> Q a w) -> safely P (ret a) Q R.
Proof. intros H w Hw. simpl. auto. Qed.

Lemma safely_rerun {A} (P : world -> Prop) (Q : A -> world -> Prop)
  (R : world -> Prop) :
  (forall w, P w -> R w) -> safely P (@st_rerun A) Q R.
Proof. intros H w Hw. simpl. auto. Qed.

Lemma safely_bind {A B} (P : world -> Prop) (m : M A) (k : A -> M B)
  (S : A -> world -> Prop) (Q : B -> world -> Prop) (R : world -> Prop) :
  safely P m S R -> (forall a, safely (S a) (k a) Q R) ->
  safely P (bind m k) Q R.
Proof.
  intros Hm Hk w Hw. unfold bind. specialize (Hm w Hw).
  destruct (m w) as [[a|e|] w']; auto.
  exact (Hk a w' Hm).
Qed.

Lemma safely_seq {A B} (I : world -> Prop) (m : M A) (k : A -> M B)
  (Q : B -> world -> Prop) (R : world -> Prop) :
  safely I m (fun _ => I) R -> (forall a, safely I (k a) Q R) ->
  safely I (bind m k) Q R.
Proof. intros Hm Hk. eapply safely_bind; [exact Hm|exact Hk]. Qed.

Lemma safely_update (P : world -> Prop) (f : world -> world)
  (Q : unit -> world -> Prop) (R : world -> Prop) :
  (forall w, P w -> Q tt (f w)) -> safely P (update f) Q R.
Proof. intros H w Hw. simpl. auto. Qed.

Lemma safely_get_session (P : world -> Prop) (R : world -> Prop) :
  safely P get_session (fun s w => P w /\ s = session w) R.
Proof. intros w Hw. simpl. auto. Qed.

Lemma safely_emit (I : world -> Prop) (x : widget) (R : world -> Prop) :
  ui_blind I -> safely I (emit x) (fun _ => I) R.
Proof. intros H. apply safely_update. intros w. apply H. Qed.

Lemma safely_button (I : world -> Prop) (label key : string)
  (R : world -> Prop) :
  ui_blind I ->
  safely I (button label key) (fun b w => I w /\ b = is_clicked key w) R.
Proof. intros H w Hw. simpl. split; [now apply H | reflexivity]. Qed.

Lemma safely_bind_subscript {V B} (P : world -> Prop) (d : PyDict.t V)
  (k : string) (v : V) (f : V -> M B) (Q : B -> world -> Prop)
  (R : world -> Prop) :
  PyDict.get k d = Some v -> safely P (f v) Q R ->
  safely P (bind (subscript d (Some k)) f) Q R.
Proof.
  intros G H w Hw. unfold bind, subscript. rewrite G. exact (H w Hw).
Qed.

Lemma safely_for_each {A} (I : world -> Prop) (xs : list A)
  (body : A -> M unit) (R : world -> Prop) :
  (forall x, In x xs -> safely I (body x) (fun _ => I) R) ->
  safely I (for_each xs body) (fun _ => I) R.
Proof.
  induction xs as [|x xs IH]; intros H; simpl.
  - apply safely_ret. auto.
  - apply safely_seq; [apply H; now left|].
    intros _. apply IH. intros y Hy. apply H. now right.
Qed.

(** A key of a dictionary is bound. *)
Lemma get_of_key {V} (k : string) (d : PyDict.t V) :
  In k (PyDict.keys d) -> exists v, PyDict.get k d = Some v.
Proof.
  clear cypher neo4j_open.
  unfold PyDict.keys. induction d as [|[k0 v0] d IH]; simpl; [tauto|].
  intros [E|I].
  - rewrite <- E, String.eqb_refl. eauto.
  - destruct (String.eqb k k0); eauto.
Qed.

Lemma catalog_categories_distinct : NoDup (map fst catalog).
Proof. apply distinct_NoDup. vm_compute. reflexivity. Qed.

Lemma catalog_sections (c : string) (raw raw' : list (string * list string)) :
  In (c, raw) catalog -> In (c, raw') catalog -> raw = raw'.
Proof.
  intros H H'.
  assert ((c, raw) = (c, raw')) as E
    by (apply (NoDup_map_injective fst catalog);
        auto using catalog_categories_distinct).
  now inversion E.
Qed.

(** The lookups of a category of the catalog and of one of its sections
    succeed. *)
Lemma lookup_category (c : string) :
  In c (map fst catalog) ->
  exists sections, PyDict.get c questions = Some sections.
Proof. intros H. apply get_of_key. now rewrite keys_questions. Qed.

Lemma lookup_section (c x : string) (raw : list (string * list string)) :
  In (c, raw) catalog -> In x (map fst raw) ->
  exists sections entries,
    PyDict.get c questions = Some sections
    /\ PyDict.get x sections = Some entries.
Proof.
  intros Hc Hx.
  destruct (lookup_category c (in_fst_catalog _ _ _ Hc)) as [sections G].
  destruct (questions_sections c sections G) as (raw' & Hc' & Ek).
  rewrite (catalog_sections c raw raw' Hc Hc') in Hx.
  rewrite <- Ek in Hx.
  destruct (get_of_key x sections Hx) as [entries Ge].
  eauto.
Qed.

Lemma untouched_refl (w : world) : untouched w w.
Proof. unfold untouched. repeat split. Qed.

Lemma untouched_ui (w0 : world) : ui_blind (untouched w0).
Proof. intros f w H. exact H. Qed.

Lemma untouched_section (w0 w : world) (x : option string) :
  untouched w0 w -> untouched w0 (with_session (set_section x) w).
Proof. intros H. exact H. Qed.

(** A click that is no Run Analysis click fires no Run Analysis button. *)
Lemma run_button_idle (w0 w : world) (key : string) :
  (forall k, clicked w0 = Some k -> PyStr.startswith k "run_" = false) ->
  untouched w0 w -> is_clicked ("run_" ++ key) w = false.
Proof.
  intros NR [Ec _]. unfold is_clicked. rewrite Ec.
  destruct (clicked w0) as [k|]; [|reflexivity].
  destruct (String.eqb_spec k ("run_" ++ key)) as [E|]; [|reflexivity].
  specialize (NR k eq_refl). subst k.
  unfold PyStr.startswith in NR. simpl in NR.
  rewrite ?Ascii.eqb_refl in NR. destruct key; discriminate.
Qed.

Lemma browse_category_page (w0 : world) :
  nav_consistent (session w0) -> current_page (session w0) = Category ->
  (forall k, clicked w0 = Some k -> PyStr.startswith k "run_" = false) ->
  safely (fun w => w = w0) category_page
         (fun _ => untouched w0) (untouched w0).
Proof.
  intros Hn Hp NR.
  pose proof (untouched_ui w0) as U_ui.
  unfold category_page.
  eapply safely_bind; [apply safely_get_session|]. intros s.
  apply safely_at. intros w [-> ->].
  apply safely_conseq with (P := untouched w0) (Q := fun _ => untouched w0)
                           (R := untouched w0);
    [|intros w ->; apply untouched_refl|auto|auto].
  cbv zeta.
  unfold nav_consistent in Hn. rewrite Hp in Hn.
  destruct (category (session w0)) as [c|] eqn:Ec;
    [|destruct (section (session w0)); contradiction].
  apply safely_seq; [apply safely_emit, U_ui|]. intros _.
  destruct (section (session w0)) as [x|] eqn:Ex.
  - destruct Hn as (raw & Hc & Hx).
    destruct (lookup_section c x raw Hc Hx) as (sections & entries & Gs & Ge).
    apply safely_seq; [apply safely_emit, U_ui|]. intros _.
    apply (safely_bind_subscript _ _ _ _ _ _ _ Gs).
    apply (safely_bind_subscript _ _ _ _ _ _ _ Ge).
    apply safely_seq.
    + apply safely_for_each. intros iq _.
      apply safely_seq; [apply safely_emit, U_ui|]. intros _.
      eapply safely_bind; [apply safely_button, U_ui|]. intros b.
      intros w [Hu Hb].
      rewrite (run_button_idle w0 w _ NR Hu) in Hb. subst b.
      exact Hu.
    + intros _.
      eapply safely_bind; [apply safely_button, U_ui|]. intros b.
      apply safely_conseq with (P := untouched w0) (Q := fun _ => untouched w0)
                               (R := untouched w0);
        [|intros w [Hu _]; exact Hu|auto|auto].
      destruct b; [|apply safely_ret; auto].
      unfold when, back_to_sections.
      apply safely_seq; [|intros _; apply safely_rerun; auto].
      apply safely_update. intros w Hu.
      now apply untouched_section.
  - destruct (lookup_category c Hn) as [sections Gs].
    apply safely_seq; [apply safely_emit, U_ui|]. intros _.
    apply (safely_bind_subscript _ _ _ _ _ _ _ Gs).
    apply safely_for_each. intros x _.
    eapply safely_bind; [apply safely_button, U_ui|]. intros b.
    apply safely_conseq with (P := untouched w0) (Q := fun _ => untouched w0)
                             (R := untouched w0);
      [|intros w [Hu _]; exact Hu|auto|auto].
    destruct b; [|apply safely_ret; auto].
    apply safely_update. intros w Hu.
    now apply untouched_section.
Qed.

(** [category_page] (lines 857-1320), run on the category page in a
    consistent position of the navigation with a click that is no Run
    Analysis click (or with none), raises nothing: the lookups
    [questions[category]] and [questions[category][section]] succeed and no
    query is run.  The run changes nothing but the widgets drawn and the
    selected section: no request is sent, no table is made or changed,
    nothing is stored, and the connection, the page and the category stay
    as they were. *)
Theorem browsing_never_fails (w : world) :
  nav_consistent (session w) -> current_page (session w) = Category ->
  (forall k, clicked w = Some k -> PyStr.startswith k "run_" = false) ->
  (forall e, fst (category_page w) <> Raise e)
  /\ untouched w (snd (category_page w)).
Proof.
  intros Hn Hp NR.
  pose proof (browse_category_page w Hn Hp NR w eq_refl) as H.
  destruct (category_page w) as [[a|e|] w']; simpl;
    first [contradiction | split; [intros e'; discriminate | exact H]].
Qed.

(* ------------------------------------------------------------------ *)
(** ** A Run Analysis click runs the query of its question *)

Lemma append_inj_l (p a b : string) : (p ++ a)%string = (p ++ b)%string -> a = b.
Proof.
  induction p as [|x p IH]; simpl; intros H; [exact H|].
  injection H as H. auto.
Qed.

(** [str] is injective on integers. *)
Lemma of_Z_inj (z z' : Z) : PyStr.of_Z z = PyStr.of_Z z' -> z = z'.
Proof.
  unfold PyStr.of_Z. intros H. apply DecimalZ.to_int_inj.
  assert (forall z, Z.to_int z <> Decimal.Pos Decimal.Nil
                    /\ Z.to_int z <> Decimal.Neg Decimal.Nil) as N.
  { intros [|p|p]; simpl; split; try discriminate;
      intros E; injection E as E;
      now apply DecimalPos.Unsigned.to_uint_nonnil in E. }
  assert (Some (Z.to_int z) = Some (Z.to_int z')) as E.
  { rewrite <- (NilZero.isi (Z.to_int z)), <- (NilZero.isi (Z.to_int z'))
      by apply N.
    now rewrite H. }
  now injection E.
Qed.

(** The buttons of the questions of one section have different keys. *)
Lemma run_key_inj (c s : string) (i j : nat) :
  run_key c s i = run_key c s j -> i = j.
Proof.
  unfold run_key. intros H.
  apply append_inj_l, append_inj_l, append_inj_l, append_inj_l,
        append_inj_l, of_Z_inj in H.
  now apply Nat2Z.inj.
Qed.

Lemma enumerate_indices {A} (xs : list A) (start : nat) :
  map fst (combine (seq start (length xs)) xs) = seq start (length xs).
Proof.
  revert start. induction xs as [|x xs IH]; intros start; simpl;
    [reflexivity|].
  now rewrite IH.
Qed.

Lemma enumerate_NoDup {A} (xs : list A) : NoDup (map fst (enumerate xs)).
Proof. unfold enumerate. rewrite enumerate_indices. apply seq_NoDup. Qed.

Lemma enumerate_nth {A} (xs : list A) (i : nat) (x : A) :
  nth_error xs i = Some x -> In (i, x) (enumerate xs).
Proof.
  unfold enumerate.
  assert (forall start, nth_error xs i = Some x ->
            In (start + i, x) (combine (seq start (length xs)) xs)) as G.
  { revert i. induction xs as [|y xs IH]; intros [|i] start H;
      simpl in H; try discriminate.
    - injection H as ->. rewrite Nat.add_0_r. now left.
    - right. rewrite <- Nat.add_succ_comm. now apply IH. }
  exact (G 0).
Qed.

Lemma triple_at {A} (P : world -> Prop) (m : M A)
  (Q : A -> world -> Prop) (E : world -> Prop) :
  (forall w, P w -> triple (fun w' => w' = w) m Q E) -> triple P m Q E.
Proof. intros H w Hw. exact (H w Hw w eq_refl). Qed.

Lemma triple_seq {A B} (I : world -> Prop) (m : M A) (k : A -> M B)
  (Q : B -> world -> Prop) (E : world -> Prop) :
  triple I m (fun _ => I) E -> (forall a, triple I (k a) Q E) ->
  triple I (bind m k) Q E.
Proof. intros Hm Hk. eapply triple_bind; [exact Hm|exact Hk]. Qed.

Lemma triple_emit (I : world -> Prop) (x : widget) (E : world -> Prop) :
  ui_blind I -> triple I (emit x) (fun _ => I) E.
Proof. intros H. apply triple_update. intros w. apply H. Qed.

Lemma triple_button (I : world -> Prop) (label key : string)
  (E : world -> Prop) :
  ui_blind I ->
  triple I (button label key) (fun b w => I w /\ b = is_clicked key w) E.
Proof. intros H w Hw. simpl. split; [now apply H | reflexivity]. Qed.

Lemma triple_bind_subscript {V B} (P : world -> Prop) (d : PyDict.t V)
  (k : string) (v : V) (f : V -> M B) (Q : B -> world -> Prop)
  (E : world -> Prop) :
  PyDict.get k d = Some v -> triple P (f v) Q E ->
  triple P (bind (subscript d (Some k)) f) Q E.
Proof.
  intros G H w Hw. unfold bind, subscript. rewrite G. exact (H w Hw).
Qed.

(** A loop in which exactly one round takes [I] to [J], and every other
    round keeps whichever of the two holds. *)
Lemma triple_for_each_hit {A} (I J : world -> Prop) (xs : list A) (x : A)
  (body : A -> M unit) :
  NoDup xs -> In x xs ->
  (forall y, In y xs -> y <> x -> triple I (body y) (fun _ => I) J) ->
  (forall y, In y xs -> y <> x -> invariant J (body y)) ->
  triple I (body x) (fun _ => J) J ->
  triple I (for_each xs body) (fun _ => J) J.
Proof.
  intros N Hx HI HJ Hhit.
  induction xs as [|a xs IH]; [contradiction|].
  inversion N as [|? ? Na Nxs]; subst.
  cbn [for_each].
  destruct Hx as [->|Hx].
  - eapply triple_bind; [exact Hhit|]. intros ?. cbv beta.
    apply invariant_for_each. intros y Hy. apply HJ; [now right|].
    intros ->. contradiction.
  - apply triple_seq.
    + apply HI; [now left|]. intros ->. contradiction.
    + intros _. apply IH; auto.
      * intros y Hy. apply HI. now right.
      * intros y Hy. apply HJ. now right.
Qed.

Lemma is_clicked_same (k : string) (w : world) :
  clicked w = Some k -> is_clicked k w = true.
Proof. unfold is_clicked. intros ->. apply String.eqb_refl. Qed.

Lemma is_clicked_other (k key : string) (w : world) :
  clicked w = Some k -> k <> key -> is_clicked key w = false.
Proof.
  unfold is_clicked. intros -> N. now apply String.eqb_neq.
Qed.

(** A button that was not clicked does nothing but draw itself. *)
Lemma triple_button_idle (K : world -> Prop) (E : world -> Prop)
  (k label key : string) (m : M unit) :
  ui_blind K -> (forall w, K w -> clicked w = Some k) -> k <> key ->
  triple K (b <- button label key ;; when b m) (fun _ => K) E.
Proof.
  intros K_ui Kc N.
  eapply triple_bind; [apply triple_button, K_ui|].
  intros b w [Hk ->].
  rewrite (is_clicked_other k key w (Kc w Hk) N). exact Hk.
Qed.

Lemma run_pending_ui (key : string) (l : list db_call) (d : driver) :
  ui_blind (run_pending key l d).
Proof. intros f w H. exact H. Qed.

Lemma run_sent_ui (key : string) (l : list db_call) : ui_blind (run_sent key l).
Proof. intros f w H. exact H. Qed.

(** With an open connection [run_analysis] sends its query, once. *)
Lemma run_analysis_sends (key : string) (l : list db_call) (d : driver)
  (c s q query : string) :
  triple (run_pending key l d) (run_analysis c s q query)
    (fun _ => run_sent key
                (l ++ [{| call_driver := drv_id d; call_query := query;
                          call_params := [] |}]))
    (run_sent key
       (l ++ [{| call_driver := drv_id d; call_query := query;
                 call_params := [] |}])).
Proof.
  set (J := run_sent key
              (l ++ [{| call_driver := drv_id d; call_query := query;
                        call_params := [] |}])).
  assert (ui_blind J) as J_ui by apply run_sent_ui.
  assert (forall f w, J w -> J (with_heap f w)) as J_heap
    by (intros f w H; exact H).
  unfold run_analysis.
  apply triple_seq; [apply triple_emit, run_pending_ui|]. intros _.
  eapply triple_bind with (R := fun _ => J).
  - intros w (H1 & H2 & H3 & H4).
    destruct (neo4j_run (length (db_log w)) d query []) as [msg|data] eqn:E.
    + rewrite (run_neo4j_query_error query w d msg H3 H4 E).
      split; [exact H1|]. cbn. now rewrite H2.
    + rewrite (run_neo4j_query_reply query w d data H3 H4 E).
      split; [exact H1|]. cbn. now rewrite H2.
  - intros [r|]; [|apply invariant_ret].
    apply invariant_bind; [apply invariant_deref|]. intros df.
    apply invariant_when.
    apply invariant_bind; [apply invariant_get_session|]. intros s0.
    apply invariant_bind;
      [apply invariant_update; intros w H; exact H|]. intros _.
    apply invariant_bind; [apply invariant_deref|]. intros df'.
    apply invariant_bind; [apply invariant_emit, J_ui|]. intros _.
    apply blind_dispatch_charts; assumption.
Qed.

(** [category_page] (lines 857-1320), run in a section with the click on
    the Run Analysis button of the [i]-th question while the session is
    connected, sends exactly one request to the database: the query of that
    question, without parameters, on the stored driver.  So none of the
    other questions of the section is run, and the request log is the same
    whether the run ends normally or in an exception of the chart code. *)
Theorem run_click_sends_its_query (w : world) (c s : string)
  (sections : PyDict.t (list question_data)) (entries : list question_data)
  (i : nat) (qd : question_data) (d : driver) :
  category (session w) = Some c -> section (session w) = Some s ->
  PyDict.get c questions = Some sections ->
  PyDict.get s sections = Some entries ->
  nth_error entries i = Some qd ->
  clicked w = Some (run_key c s i) ->
  neo4j_connected (session w) = true ->
  neo4j_driver (session w) = Some d ->
  db_log (snd (category_page w))
  = (db_log w ++ [{| call_driver := drv_id d; call_query := query qd;
                     call_params := [] |}])%list.
Proof.
  intros Hc Hs Gs Ge Hi Hk Hn Hd.
  set (I := run_pending (run_key c s i) (db_log w) d).
  set (J := run_sent (run_key c s i)
              (db_log w ++ [{| call_driver := drv_id d;
                               call_query := query qd;
                               call_params := [] |}])).
  assert (ui_blind I) as I_ui by apply run_pending_ui.
  assert (ui_blind J) as J_ui by apply run_sent_ui.
  assert (triple (fun w' => w' = w) category_page (fun _ => J) J) as T.
  { unfold category_page.
    eapply triple_bind; [apply triple_get_session|]. intros s0.
    apply triple_at. intros w' [-> ->].
    cbv zeta. rewrite Hs, Hc. cbn [fmt].
    apply triple_conseq with (P := I) (Q := fun _ => J) (E := J);
      [|intros w' ->; repeat split; assumption|auto|auto].
    apply triple_seq; [apply triple_emit, I_ui|]. intros _.
    apply triple_seq; [apply triple_emit, I_ui|]. intros _.
    apply (triple_bind_subscript _ _ _ _ _ _ _ Gs).
    apply (triple_bind_subscript _ _ _ _ _ _ _ Ge).
    eapply triple_bind with (R := fun _ => J).
    - apply triple_for_each_hit with (x := (i, qd)).
      + apply (NoDup_map_inv fst), enumerate_NoDup.
      + now apply enumerate_nth.
      + intros [j qd'] Hy Ny. cbn [fst snd].
        apply triple_seq; [apply triple_emit, I_ui|]. intros _.
        apply triple_button_idle with (k := run_key c s i);
          [exact I_ui | intros w' Hw; apply Hw |].
        intros Ek. pose proof (run_key_inj c s i j Ek) as Eij. subst j.
        apply Ny.
        apply (NoDup_map_injective fst (enumerate entries));
          auto using enumerate_NoDup, enumerate_nth.
      + intros [j qd'] Hy Ny. cbn [fst snd].
        apply triple_seq; [apply triple_emit, J_ui|]. intros _.
        apply triple_button_idle with (k := run_key c s i);
          [exact J_ui | intros w' Hw; apply Hw |].
        intros Ek. pose proof (run_key_inj c s i j Ek) as Eij. subst j.
        apply Ny.
        apply (NoDup_map_injective fst (enumerate entries));
          auto using enumerate_NoDup, enumerate_nth.
      + cbn [fst snd].
        apply triple_seq; [apply triple_emit, I_ui|]. intros _.
        eapply triple_bind; [apply triple_button, I_ui|].
        intros b w' [Hw Hb].
        assert (b = true) as ->
          by (rewrite Hb; exact (is_clicked_same (run_key c s i) w' (proj1 Hw))).
        exact (run_analysis_sends (run_key c s i) (db_log w) d c s
                 (question qd) (query qd) w' Hw).
    - intros _.
      apply invariant_bind; [apply invariant_button, J_ui|]. intros b.
      apply invariant_when. unfold back_to_sections.
      apply invariant_bind; [|intros _; apply invariant_rerun].
      apply invariant_update. intros w' H. exact H. }
  specialize (T w eq_refl).
  destruct (category_page w) as [[a|e|] w']; exact (proj2 T).
Qed.

(* ------------------------------------------------------------------ *)
(** ** Back to Sections *)

Lemma safely_shown (I : world -> Prop) (x : widget) (R : world -> Prop) :
  (forall w, I w -> I (shown x w)) -> safely I (emit x) (fun _ => I) R.
Proof. intros H. apply safely_update. exact H. Qed.

Lemma safely_button_shown (I : world -> Prop) (label key : string)
  (R : world -> Prop) :
  (forall w, I w -> I (shown (st_button label key) w)) ->
  safely I (button label key) (fun b w => I w /\ b = is_clicked key w) R.
Proof. intros H w Hw. simpl. split; [exact (H w Hw) | reflexivity]. Qed.

Lemma button_keys_app (u v : list widget) :
  button_keys (u ++ v) = (button_keys u ++ button_keys v)%list.
Proof. unfold button_keys. apply flat_map_app. Qed.

Lemma draws_no_refl (key : string) (w : world) : draws_no key w w.
Proof. exists []. split; [now rewrite app_nil_r | intros []]. Qed.

Lemma draws_no_shown (key : string) (w w' : world) (x : widget) :
  ~ In key (button_keys [x]) ->
  draws_no key w w' -> draws_no key w (shown x w').
Proof.
  intros N (drawn & E & Nd). exists (drawn ++ [x])%list. split.
  - unfold shown. cbn [ui with_ui]. rewrite E. now rewrite app_assoc.
  - rewrite button_keys_app. intros I. apply in_app_or in I as [I|I]; auto.
Qed.

Lemma draws_no_session (key : string) (w w' : world)
  (f : session_state -> session_state) :
  draws_no key w w' -> draws_no key w (with_session f w').
Proof. intros H. exact H. Qed.

(** With no section selected the page draws the section buttons only: no
    Back button, whatever the click, and the run ends normally. *)
Lemma page_without_section (w0 : world) :
  nav_consistent (session w0) -> current_page (session w0) = Category ->
  section (session w0) = None ->
  safely (fun w => w = w0) category_page
         (fun _ w => untouched w0 w /\ draws_no "back_to_sections" w0 w)
         (fun _ => False).
Proof.
  intros Hn Hp Hs.
  set (K := fun w => untouched w0 w /\ draws_no "back_to_sections" w0 w).
  assert (forall x w, ~ In "back_to_sections" (button_keys [x]) ->
                      K w -> K (shown x w)) as K_shown.
  { intros x w N [Hu Hd]. split;
      [now apply untouched_ui | now apply draws_no_shown]. }
  unfold category_page.
  eapply safely_bind; [apply safely_get_session|]. intros s.
  apply safely_at. intros w [-> ->].
  apply safely_conseq with (P := K) (Q := fun _ => K) (R := fun _ => False);
    [|intros w ->; split; [apply untouched_refl | apply draws_no_refl]
     |auto|auto].
  cbv zeta.
  unfold nav_consistent in Hn. rewrite Hp, Hs in Hn. rewrite Hs.
  destruct (category (session w0)) as [c|] eqn:Ec; [|contradiction].
  destruct (lookup_category c Hn) as [sections Gs].
  apply safely_seq.
  { apply safely_shown. intros w. apply K_shown. cbn. intros []. }
  intros _.
  apply safely_seq.
  { apply safely_shown. intros w. apply K_shown. cbn. intros []. }
  intros _.
  apply (safely_bind_subscript _ _ _ _ _ _ _ Gs).
  apply safely_for_each. intros x _.
  eapply safely_bind.
  { apply safely_button_shown. intros w. apply K_shown.
    cbn. intros [E|[]]. discriminate E. }
  intros b.
  apply safely_conseq with (P := K) (Q := fun _ => K) (R := fun _ => False);
    [|intros w [Hk _]; exact Hk|auto|auto].
  destruct b; [|apply safely_ret; auto].
  apply safely_update. intros w [Hu Hd]. split.
  - now apply untouched_section.
  - now apply draws_no_session.
Qed.

(** On the page of a section the click on Back to Sections fires no Run
    Analysis button, clears the section and restarts the run. *)
Lemma page_back_click (w0 : world) :
  nav_consistent (session w0) -> current_page (session w0) = Category ->
  section (session w0) <> None ->
  clicked w0 = Some "back_to_sections" ->
  safely (fun w => w = w0) category_page
         (fun _ _ => False)
         (fun w => untouched w0 w
                   /\ session w = clear_section (session w0)).
Proof.
  intros Hn Hp Hs Hk.
  set (I := fun w => untouched w0 w /\ session w = session w0).
  assert (ui_blind I) as I_ui by (intros f w H; exact H).
  assert (forall k, clicked w0 = Some k -> PyStr.startswith k "run_" = false)
    as NR.
  { intros k E. rewrite Hk in E. injection E as <-. reflexivity. }
  unfold category_page.
  eapply safely_bind; [apply safely_get_session|]. intros s.
  apply safely_at. intros w [-> ->].
  apply safely_conseq
    with (P := I) (Q := fun _ _ => False)
         (R := fun w => untouched w0 w
                        /\ session w = clear_section (session w0));
    [|intros w ->; split; [apply untouched_refl | reflexivity]|auto|auto].
  cbv zeta.
  unfold nav_consistent in Hn. rewrite Hp in Hn.
  destruct (category (session w0)) as [c|] eqn:Ec;
    [|destruct (section (session w0)); contradiction].
  destruct (section (session w0)) as [x|] eqn:Ex; [|now elim Hs].
  destruct Hn as (raw & Hc & Hx).
  destruct (lookup_section c x raw Hc Hx) as (sections & entries & Gs & Ge).
  apply safely_seq; [apply safely_emit, I_ui|]. intros _.
  apply safely_seq; [apply safely_emit, I_ui|]. intros _.
  apply (safely_bind_subscript _ _ _ _ _ _ _ Gs).
  apply (safely_bind_subscript _ _ _ _ _ _ _ Ge).
  apply safely_seq.
  - apply safely_for_each. intros iq _.
    apply safely_seq; [apply safely_emit, I_ui|]. intros _.
    eapply safely_bind; [apply safely_button, I_ui|]. intros b.
    intros w [Hi Hb].
    rewrite (run_button_idle w0 w _ NR (proj1 Hi)) in Hb. subst b.
    exact Hi.
  - intros _.
    eapply safely_bind; [apply safely_button, I_ui|]. intros b.
    intros w [[Hu Es] Hb].
    assert (b = true) as ->.
    { rewrite Hb. apply is_clicked_same.
      destruct Hu as [Hcl _]. now rewrite Hcl. }
    cbn. split.
    + now apply untouched_section.
    + now rewrite Es.
Qed.

(** C5 (amended).  The handler of Back to Sections is part of the page of a
    selected section (lines 879-1320).  With no section selected, a run of
    the category page draws no Back to Sections button and, whatever the
    click, ends normally: nothing is raised, and page and category stay.
    On the page of a section the click on Back to Sections clears the
    section and nothing else of the session (category and page stay), and
    restarts the run. *)
Theorem back_only_from_section (w : world) :
  nav_consistent (session w) -> current_page (session w) = Category ->
  (section (session w) = None ->
     fst (category_page w) = Ok tt
     /\ draws_no "back_to_sections" w (snd (category_page w))
     /\ untouched w (snd (category_page w)))
  /\ (section (session w) <> None ->
      clicked w = Some "back_to_sections" ->
      fst (category_page w) = Rerun
      /\ session (snd (category_page w)) = clear_section (session w)
      /\ section (session (snd (category_page w))) = None
      /\ category (session (snd (category_page w))) = category (session w)
      /\ current_page (session (snd (category_page w)))
         = current_page (session w)
      /\ untouched w (snd (category_page w))).
Proof.
  intros Hn Hp. split.
  - intros Hs.
    pose proof (page_without_section w Hn Hp Hs w eq_refl) as H.
    destruct (category_page w) as [[[]|e|] w']; cbn [fst snd];
      try contradiction.
    destruct H as [Hu Hd]. auto.
  - intros Hs Hk.
    pose proof (page_back_click w Hn Hp Hs Hk w eq_refl) as H.
    destruct (category_page w) as [[a|e|] w']; cbn [fst snd];
      try contradiction.
    destruct H as [Hu Es].
    split; [reflexivity|]. split; [exact Es|].
    split; [now rewrite Es|]. split; [now rewrite Es|].
    split; [now rewrite Es | exact Hu].
Qed.

(* ------------------------------------------------------------------ *)
(** ** Sheet names are not made safe for the workbook *)

(** The export does not clean the sheet names it derives from the question
    texts.  With a writer that refuses a sheet name holding one of the
    characters [[ ] : * ? /] or a backslash, as xlsxwriter does, one stored
    result with such a name is enough for the Excel export of a store of
    catalog results to end in the error message, with no workbook offered
    for any result.  The catalog has such a question (line 167, "How does
    customer/basket share ..."). *)
Theorem forbidden_sheet_name_blocks_workbook (w : world) (k : string)
  (r : ref) :
  store_ok w ->
  refuses_forbidden xlsx_write ->
  In (k, r) (responses (session w)) ->
  has_forbidden (sheet_name_of k) = true ->
  exists msg,
    export_all_results "Excel" w
    = (Ok tt,
       shown (sidebar_error ("Error creating Excel file: " ++ msg)) w).
Proof.
  intros [W V] RF I F.
  pose proof (collect_catalog_data (heap w) (responses (session w)) W V) as E.
  assert (existsb has_forbidden
            (map fst (sheets_of (heap w)
                        (collect_all_data (heap w) (responses (session w)))))
          = true) as H.
  { rewrite E. unfold sheets_of. rewrite !map_map. cbn [fst].
    apply existsb_exists. exists (sheet_name_of k). split; [|exact F].
    apply in_map_iff. exists (k, r). split; [reflexivity|exact I]. }
  destruct (xlsx_write (sheets_of (heap w)
                          (collect_all_data (heap w) (responses (session w)))))
    as [msg|] eqn:X; [|now elim (RF _ H)].
  exists msg. unfold export_all_results. rewrite bind_get_world.
  destruct (responses (session w)) eqn:R; [contradiction|].
  simpl String.eqb. cbv iota.
  unfold try_except. unfold bind at 1. rewrite X. reflexivity.
Qed.

End Program.

(* ------------------------------------------------------------------ *)
(** * The properties on the sample database *)

Lemma in_by_eqb (x : string) (l : list string) :
  existsb (String.eqb x) l = true -> In x l.
Proof.
  intros H. apply existsb_exists in H as (y & I & E).
  apply String.eqb_eq in E. now subst.
Qed.

(** The sample worlds are what the handlers produce. *)
Example kpi_answered_by_handler :
  run_analysis Sample.neo4j_run
    "Performance Metrics & Sales KPIs" "Resource allocation and marketing focus"
    Sample.q_departments (Sample.cypher Sample.q_departments)
    Sample.kpi_section
  = (Ok tt, Sample.kpi_answered).
Proof. vm_compute. reflexivity. Qed.

Example suppliers_answered_by_handler :
  run_analysis Sample.neo4j_run
    "Supply Chain & Delivery Performance" "Delivery Success Factors"
    Sample.q_suppliers (Sample.cypher Sample.q_suppliers)
    Sample.delivery_section
  = (Ok tt, Sample.suppliers_answered).
Proof. vm_compute. reflexivity. Qed.

(** ** C1 *)

(** C1, as stated, fails: [selectSection] called in the initial state selects
    a section while no category is selected and the page is Home. *)
Lemma select_section_at_home_breaks_invariant :
  ~ (forall calls : list nav_call,
       Forall nav_invariant (nav_trace initial_session calls)).
Proof.
  intros H. specialize (H [selectSection "Reorder Dynamics"]).
  inversion H as [|s l I _]; subst.
  destruct I as [C _]; [discriminate|].
  now apply C.
Qed.

Lemma guarded_navigation_example :
  section_calls_guarded initial_session Sample.browse = true
  /\ Forall nav_invariant (nav_trace initial_session Sample.browse).
Proof.
  split; [reflexivity|].
  apply (guarded_navigation_keeps_invariant Sample.browse). reflexivity.
Defined.

(** ** C2 *)

Lemma chart_dispatch_example :
  nth_error (heap Sample.kpi_answered) 0
  = Some (Pandas.DataFrame_of Sample.departments)
  /\ nth_error (heap Sample.kpi_elsewhere) 1
     = Some (Pandas.DataFrame_of Sample.departments)
  /\ In Sample.q_departments catalog_questions
  /\ In Sample.q_first_order catalog_questions
  /\ Sample.q_departments <> Sample.q_first_order
  /\ fst (dispatch_charts Sample.q_departments 0 Sample.kpi_answered)
     = fst (dispatch_charts Sample.q_departments 1 Sample.kpi_elsewhere).
Proof.
  assert (nth_error (heap Sample.kpi_answered) 0
          = Some (Pandas.DataFrame_of Sample.departments)) as H1
    by (vm_compute; reflexivity).
  assert (nth_error (heap Sample.kpi_elsewhere) 1
          = Some (Pandas.DataFrame_of Sample.departments)) as H2
    by (vm_compute; reflexivity).
  assert (In Sample.q_departments catalog_questions) as I1
    by (apply in_by_eqb; vm_compute; reflexivity).
  assert (In Sample.q_first_order catalog_questions) as I2
    by (apply in_by_eqb; vm_compute; reflexivity).
  assert (Sample.q_departments <> Sample.q_first_order) as N
    by (intros E; discriminate E).
  repeat (split; [assumption|]).
  exact (proj1 (chart_dispatch_keyed_by_question
                  Sample.q_departments Sample.q_first_order
                  (Pandas.DataFrame_of Sample.departments) 0 1
                  Sample.kpi_answered Sample.kpi_elsewhere H1 H2 I1 I2 N)).
Defined.

(** ** C3 *)

(** C3, as stated, fails: the supplier question is asked again when the
    database has no supplier rows left.  The execution succeeds with a
    zero-row table, yet the key keeps the earlier table. *)
Lemma empty_reply_keeps_prior_table :
  fst (run_neo4j_query Sample.neo4j_run (Sample.cypher Sample.q_suppliers)
         None Sample.suppliers_answered)
  = Ok (Some 1)
  /\ nth_error
       (heap (snd (run_analysis Sample.neo4j_run
                     "Supply Chain & Delivery Performance"
                     "Delivery Success Factors"
                     Sample.q_suppliers (Sample.cypher Sample.q_suppliers)
                     Sample.suppliers_answered))) 1
     = Some Pandas.DataFrame_empty
  /\ PyDict.get Sample.suppliers_key
       (responses
          (session (snd (run_analysis Sample.neo4j_run
                           "Supply Chain & Delivery Performance"
                           "Delivery Success Factors"
                           Sample.q_suppliers
                           (Sample.cypher Sample.q_suppliers)
                           Sample.suppliers_answered))))
     = Some 0
  /\ nth_error
       (heap (snd (run_analysis Sample.neo4j_run
                     "Supply Chain & Delivery Performance"
                     "Delivery Success Factors"
                     Sample.q_suppliers (Sample.cypher Sample.q_suppliers)
                     Sample.suppliers_answered))) 0
     = Some (Pandas.DataFrame_of Sample.suppliers)
  /\ Pandas.DataFrame_of Sample.suppliers <> Pandas.DataFrame_empty.
Proof.
  repeat split; try (vm_compute; reflexivity).
  intros E. discriminate E.
Qed.

Lemma reply_stored_example :
  neo4j_connected (session Sample.kpi_section) = true
  /\ neo4j_driver (session Sample.kpi_section) = Some Sample.bolt
  /\ Sample.neo4j_run (length (db_log Sample.kpi_section)) Sample.bolt
       (Sample.cypher Sample.q_departments) []
     = inr Sample.departments
  /\ fst (run_neo4j_query Sample.neo4j_run
            (Sample.cypher Sample.q_departments) None Sample.kpi_section)
     = Ok (Some (length (heap Sample.kpi_section))).
Proof.
  assert (neo4j_connected (session Sample.kpi_section) = true) as H1
    by reflexivity.
  assert (neo4j_driver (session Sample.kpi_section) = Some Sample.bolt) as H2
    by reflexivity.
  assert (Sample.neo4j_run (length (db_log Sample.kpi_section)) Sample.bolt
            (Sample.cypher Sample.q_departments) []
          = inr Sample.departments) as H3 by (vm_compute; reflexivity).
  repeat (split; [assumption|]).
  exact (proj1 (reply_stored_unless_empty Sample.neo4j_run
                  "Performance Metrics & Sales KPIs"
                  "Resource allocation and marketing focus"
                  Sample.q_departments (Sample.cypher Sample.q_departments)
                  Sample.kpi_section Sample.bolt Sample.departments
                  H1 H2 H3)).
Defined.

(** ** C4 *)

(** C4, as stated, fails: the reply to the first-order question lacks the
    column [percentInFirstOrders]; the block of that question has no test
    on the table, [sort_values] raises [KeyError], and the exception leaves
    [category_page]. *)
Lemma missing_column_leaves_category_page :
  literal_matches Sample.q_first_order Sample.first_order_block = true
  /\ Pandas.has_column "percentInFirstOrders"
       (Pandas.DataFrame_of Sample.first_order_short) = false
  /\ fst (category_page Sample.cypher Sample.neo4j_run
            (with_clicked
               (Some "run_Reorder Behavior & Loyalty Drivers_Reorder Dynamics_0")
               Sample.reorder_section))
     = Raise (KeyError "percentInFirstOrders")
  /\ charts_of
       (ui (snd (category_page Sample.cypher Sample.neo4j_run
                   (with_clicked
                      (Some "run_Reorder Behavior & Loyalty Drivers_Reorder Dynamics_0")
                      Sample.reorder_section))))
     = [].
Proof.
  repeat split; vm_compute; reflexivity.
Qed.

Lemma first_order_block_listed : In Sample.first_order_block chart_blocks.
Proof.
  unfold chart_blocks. do 10 right. left. reflexivity.
Qed.

Lemma chart_block_failure_example :
  neo4j_connected (session Sample.reorder_section) = true
  /\ neo4j_driver (session Sample.reorder_section) = Some Sample.bolt
  /\ Sample.neo4j_run (length (db_log Sample.reorder_section)) Sample.bolt
       (Sample.cypher Sample.q_first_order) []
     = inr Sample.first_order_short
  /\ Pandas.empty (Pandas.DataFrame_of Sample.first_order_short) = false
  /\ In Sample.first_order_block chart_blocks
  /\ literal_matches Sample.q_first_order Sample.first_order_block = true
  /\ block_fires Sample.q_first_order
       (Pandas.DataFrame_of Sample.first_order_short)
       Sample.first_order_block = true
  /\ (exists col,
        In col (needed_columns Sample.first_order_block)
        /\ Pandas.has_column col
             (Pandas.DataFrame_of Sample.first_order_short) = false)
  /\ exists e,
       fst (run_analysis Sample.neo4j_run
              "Reorder Behavior & Loyalty Drivers" "Reorder Dynamics"
              Sample.q_first_order (Sample.cypher Sample.q_first_order)
              Sample.reorder_section)
       = Raise e.
Proof.
  assert (neo4j_connected (session Sample.reorder_section) = true) as H1
    by reflexivity.
  assert (neo4j_driver (session Sample.reorder_section) = Some Sample.bolt)
    as H2 by reflexivity.
  assert (Sample.neo4j_run (length (db_log Sample.reorder_section))
            Sample.bolt (Sample.cypher Sample.q_first_order) []
          = inr Sample.first_order_short) as H3 by (vm_compute; reflexivity).
  assert (Pandas.empty (Pandas.DataFrame_of Sample.first_order_short) = false)
    as H4 by (vm_compute; reflexivity).
  assert (literal_matches Sample.q_first_order Sample.first_order_block = true)
    as H6 by (vm_compute; reflexivity).
  assert (block_fires Sample.q_first_order
            (Pandas.DataFrame_of Sample.first_order_short)
            Sample.first_order_block = true) as H7
    by (vm_compute; reflexivity).
  assert (exists col,
            In col (needed_columns Sample.first_order_block)
            /\ Pandas.has_column col
                 (Pandas.DataFrame_of Sample.first_order_short) = false) as H8.
  { exists "percentInFirstOrders". split; [left|]; vm_compute; reflexivity. }
  repeat (split; [first [assumption | exact first_order_block_listed]|]).
  exact (proj1 (proj2 (chart_block_failure_not_caught Sample.neo4j_run
                  "Reorder Behavior & Loyalty Drivers" "Reorder Dynamics"
                  Sample.q_first_order (Sample.cypher Sample.q_first_order)
                  Sample.reorder_section Sample.bolt Sample.first_order_short
                  Sample.first_order_block
                  H1 H2 H3 H4 first_order_block_listed H6) H7 H8)).
Defined.

(** ** C5 *)

(** C5, as stated, fails: on the page of a category with no section
    selected, a run started by the click [back_to_sections] raises nothing.
    The page draws its title, its prompt and the two section buttons, no
    Back to Sections button, and leaves the session as it was. *)
Lemma back_click_without_section_is_no_error :
  section (session (with_clicked (Some "back_to_sections") kpi_category))
  = None
  /\ category_page Sample.cypher Sample.neo4j_run
       (with_clicked (Some "back_to_sections") kpi_category)
     = (Ok tt,
        with_ui (fun u =>
          (u ++ [st_title "Performance Metrics & Sales KPIs";
                 st_markdown "### Select a section to explore:";
                 st_button "Priority stocking & display strategy"
                           "section_Priority stocking & display strategy";
                 st_button "Resource allocation and marketing focus"
                           "section_Resource allocation and marketing focus"])%list)
          (with_clicked (Some "back_to_sections") kpi_category))
  /\ forall e,
       fst (category_page Sample.cypher Sample.neo4j_run
              (with_clicked (Some "back_to_sections") kpi_category))
       <> Raise e.
Proof.
  split; [reflexivity|].
  assert (category_page Sample.cypher Sample.neo4j_run
            (with_clicked (Some "back_to_sections") kpi_category)
          = (Ok tt,
             with_ui (fun u =>
               (u ++ [st_title "Performance Metrics & Sales KPIs";
                      st_markdown "### Select a section to explore:";
                      st_button "Priority stocking & display strategy"
                                "section_Priority stocking & display strategy";
                      st_button "Resource allocation and marketing focus"
                                "section_Resource allocation and marketing focus"])%list)
               (with_clicked (Some "back_to_sections") kpi_category))) as E
    by (vm_compute; reflexivity).
  split; [exact E|].
  intros e. rewrite E. discriminate.
Qed.

Lemma back_to_sections_example :
  nav_consistent
    (session (with_clicked (Some "back_to_sections") Sample.kpi_section))
  /\ current_page
       (session (with_clicked (Some "back_to_sections") Sample.kpi_section))
     = Category
  /\ section
       (session (with_clicked (Some "back_to_sections") Sample.kpi_section))
     <> None
  /\ clicked (with_clicked (Some "back_to_sections") Sample.kpi_section)
     = Some "back_to_sections"
  /\ fst (category_page Sample.cypher Sample.neo4j_run
            (with_clicked (Some "back_to_sections") Sample.kpi_section))
     = Rerun
  /\ section
       (session (snd (category_page Sample.cypher Sample.neo4j_run
                        (with_clicked (Some "back_to_sections")
                                      Sample.kpi_section))))
     = None.
Proof.
  assert (nav_consistent
            (session (with_clicked (Some "back_to_sections")
                                   Sample.kpi_section))) as H1.
  { change (exists sections,
               In ("Performance Metrics & Sales KPIs", sections) catalog
               /\ In "Resource allocation and marketing focus"
                     (map fst sections)).
    eexists. split.
    - unfold catalog. cbn [In]. do 5 right. left. reflexivity.
    - cbn [map fst In]. right. left. reflexivity. }
  assert (current_page
            (session (with_clicked (Some "back_to_sections")
                                   Sample.kpi_section))
          = Category) as H2 by reflexivity.
  assert (section
            (session (with_clicked (Some "back_to_sections")
                                   Sample.kpi_section))
          <> None) as H3 by discriminate.
  assert (clicked (with_clicked (Some "back_to_sections") Sample.kpi_section)
          = Some "back_to_sections") as H4 by reflexivity.
  split; [exact H1|]. split; [exact H2|]. split; [exact H3|].
  split; [exact H4|].
  destruct (proj2 (back_only_from_section Sample.cypher Sample.neo4j_run
                     (with_clicked (Some "back_to_sections")
                                   Sample.kpi_section) H1 H2) H3 H4)
    as (R1 & _ & R3 & _).
  split; [exact R1 | exact R3].
Defined.

(** ** C6 *)

Lemma query_while_disconnected_example :
  neo4j_connected (session initial_world) = false
  /\ fst (run_neo4j_query Sample.neo4j_run
            (Sample.cypher Sample.q_departments) None initial_world)
     = Ok None
  /\ db_log (snd (run_neo4j_query Sample.neo4j_run
                    (Sample.cypher Sample.q_departments) None initial_world))
     = db_log initial_world.
Proof.
  split; [reflexivity|].
  pose proof (query_while_disconnected Sample.neo4j_run
                (Sample.cypher Sample.q_departments) None initial_world
                eq_refl) as (H1 & _ & H3 & _).
  split; assumption.
Defined.

(** ** C7 *)

Lemma failed_query_example :
  neo4j_connected (session Sample.lifecycle_section) = true
  /\ neo4j_driver (session Sample.lifecycle_section) = Some Sample.bolt
  /\ Sample.neo4j_run (length (db_log Sample.lifecycle_section)) Sample.bolt
       (Sample.cypher Sample.q_lifecycle) []
     = inl "Unknown function 'gds.pageRank.stream'"
  /\ responses
       (session (snd (run_analysis Sample.neo4j_run
                        "Demand Trends & Seasonality"
                        "Product Lifecycle & Decline"
                        Sample.q_lifecycle (Sample.cypher Sample.q_lifecycle)
                        Sample.lifecycle_section)))
     = responses (session Sample.lifecycle_section).
Proof.
  assert (neo4j_connected (session Sample.lifecycle_section) = true) as H1
    by reflexivity.
  assert (neo4j_driver (session Sample.lifecycle_section) = Some Sample.bolt)
    as H2 by reflexivity.
  assert (Sample.neo4j_run (length (db_log Sample.lifecycle_section))
            Sample.bolt (Sample.cypher Sample.q_lifecycle) []
          = inl "Unknown function 'gds.pageRank.stream'") as H3
    by (vm_compute; reflexivity).
  repeat (split; [assumption|]).
  exact (proj1 (proj2 (proj2 (proj2
           (failed_query_leaves_results Sample.neo4j_run
              "Demand Trends & Seasonality" "Product Lifecycle & Decline"
              Sample.q_lifecycle (Sample.cypher Sample.q_lifecycle)
              Sample.lifecycle_section Sample.bolt
              "Unknown function 'gds.pageRank.stream'" H1 H2 H3))))).
Defined.

(** ** C8 *)

(** C8, as stated, fails: the one stored result of [kpi_answered] is the
    department question of the section "Resource allocation and marketing
    focus"; its sheet is named after the question, not after the section. *)
Lemma sheet_named_after_question :
  responses (session Sample.kpi_answered) = [(Sample.kpi_key, 0)]
  /\ map fst (sheets_of (heap Sample.kpi_answered)
                (collect_all_data (heap Sample.kpi_answered)
                   (responses (session Sample.kpi_answered))))
     = ["Which departments contribute mo"]
  /\ PyStr.slice_to 31 "Resource allocation and marketing focus"
     = "Resource allocation and marketi"
  /\ "Which departments contribute mo"
     <> PyStr.slice_to 31 "Resource allocation and marketing focus".
Proof.
  repeat split; try (vm_compute; reflexivity).
  intros E. vm_compute in E. discriminate E.
Qed.

Lemma export_example :
  PyDict.wf (responses (session Sample.kpi_answered))
  /\ (forall k r, In (k, r) (responses (session Sample.kpi_answered)) ->
        In k catalog_keys /\ r < length (heap Sample.kpi_answered))
  /\ collect_all_data (heap Sample.kpi_answered)
       (responses (session Sample.kpi_answered))
     = map (fun kr => (sheet_name_of (fst kr), snd kr))
           (responses (session Sample.kpi_answered)).
Proof.
  assert (PyDict.wf (responses (session Sample.kpi_answered))) as H1.
  { unfold PyDict.wf. simpl. constructor; [simpl; tauto | constructor]. }
  assert (forall k r, In (k, r) (responses (session Sample.kpi_answered)) ->
            In k catalog_keys /\ r < length (heap Sample.kpi_answered)) as H2.
  { intros k r [E|[]]. inversion E; subst. split.
    - apply in_by_eqb. vm_compute. reflexivity.
    - simpl. lia. }
  repeat (split; [assumption|]).
  exact (proj1 (export_sheet_per_catalog_result Sample.xlsx_write
                  Sample.kpi_answered H1 H2)).
Defined.

(** ** C10 *)

Lemma reconnect_example :
  neo4j_driver (session Sample.connected) = Some Sample.bolt
  /\ drv_id Sample.bolt < drivers_made Sample.connected
  /\ ~ In (drv_id Sample.bolt) (close_log Sample.connected)
  /\ fst (connect_to_neo4j Sample.neo4j_open Sample.neo4j_run
            "bolt://localhost:7687" "neo4j" "secret" Sample.connected)
     = Ok true
  /\ forall acts : list action,
       ~ In (drv_id Sample.bolt)
            (close_log
               (perform_all Sample.cypher Sample.neo4j_open Sample.neo4j_run
                  Sample.neo4j_close Sample.xlsx_write
                  (snd (connect_to_neo4j Sample.neo4j_open Sample.neo4j_run
                          "bolt://localhost:7687" "neo4j" "secret"
                          Sample.connected))
                  acts)).
Proof.
  assert (neo4j_driver (session Sample.connected) = Some Sample.bolt) as H1
    by reflexivity.
  assert (drv_id Sample.bolt < drivers_made Sample.connected) as H2
    by (simpl; lia).
  assert (~ In (drv_id Sample.bolt) (close_log Sample.connected)) as H3
    by (simpl; tauto).
  assert (fst (connect_to_neo4j Sample.neo4j_open Sample.neo4j_run
                 "bolt://localhost:7687" "neo4j" "secret" Sample.connected)
          = Ok true) as H4 by (vm_compute; reflexivity).
  repeat (split; [assumption|]).
  exact (proj2 (proj2 (proj2 (proj2 (proj2
           (reconnect_drops_open_driver Sample.cypher Sample.neo4j_open
              Sample.neo4j_run Sample.neo4j_close Sample.xlsx_write
              "bolt://localhost:7687" "neo4j" "secret" Sample.connected
              Sample.bolt H1 H2 H3 H4)))))).
Defined.

(* ------------------------------------------------------------------ *)
(** * The further properties on the sample database *)

Lemma none_matches (q : string) :
  forallb (fun b => negb (literal_matches q b)) chart_blocks = true ->
  forall b, In b chart_blocks -> literal_matches q b = false.
Proof.
  intros H b Hb. rewrite forallb_forall in H.
  apply negb_true_iff. auto.
Qed.

Lemma question_without_chart_example :
  neo4j_connected (session Sample.delivery_section) = true
  /\ neo4j_driver (session Sample.delivery_section) = Some Sample.bolt
  /\ Sample.neo4j_run (length (db_log Sample.delivery_section)) Sample.bolt
       (Sample.cypher Sample.q_suppliers) []
     = inr Sample.suppliers
  /\ Pandas.empty (Pandas.DataFrame_of Sample.suppliers) = false
  /\ run_analysis Sample.neo4j_run
       "Supply Chain & Delivery Performance" "Delivery Success Factors"
       Sample.q_suppliers (Sample.cypher Sample.q_suppliers)
       Sample.delivery_section
     = (Ok tt, Sample.suppliers_answered).
Proof.
  assert (neo4j_connected (session Sample.delivery_section) = true) as H1
    by reflexivity.
  assert (neo4j_driver (session Sample.delivery_section) = Some Sample.bolt)
    as H2 by reflexivity.
  assert (Sample.neo4j_run (length (db_log Sample.delivery_section))
            Sample.bolt (Sample.cypher Sample.q_suppliers) []
          = inr Sample.suppliers) as H3 by (vm_compute; reflexivity).
  assert (Pandas.empty (Pandas.DataFrame_of Sample.suppliers) = false) as H4
    by (vm_compute; reflexivity).
  repeat (split; [assumption|]).
  exact (question_without_chart_shows_table Sample.neo4j_run
           "Supply Chain & Delivery Performance" "Delivery Success Factors"
           Sample.q_suppliers (Sample.cypher Sample.q_suppliers)
           Sample.delivery_section Sample.bolt Sample.suppliers
           H1 H2 H3 H4
           (none_matches Sample.q_suppliers
              ltac:(vm_compute; reflexivity))).
Defined.

Lemma pairing_chart_example :
  literal_matches Sample.q_pairings pairing_block = true
  /\ Pandas.issubset ["productA"; "productB"; "timesBoughtTogether"]
       (Pandas.DataFrame_of Sample.pairings) = true
  /\ Pandas.has_column "pair" (Pandas.DataFrame_of Sample.pairings) = false
  /\ text_column "productA" Sample.pairings = true
  /\ text_column "productB" Sample.pairings = true
  /\ nth_error
       (heap (snd (run_analysis Sample.neo4j_run
                     "Product Affinity, Graphs & Recommendations"
                     "Co-Purchase Patterns & Product Graphs"
                     Sample.q_pairings (Sample.cypher Sample.q_pairings)
                     (Sample.at_section
                        "Product Affinity, Graphs & Recommendations"
                        "Co-Purchase Patterns & Product Graphs"))))
       (length (heap (Sample.at_section
                        "Product Affinity, Graphs & Recommendations"
                        "Co-Purchase Patterns & Product Graphs")))
     = Some (with_new_column "pair"
               (pair_label (Pandas.DataFrame_of Sample.pairings))
               (Pandas.DataFrame_of Sample.pairings)).
Proof.
  assert (literal_matches Sample.q_pairings pairing_block = true) as H5
    by (vm_compute; reflexivity).
  assert (Pandas.issubset ["productA"; "productB"; "timesBoughtTogether"]
            (Pandas.DataFrame_of Sample.pairings) = true) as H6
    by (vm_compute; reflexivity).
  assert (Pandas.has_column "pair" (Pandas.DataFrame_of Sample.pairings)
          = false) as H7 by (vm_compute; reflexivity).
  assert (text_column "productA" Sample.pairings = true) as H8
    by (vm_compute; reflexivity).
  assert (text_column "productB" Sample.pairings = true) as H9
    by (vm_compute; reflexivity).
  repeat (split; [assumption|]).
  exact (proj1 (proj2 (proj2
           (pairing_chart_extends_stored_table Sample.neo4j_run
              "Product Affinity, Graphs & Recommendations"
              "Co-Purchase Patterns & Product Graphs"
              Sample.q_pairings (Sample.cypher Sample.q_pairings)
              (Sample.at_section
                 "Product Affinity, Graphs & Recommendations"
                 "Co-Purchase Patterns & Product Graphs")
              Sample.bolt Sample.pairings
              eq_refl eq_refl
              ltac:(vm_compute; reflexivity)
              ltac:(vm_compute; reflexivity)
              H5 H6 H7 H8 H9)))).
Defined.

Lemma category_page_navigation_example :
  nav_consistent
    (session (with_clicked (Some "back_to_sections") Sample.kpi_section))
  /\ nav_consistent
       (session (snd (category_page Sample.cypher Sample.neo4j_run
                        (with_clicked (Some "back_to_sections")
                                      Sample.kpi_section))))
  /\ current_page
       (session (snd (category_page Sample.cypher Sample.neo4j_run
                        (with_clicked (Some "back_to_sections")
                                      Sample.kpi_section))))
     = current_page
         (session (with_clicked (Some "back_to_sections") Sample.kpi_section))
  /\ category
       (session (snd (category_page Sample.cypher Sample.neo4j_run
                        (with_clicked (Some "back_to_sections")
                                      Sample.kpi_section))))
     = category
         (session (with_clicked (Some "back_to_sections") Sample.kpi_section)).
Proof.
  assert (nav_consistent
            (session (with_clicked (Some "back_to_sections")
                                   Sample.kpi_section))) as H.
  { change (exists sections,
               In ("Performance Metrics & Sales KPIs", sections) catalog
               /\ In "Resource allocation and marketing focus"
                     (map fst sections)).
    eexists. split.
    - unfold catalog. cbn [In]. do 5 right. left. reflexivity.
    - cbn [map fst In]. right. left. reflexivity. }
  split; [exact H|].
  exact (category_page_keeps_navigation Sample.cypher Sample.neo4j_run
           (with_clicked (Some "back_to_sections") Sample.kpi_section) H).
Defined.

Lemma sidebar_navigation_example :
  nav_consistent
    (session (with_clicked (Some "sidebar_Demand Trends & Seasonality")
                           Sample.kpi_section))
  /\ nav_consistent
       (session (snd (sidebar Sample.cypher Sample.neo4j_close
                        Sample.xlsx_write "CSV"
                        (with_clicked
                           (Some "sidebar_Demand Trends & Seasonality")
                           Sample.kpi_section)))).
Proof.
  assert (nav_consistent
            (session (with_clicked
                        (Some "sidebar_Demand Trends & Seasonality")
                        Sample.kpi_section))) as H.
  { change (exists sections,
               In ("Performance Metrics & Sales KPIs", sections) catalog
               /\ In "Resource allocation and marketing focus"
                     (map fst sections)).
    eexists. split.
    - unfold catalog. cbn [In]. do 5 right. left. reflexivity.
    - cbn [map fst In]. right. left. reflexivity. }
  split; [exact H|].
  exact (sidebar_keeps_navigation Sample.cypher Sample.neo4j_close
           Sample.xlsx_write "CSV"
           (with_clicked (Some "sidebar_Demand Trends & Seasonality")
                         Sample.kpi_section) H).
Defined.

Lemma browsing_example :
  nav_consistent
    (session (with_clicked (Some "back_to_sections") Sample.kpi_section))
  /\ current_page
       (session (with_clicked (Some "back_to_sections") Sample.kpi_section))
     = Category
  /\ (forall k,
        clicked (with_clicked (Some "back_to_sections") Sample.kpi_section)
        = Some k ->
        PyStr.startswith k "run_" = false)
  /\ (forall e,
        fst (category_page Sample.cypher Sample.neo4j_run
               (with_clicked (Some "back_to_sections") Sample.kpi_section))
        <> Raise e)
  /\ untouched
       (with_clicked (Some "back_to_sections") Sample.kpi_section)
       (snd (category_page Sample.cypher Sample.neo4j_run
               (with_clicked (Some "back_to_sections") Sample.kpi_section))).
Proof.
  assert (nav_consistent
            (session (with_clicked (Some "back_to_sections")
                                   Sample.kpi_section))) as H1.
  { change (exists sections,
               In ("Performance Metrics & Sales KPIs", sections) catalog
               /\ In "Resource allocation and marketing focus"
                     (map fst sections)).
    eexists. split.
    - unfold catalog. cbn [In]. do 5 right. left. reflexivity.
    - cbn [map fst In]. right. left. reflexivity. }
  assert (current_page
            (session (with_clicked (Some "back_to_sections")
                                   Sample.kpi_section))
          = Category) as H2 by reflexivity.
  assert (forall k,
            clicked (with_clicked (Some "back_to_sections")
                                  Sample.kpi_section) = Some k ->
            PyStr.startswith k "run_" = false) as H3.
  { intros k E. injection E as <-. reflexivity. }
  split; [exact H1|]. split; [exact H2|]. split; [exact H3|].
  exact (browsing_never_fails Sample.cypher Sample.neo4j_run
           (with_clicked (Some "back_to_sections") Sample.kpi_section)
           H1 H2 H3).
Defined.

Lemma run_click_example :
  clicked
    (with_clicked
       (Some (run_key "Performance Metrics & Sales KPIs"
                      "Resource allocation and marketing focus" 0))
       Sample.kpi_section)
  = Some "run_Performance Metrics & Sales KPIs_Resource allocation and marketing focus_0"
  /\ db_log
       (snd (category_page Sample.cypher Sample.neo4j_run
               (with_clicked
                  (Some (run_key "Performance Metrics & Sales KPIs"
                                 "Resource allocation and marketing focus" 0))
                  Sample.kpi_section)))
     = (db_log Sample.kpi_section
        ++ [{| call_driver := drv_id Sample.bolt;
               call_query := Sample.cypher Sample.q_departments;
               call_params := [] |}])%list.
Proof.
  split; [reflexivity|].
  exact (run_click_sends_its_query Sample.cypher Sample.neo4j_run
           (with_clicked
              (Some (run_key "Performance Metrics & Sales KPIs"
                             "Resource allocation and marketing focus" 0))
              Sample.kpi_section)
           "Performance Metrics & Sales KPIs"
           "Resource allocation and marketing focus"
           [("Priority stocking & display strategy",
             [{| question := "Which products connect the widest variety of departments and have high co-purchase influence?";
                 query := Sample.cypher "Which products connect the widest variety of departments and have high co-purchase influence?" |}]);
            ("Resource allocation and marketing focus",
             [{| question := Sample.q_departments;
                 query := Sample.cypher Sample.q_departments |}])]
           [{| question := Sample.q_departments;
               query := Sample.cypher Sample.q_departments |}]
           0
           {| question := Sample.q_departments;
              query := Sample.cypher Sample.q_departments |}
           Sample.bolt
           eq_refl eq_refl
           ltac:(vm_compute; reflexivity)
           ltac:(vm_compute; reflexivity)
           eq_refl eq_refl eq_refl eq_refl).
Defined.

Lemma forbidden_sheet_name_example :
  store_ok basket_answered
  /\ refuses_forbidden strict_writer
  /\ In (basket_key, 0) (responses (session basket_answered))
  /\ sheet_name_of basket_key = "How does customer/basket share "
  /\ has_forbidden (sheet_name_of basket_key) = true
  /\ exists msg,
       export_all_results strict_writer "Excel" basket_answered
       = (Ok tt,
          shown (sidebar_error ("Error creating Excel file: " ++ msg))
                basket_answered).
Proof.
  assert (store_ok basket_answered) as H1.
  { split.
    - unfold PyDict.wf. simpl. constructor; [simpl; tauto | constructor].
    - intros k r [E|[]]. inversion E; subst. split.
      + apply in_by_eqb. vm_compute. reflexivity.
      + simpl. lia. }
  assert (refuses_forbidden strict_writer) as H2.
  { intros sheets H. unfold strict_writer. rewrite H. discriminate. }
  assert (In (basket_key, 0) (responses (session basket_answered))) as H3
    by (left; reflexivity).
  assert (sheet_name_of basket_key = "How does customer/basket share ") as H4
    by (vm_compute; reflexivity).
  assert (has_forbidden (sheet_name_of basket_key) = true) as H5
    by (vm_compute; reflexivity).
  repeat (split; [assumption|]).
  exact (forbidden_sheet_name_blocks_workbook strict_writer basket_answered
           basket_key 0 H1 H2 H3 H5).
Defined.
